(** * NeuroMath diagnostic session: a shallow embedding of the [Diagnostic] page

    The component [Diagnostic] drives a five-stage diagnostic session:
    age capture, enrolment, a main test of ten questions, an optional
    confirmatory test of five questions, and the remediation roadmap.

    Embedding conventions.
    - JavaScript strings are embedded as [string]; a character stands for a
      UTF-16 code unit in the range 0..255, with the Latin-1 white space and
      letter case rules of JavaScript.
    - JavaScript arrays are lists, read with [nth_error]: an index past the
      end yields [None], the embedding of [undefined].
    - The plain object used as a counter table in [detectBlockers] is an
      association list of own properties in creation order, together with
      the properties every plain object inherits from [Object.prototype]
      and the enumeration order of [Object.entries].
    - React state is a record.  A handler reads the snapshot of the render
      that created it and writes the next state through setters.
    - The data store and the three generation endpoints are external: the
      outcome of every call is an input of the handler (a [World]).

    Besides the session, the development embeds what the test view
    derives from the state (progress bar and question label), the loader
    of the dashboard, which groups the fetched rows by student and by
    test, and the extraction of the JSON object from the model's reply in
    the roadmap endpoint. *)

From Stdlib Require Import List String Ascii Bool Arith NArith ZArith QArith Lia.
From Stdlib Require Import Sorting.Sorted Sorting.Permutation.
Import ListNotations.
Close Scope Q_scope.
Open Scope string_scope.
Open Scope list_scope.
Open Scope nat_scope.


(** ** JavaScript strings *)

(** White space removed by [String.prototype.trim], restricted to code
    units below 256: TAB, LF, VT, FF, CR, SPACE and NO-BREAK SPACE. *)
Definition isWhiteSpace (c : ascii) : bool :=
  let n := nat_of_ascii c in
  ((9 <=? n) && (n <=? 13)) || (n =? 32) || (n =? 160).

Fixpoint trimStart (s : string) : string :=
  match s with
  | EmptyString => EmptyString
  | String c s' => if isWhiteSpace c then trimStart s' else s
  end.

Fixpoint trimEnd (s : string) : string :=
  match s with
  | EmptyString => EmptyString
  | String c s' =>
      match trimEnd s' with
      | EmptyString => if isWhiteSpace c then EmptyString else String c EmptyString
      | t => String c t
      end
  end.

(** [s.trim()] *)
Definition trim (s : string) : string := trimEnd (trimStart s).

(** Lower case of one code unit: A..Z and the Latin-1 capitals
    U+00C0..U+00DE (without the multiplication sign U+00D7). *)
Definition lowerChar (c : ascii) : ascii :=
  let n := nat_of_ascii c in
  if ((65 <=? n) && (n <=? 90))
     || ((192 <=? n) && (n <=? 222) && negb (n =? 215))
  then ascii_of_nat (n + 32) else c.

(** [s.toLowerCase()] *)
Fixpoint toLowerCase (s : string) : string :=
  match s with
  | EmptyString => EmptyString
  | String c s' => String (lowerChar c) (toLowerCase s')
  end.

(** [!s.trim()]: the guard that rejects a blank name or answer. *)
Definition isBlank (s : string) : bool := String.eqb (trim s) "".

(** A string of white space only. *)
Fixpoint whiteSpaceOnly (s : string) : bool :=
  match s with
  | EmptyString => true
  | String c s' => isWhiteSpace c && whiteSpaceOnly s'
  end.

(** ** Answer evaluation

    [handleAnswerSubmit], the line
    [userAnswer.trim().toLowerCase() === question.correctAnswer.toLowerCase()]. *)

Definition isCorrectAnswer (userAnswer correctAnswer : string) : bool :=
  String.eqb (toLowerCase (trim userAnswer)) (toLowerCase correctAnswer).

(** What the specification describes: both sides trimmed and case-folded. *)
Definition evaluate_both_trimmed (studentAnswer referenceAnswer : string) : bool :=
  String.eqb (toLowerCase (trim studentAnswer)) (toLowerCase (trim referenceAnswer)).

(** ** Data model *)

(** [interface Question] *)
Record Question := mkQuestion {
  q_questionText : string;
  q_correctAnswer : string;
  q_construct : string;
  q_difficultyLevel : nat
}.

(** The response object literal built in [handleAnswerSubmit]. *)
Record Response := mkResponse {
  questionNumber : nat;
  questionText : string;
  r_userAnswer : string;
  r_correctAnswer : string;
  isCorrect : bool;
  construct : string;
  difficultyLevel : nat
}.

(** [interface Blocker] *)
Record Blocker := mkBlocker {
  blocker_name : string;
  error_count : nat
}.

(** [severity_level] *)
Inductive Severity := none | mild | moderate | severe.

(** ** The counter table of [detectBlockers]: a plain JavaScript object *)

(** A property of [constructErrors] holds a number, or a string once the
    increment has been applied to an inherited function or object. *)
Inductive JsValue :=
| JNum (n : nat)
| JStr (s : string).

(** Own properties, in creation order. *)
Definition JsObject := list (string * JsValue).

(** The properties a plain object inherits from [Object.prototype], each
    with the string its value turns into under [+]: a built-in function
    prints as its native source (written here as V8 prints it; in every
    engine it is a string that is no numeral), the prototype object behind
    [__proto__] as [[object Object]]. *)
Definition nativeFunction (name : string) : string :=
  ("function " ++ name ++ "() { [native code] }")%string.

Definition Object_prototype (key : string) : option string :=
  if String.eqb key "__proto__" then Some "[object Object]"
  else if String.eqb key "constructor" then Some (nativeFunction "Object")
  else if (String.eqb key "hasOwnProperty") || (String.eqb key "isPrototypeOf")
          || (String.eqb key "propertyIsEnumerable") || (String.eqb key "toLocaleString")
          || (String.eqb key "toString") || (String.eqb key "valueOf")
          || (String.eqb key "__defineGetter__") || (String.eqb key "__defineSetter__")
          || (String.eqb key "__lookupGetter__") || (String.eqb key "__lookupSetter__")
       then Some (nativeFunction key)
  else None.

Fixpoint get_own (o : JsObject) (key : string) : option JsValue :=
  match o with
  | [] => None
  | (k, v) :: o' => if String.eqb k key then Some v else get_own o' key
  end.

(** [(constructErrors[key] || 0) + 1]: the own property if there is one,
    else the inherited one, else [undefined]; a falsy value ([undefined],
    [0], the empty string) is replaced by [0]; [+] adds numbers and
    concatenates once either side is a string. *)
Definition incremented (o : JsObject) (key : string) : JsValue :=
  match get_own o key with
  | Some (JNum n) => JNum (n + 1)
  | Some (JStr s) => if String.eqb s "" then JNum 1 else JStr (s ++ "1")%string
  | None =>
      match Object_prototype key with
      | Some inherited => JStr (inherited ++ "1")%string
      | None => JNum 1
      end
  end.

Fixpoint update_own (o : JsObject) (key : string) (v : JsValue) : JsObject :=
  match o with
  | [] => [(key, v)]
  | (k, w) :: o' => if String.eqb k key then (k, v) :: o' else (k, w) :: update_own o' key v
  end.

(** [constructErrors[key] = v].  Assigning a primitive to [__proto__] runs
    the inherited setter, which ignores it; every other key becomes (or
    stays) an own property. *)
Definition set_prop (o : JsObject) (key : string) (v : JsValue) : JsObject :=
  if String.eqb key "__proto__" then o else update_own o key v.

(** Array indices: the canonical decimal numerals of 0 .. 2^32 - 2. *)
Definition digit_of (c : ascii) : option N :=
  let n := N_of_ascii c in
  if ((48 <=? n) && (n <=? 57))%N then Some (n - 48)%N else None.

Fixpoint parse_digits (acc : N) (s : string) : option N :=
  match s with
  | EmptyString => Some acc
  | String c s' =>
      match digit_of c with
      | Some d => parse_digits (10 * acc + d)%N s'
      | None => None
      end
  end.

Definition array_index (key : string) : option N :=
  match key with
  | EmptyString => None
  | String c rest =>
      if (Ascii.eqb c "0") && negb (String.eqb rest "") then None
      else match parse_digits 0%N key with
           | Some n => if (n <=? 4294967294)%N then Some n else None
           | None => None
           end
  end.

Definition Entry := (string * JsValue)%type.

Fixpoint insert_by_index (e : N * Entry) (l : list (N * Entry)) : list (N * Entry) :=
  match l with
  | [] => [e]
  | x :: l' => if (fst e <=? fst x)%N then e :: l else x :: insert_by_index e l'
  end.

Definition sort_by_index (l : list (N * Entry)) : list (N * Entry) :=
  fold_right insert_by_index [] l.

Definition index_props (o : JsObject) : list (N * Entry) :=
  flat_map (fun e => match array_index (fst e) with
                     | Some i => [(i, e)]
                     | None => []
                     end) o.

Definition named_props (o : JsObject) : list Entry :=
  filter (fun e => match array_index (fst e) with
                   | Some _ => false
                   | None => true
                   end) o.

(** [Object.entries(o)]: own properties whose key is an array index come
    first, in ascending numeric order, then the other keys in creation
    order. *)
Definition Object_entries (o : JsObject) : list Entry :=
  map snd (sort_by_index (index_props o)) ++ named_props o.

(** ** Blocker detection: the pure part of [detectBlockers] *)

(** [count >= 2]: a string is converted to a number first; the strings
    stored in this table start with [function] or [[object], convert to
    NaN, and NaN compares false. *)
Definition count_ge_2 (count : JsValue) : bool :=
  match count with
  | JNum n => 2 <=? n
  | JStr _ => false
  end.

(** The [error_count] of an entry that passed the filter, a number. *)
Definition as_count (count : JsValue) : nat :=
  match count with
  | JNum n => n
  | JStr _ => 0
  end.

(** [allResponses.filter((r) => !r.isCorrect).forEach(...)] on [{}]. *)
Definition count_error (o : JsObject) (r : Response) : JsObject :=
  set_prop o (construct r) (incremented o (construct r)).

Definition constructErrors (allResponses : list Response) : JsObject :=
  fold_left count_error (filter (fun r => negb (isCorrect r)) allResponses) [].

(** [Object.entries(constructErrors).filter(...).map(...)] *)
Definition detectedBlockers (allResponses : list Response) : list Blocker :=
  map (fun e => mkBlocker (fst e) (as_count (snd e)))
      (filter (fun e => count_ge_2 (snd e))
              (Object_entries (constructErrors allResponses))).

(** [detectedBlockers[0].blocker_name], the construct sent to the
    confirmatory-test endpoint. *)
Definition primaryBlocker (allResponses : list Response) : option string :=
  option_map blocker_name (nth_error (detectedBlockers allResponses) 0).

(** ** Severity: the scoring lines of [generateRoadmap] *)

(** [filter(r => !r.isCorrect).length / allResponses.length].  The quotient
    of two array lengths is a double; compared with the literals 0.6, 0.4
    and 0.2 it behaves as the exact rational does with 3/5, 2/5 and 1/5:
    rounding is monotone, and for lengths below 2^32 a rational k/n other
    than the bound is further from it than one unit in the last place.
    [0 / 0] is NaN, embedded as [None]. *)
Definition incorrectCount (allResponses : list Response) : nat :=
  List.length (filter (fun r => negb (isCorrect r)) allResponses).

Definition errorRate (allResponses : list Response) : option Q :=
  match List.length allResponses with
  | 0 => None
  | S _ => Some (Qmake (Z.of_nat (incorrectCount allResponses))
                      (Pos.of_nat (List.length allResponses)))
  end.

(** [errorRate > bound]; every comparison with NaN is false. *)
Definition exceeds (rate : option Q) (bound : Q) : bool :=
  match rate with
  | Some x => negb (Qle_bool x bound)
  | None => false
  end.

Definition overallSeverity (blockers : list Blocker) (allResponses : list Response)
  : Severity :=
  let errorRate := errorRate allResponses in
  if (3 <=? List.length blockers) || exceeds errorRate (6 # 10)%Q then severe
  else if (2 <=? List.length blockers) || exceeds errorRate (4 # 10)%Q then moderate
  else if (1 <=? List.length blockers) || exceeds errorRate (2 # 10)%Q then mild
  else none.

(** ** The data store

    The tables of the migration that the component writes.  A new row of
    [students] or [diagnostic_tests] gets the next free identifier, its
    position in the table (the embedding of [uuid_generate_v4]). *)

Inductive TestStatus := in_progress | completed.

Record StudentRow := mkStudentRow {
  student_id : nat;
  student_name : string;
  student_age : Z;
  teacher_id : nat
}.

Record TestRow := mkTestRow {
  test_id : nat;
  test_student_id : nat;
  age_at_test : Z;
  status : TestStatus;
  overall_severity : Severity
}.

Record ResponseRow := mkResponseRow {
  response_test_id : nat;
  question_number : nat;
  question_text : string;
  user_answer : string;
  correct_answer : string;
  is_correct : bool;
  construct_tested : string;
  difficulty_level : nat
}.

Record BlockerRow := mkBlockerRow {
  blocker_test_id : nat;
  row_blocker_name : string;
  row_error_count : nat;
  is_confirmed : bool
}.

(** The roadmap payload is opaque to the component. *)
Definition RoadmapData := string.

Record RoadmapRow := mkRoadmapRow {
  roadmap_test_id : nat;
  roadmap_data : RoadmapData
}.

Record Database := mkDatabase {
  students : list StudentRow;
  diagnostic_tests : list TestRow;
  test_responses : list ResponseRow;
  blockers_detected : list BlockerRow;
  remediation_roadmaps : list RoadmapRow
}.

Definition with_students (v : list StudentRow) (d : Database) : Database :=
  mkDatabase v (diagnostic_tests d) (test_responses d) (blockers_detected d)
             (remediation_roadmaps d).
Definition with_tests (v : list TestRow) (d : Database) : Database :=
  mkDatabase (students d) v (test_responses d) (blockers_detected d)
             (remediation_roadmaps d).
Definition with_responses (v : list ResponseRow) (d : Database) : Database :=
  mkDatabase (students d) (diagnostic_tests d) v (blockers_detected d)
             (remediation_roadmaps d).
Definition with_blockers (v : list BlockerRow) (d : Database) : Database :=
  mkDatabase (students d) (diagnostic_tests d) (test_responses d) v
             (remediation_roadmaps d).
Definition with_roadmaps (v : list RoadmapRow) (d : Database) : Database :=
  mkDatabase (students d) (diagnostic_tests d) (test_responses d)
             (blockers_detected d) v.

(** [.update({status: "completed", ..., overall_severity}).eq("id", id)] *)
Definition complete_test (id : nat) (sev : Severity) (t : TestRow) : TestRow :=
  if test_id t =? id
  then mkTestRow (test_id t) (test_student_id t) (age_at_test t) completed sev
  else t.

(** [.update({is_confirmed: true}).eq("test_id", id)] *)
Definition confirm_blocker (id : nat) (b : BlockerRow) : BlockerRow :=
  if blocker_test_id b =? id
  then mkBlockerRow (blocker_test_id b) (row_blocker_name b) (row_error_count b) true
  else b.

Definition response_row (id : nat) (r : Response) : ResponseRow :=
  mkResponseRow id (questionNumber r) (questionText r) (r_userAnswer r)
                (r_correctAnswer r) (isCorrect r) (construct r) (difficultyLevel r).

Definition blocker_row (id : nat) (b : Blocker) : BlockerRow :=
  mkBlockerRow id (blocker_name b) (error_count b) false.

(** ** The outside world

    What each awaited call of one handler run comes back with. *)

Inductive DbResult :=
| DbOk
| DbError (message : string).

(** A [fetch] followed by [response.json()]. *)
Inductive FetchResult (A : Type) :=
| RateLimited                  (* response.status === 429 *)
| NotOk                        (* any other status with !response.ok *)
| Rejected (message : string)  (* fetch or response.json() rejects *)
| Fetched (body : A).
Arguments RateLimited {A}.
Arguments NotOk {A}.
Arguments Rejected {A} message.
Arguments Fetched {A} body.

(** The parsed body of a question endpoint: an array of questions, or a
    JSON object, which is not iterable. *)
Inductive Payload :=
| JsonArray (qs : list Question)
| JsonObject (q : Question).

Record World := mkWorld {
  auth_session : option nat;
  insert_student : DbResult;
  insert_test : DbResult;
  question_batch : FetchResult Payload;
  insert_responses : DbResult;
  insert_blockers : DbResult;
  confirmatory_batch : FetchResult Payload;
  roadmap_response : FetchResult RoadmapData;
  insert_roadmap : DbResult;
  update_test : DbResult;
  update_blockers : DbResult
}.

(** ** Component state *)

Inductive Stage :=
| stage_age
| stage_student_info
| stage_main_test
| stage_confirmatory
| stage_roadmap.

Definition Stage_eqb (a b : Stage) : bool :=
  match a, b with
  | stage_age, stage_age
  | stage_student_info, stage_student_info
  | stage_main_test, stage_main_test
  | stage_confirmatory, stage_confirmatory
  | stage_roadmap, stage_roadmap => true
  | _, _ => false
  end.

(** The [useState] cells of [Diagnostic]. *)
Record State := mkState {
  stage : Stage;
  age : option Z;
  studentName : string;
  studentId : option nat;
  testId : option nat;
  currentQuestion : nat;
  questions : list Question;
  responses : list Response;
  userAnswer : string;
  loading : bool;
  blockers : list Blocker;
  roadmap : option RoadmapData
}.

Definition initialState : State :=
  mkState stage_age None "" None None 0 [] [] "" false [] None.

Definition MAIN_TEST_LENGTH : nat := 10.
Definition CONFIRMATORY_LENGTH : nat := 5.

Definition setStage (v : Stage) (s : State) : State :=
  mkState v (age s) (studentName s) (studentId s) (testId s) (currentQuestion s)
          (questions s) (responses s) (userAnswer s) (loading s) (blockers s) (roadmap s).
Definition setAge (v : option Z) (s : State) : State :=
  mkState (stage s) v (studentName s) (studentId s) (testId s) (currentQuestion s)
          (questions s) (responses s) (userAnswer s) (loading s) (blockers s) (roadmap s).
Definition setStudentName (v : string) (s : State) : State :=
  mkState (stage s) (age s) v (studentId s) (testId s) (currentQuestion s)
          (questions s) (responses s) (userAnswer s) (loading s) (blockers s) (roadmap s).
Definition setStudentId (v : option nat) (s : State) : State :=
  mkState (stage s) (age s) (studentName s) v (testId s) (currentQuestion s)
          (questions s) (responses s) (userAnswer s) (loading s) (blockers s) (roadmap s).
Definition setTestId (v : option nat) (s : State) : State :=
  mkState (stage s) (age s) (studentName s) (studentId s) v (currentQuestion s)
          (questions s) (responses s) (userAnswer s) (loading s) (blockers s) (roadmap s).
Definition setCurrentQuestion (v : nat) (s : State) : State :=
  mkState (stage s) (age s) (studentName s) (studentId s) (testId s) v
          (questions s) (responses s) (userAnswer s) (loading s) (blockers s) (roadmap s).
Definition setQuestions (v : list Question) (s : State) : State :=
  mkState (stage s) (age s) (studentName s) (studentId s) (testId s) (currentQuestion s)
          v (responses s) (userAnswer s) (loading s) (blockers s) (roadmap s).
Definition setResponses (v : list Response) (s : State) : State :=
  mkState (stage s) (age s) (studentName s) (studentId s) (testId s) (currentQuestion s)
          (questions s) v (userAnswer s) (loading s) (blockers s) (roadmap s).
Definition setUserAnswer (v : string) (s : State) : State :=
  mkState (stage s) (age s) (studentName s) (studentId s) (testId s) (currentQuestion s)
          (questions s) (responses s) v (loading s) (blockers s) (roadmap s).
Definition setLoading (v : bool) (s : State) : State :=
  mkState (stage s) (age s) (studentName s) (studentId s) (testId s) (currentQuestion s)
          (questions s) (responses s) (userAnswer s) v (blockers s) (roadmap s).
Definition setBlockers (v : list Blocker) (s : State) : State :=
  mkState (stage s) (age s) (studentName s) (studentId s) (testId s) (currentQuestion s)
          (questions s) (responses s) (userAnswer s) (loading s) v (roadmap s).
Definition setRoadmap (v : option RoadmapData) (s : State) : State :=
  mkState (stage s) (age s) (studentName s) (studentId s) (testId s) (currentQuestion s)
          (questions s) (responses s) (userAnswer s) (loading s) (blockers s) v.

(** ** Effects of a handler run *)

Record Toast := mkToast {
  destructive : bool;
  title : string;
  description : string
}.

(** The bodies posted to the three generation endpoints. *)
Inductive Request :=
| GenerateQuestion (age : option Z) (count : nat)
| GenerateConfirmatory (age : option Z) (blockerName : string)
| GenerateRoadmap (age : option Z) (blockers : list Blocker) (responses : list Response).

(** The next component state, the store, and what the run showed, logged
    and requested so far. *)
Record Sys := mkSys {
  ui : State;
  store : Database;
  toasts : list Toast;
  console : list string;
  requests : list Request;
  navigated : option string
}.

Definition set (f : State -> State) (y : Sys) : Sys :=
  mkSys (f (ui y)) (store y) (toasts y) (console y) (requests y) (navigated y).
Definition write (f : Database -> Database) (y : Sys) : Sys :=
  mkSys (ui y) (f (store y)) (toasts y) (console y) (requests y) (navigated y).
Definition toast (t : Toast) (y : Sys) : Sys :=
  mkSys (ui y) (store y) (toasts y ++ [t]) (console y) (requests y) (navigated y).
Definition console_error (msg : string) (y : Sys) : Sys :=
  mkSys (ui y) (store y) (toasts y) (console y ++ [msg]) (requests y) (navigated y).
Definition post (r : Request) (y : Sys) : Sys :=
  mkSys (ui y) (store y) (toasts y) (console y) (requests y ++ [r]) (navigated y).
Definition navigate (path : string) (y : Sys) : Sys :=
  mkSys (ui y) (store y) (toasts y) (console y) (requests y) (Some path).

(** The [catch] blocks that report to the user. *)
Definition errorToast (message : string) : Toast := mkToast true "Error" message.

(** A run of [handleAnswerSubmit] returns, or throws the TypeError of
    reading a property of [undefined]. *)
Inductive Outcome :=
| Returned (y : Sys)
| TypeError (message : string).

(** *** Store writes *)

(** [students] has [age INTEGER NOT NULL CHECK (age >= 5)]. *)
Definition db_insert_student (res : DbResult) (name : string) (a : option Z)
  (teacher : nat) (d : Database) : (nat * Database) + string :=
  match res, a with
  | DbOk, Some n =>
      if (5 <=? n)%Z
      then let id := List.length (students d) in
           inl (id, with_students (students d ++ [mkStudentRow id name n teacher]) d)
      else inr "new row violates check constraint"
  | DbOk, None => inr "null value in column age"
  | DbError msg, _ => inr msg
  end.

(** [diagnostic_tests] has [age_at_test INTEGER NOT NULL]; a new test is
    [in_progress] with severity [none]. *)
Definition db_insert_test (res : DbResult) (student : nat) (a : option Z)
  (d : Database) : (nat * Database) + string :=
  match res, a with
  | DbOk, Some n =>
      let id := List.length (diagnostic_tests d) in
      inl (id, with_tests (diagnostic_tests d ++ [mkTestRow id student n in_progress none]) d)
  | DbOk, None => inr "null value in column age_at_test"
  | DbError msg, _ => inr msg
  end.

(** *** [handleAgeSubmit] *)

Definition handleAgeSubmit (s : State) (y : Sys) : Sys :=
  match age s with
  | Some a =>
      if (a =? 0)%Z || (a <? 5)%Z
      then toast (mkToast true "Invalid Age" "Please enter an age of 5 or above.") y
      else set (setStage stage_student_info) y
  | None => toast (mkToast true "Invalid Age" "Please enter an age of 5 or above.") y
  end.

(** *** [handleStudentInfoSubmit] *)

(** [Array.isArray(questions) ? questions : [questions]] *)
Definition as_array (body : Payload) : list Question :=
  match body with
  | JsonArray qs => qs
  | JsonObject q => [q]
  end.

Definition handleStudentInfoSubmit (s : State) (w : World) (y : Sys) : Sys :=
  if isBlank (studentName s)
  then toast (mkToast true "Missing Name" "Please enter the student's name.") y
  else
    let y := set (setLoading true) y in
    let y :=
      match auth_session w with
      | None =>
          navigate "/auth"
            (toast (mkToast true "Not Authenticated" "Please sign in to continue.") y)
      | Some user =>
          match db_insert_student (insert_student w) (studentName s) (age s) user (store y) with
          | inr msg => toast (errorToast msg) y
          | inl (student, d) =>
              let y := set (setStudentId (Some student)) (write (fun _ => d) y) in
              match db_insert_test (insert_test w) student (age s) (store y) with
              | inr msg => toast (errorToast msg) y
              | inl (test, d) =>
                  let y := set (setTestId (Some test)) (write (fun _ => d) y) in
                  let y := post (GenerateQuestion (age s) 10) y in
                  match question_batch w with
                  | RateLimited =>
                      set (setLoading false)
                        (toast (mkToast true "Rate Limit Exceeded"
                                  "Service is busy. Please try again in a moment.") y)
                  | NotOk => toast (errorToast "Failed to generate questions") y
                  | Rejected msg => toast (errorToast msg) y
                  | Fetched body =>
                      set (setStage stage_main_test) (set (setQuestions (as_array body)) y)
                  end
              end
          end
      end in
    set (setLoading false) y.

(** *** [saveResponses]: a failed insert is logged, nothing is thrown *)

Definition saveResponses (s : State) (w : World) (responsesToSave : list Response)
  (y : Sys) : Sys :=
  match testId s with
  | None => y
  | Some id =>
      match insert_responses w with
      | DbOk =>
          write (fun d => with_responses
                            (test_responses d ++ map (response_row id) responsesToSave) d) y
      | DbError msg => console_error ("Error saving responses: " ++ msg)%string y
      end
  end.

(** *** [generateRoadmap] *)

(** The body of [if (testId) { ... }]: the writes made before a throw stay;
    [inr] carries the message of the thrown error. *)
Definition persist_completion (s : State) (w : World) (roadmapData : RoadmapData)
  (allResponses : list Response) (y : Sys) : Sys + (Sys * string) :=
  match testId s with
  | None => inl y
  | Some id =>
      match insert_roadmap w with
      | DbError msg => inr (y, msg)
      | DbOk =>
          let y := write (fun d => with_roadmaps
                            (remediation_roadmaps d ++ [mkRoadmapRow id roadmapData]) d) y in
          let severity := overallSeverity (blockers s) allResponses in
          match update_test w with
          | DbError msg => inr (y, msg)
          | DbOk =>
              let y := write (fun d => with_tests
                                (map (complete_test id severity) (diagnostic_tests d)) d) y in
              if 0 <? List.length (blockers s)
              then match update_blockers w with
                   | DbError msg => inr (y, msg)
                   | DbOk =>
                       inl (write (fun d => with_blockers
                                     (map (confirm_blocker id) (blockers_detected d)) d) y)
                   end
              else inl y
          end
      end
  end.

Definition generateRoadmap (s : State) (w : World) (allResponses : list Response)
  (y : Sys) : Sys :=
  let y := set (setLoading true) y in
  let y := post (GenerateRoadmap (age s) (blockers s) allResponses) y in
  let y :=
    match roadmap_response w with
    | RateLimited =>
        set (setLoading false)
          (toast (mkToast true "Rate Limit Exceeded"
                    "Please wait before generating the roadmap.") y)
    | NotOk => toast (errorToast "Failed to generate roadmap") y
    | Rejected msg => toast (errorToast msg) y
    | Fetched roadmapData =>
        let y := set (setRoadmap (Some roadmapData)) y in
        match persist_completion s w roadmapData allResponses y with
        | inr (y, msg) => toast (errorToast msg) y
        | inl y =>
            toast (mkToast false "Assessment Complete!"
                     "Your personalized roadmap is ready.")
              (set (setStage stage_roadmap) y)
        end
    end in
  set (setLoading false) y.

(** *** [detectBlockers] *)

Definition detectBlockers (s : State) (w : World) (allResponses : list Response)
  (y : Sys) : Sys :=
  let detected := detectedBlockers allResponses in
  match detected with
  | [] => generateRoadmap s w allResponses y
  | primary :: _ =>
      let y := set (setBlockers detected) y in
      let y :=
        match testId s with
        | None => y
        | Some id =>
            match insert_blockers w with
            | DbOk =>
                write (fun d => with_blockers
                                  (blockers_detected d ++ map (blocker_row id) detected) d) y
            | DbError msg => console_error ("Error saving blockers: " ++ msg)%string y
            end
        end in
      let y := set (setLoading true) y in
      let y := post (GenerateConfirmatory (age s) (blocker_name primary)) y in
      let y :=
        match confirmatory_batch w with
        | RateLimited =>
            set (setLoading false)
              (toast (mkToast true "Rate Limit Exceeded"
                        "Please wait a moment before continuing the confirmatory test.") y)
        | NotOk => toast (errorToast "Failed to generate confirmatory test") y
        | Rejected msg => toast (errorToast msg) y
        | Fetched (JsonObject _) =>
            (* spreading a value that is not iterable throws inside the try *)
            toast (errorToast "confirmatoryQuestions is not iterable") y
        | Fetched (JsonArray confirmatoryQuestions) =>
            let y := set (setQuestions (questions s ++ confirmatoryQuestions)) y in
            let y := set (setCurrentQuestion (List.length allResponses)) y in
            let y := set (setStage stage_confirmatory) y in
            toast (mkToast false "Blocker Detected"
                     ("We've identified potential difficulty with " ++ blocker_name primary
                      ++ ". Let's confirm with a few more questions.")%string) y
        end in
      set (setLoading false) y
  end.

(** *** [handleAnswerSubmit] *)

Definition handleAnswerSubmit (s : State) (w : World) (y : Sys) : Outcome :=
  if isBlank (userAnswer s)
  then Returned (toast (mkToast true "Missing Answer" "Please enter your answer.") y)
  else
    match nth_error (questions s) (currentQuestion s) with
    | None => TypeError "Cannot read properties of undefined (reading 'correctAnswer')"
    | Some question =>
        let isCorrect := isCorrectAnswer (userAnswer s) (q_correctAnswer question) in
        let response :=
          mkResponse (currentQuestion s + 1) (q_questionText question) (userAnswer s)
                     (q_correctAnswer question) isCorrect (q_construct question)
                     (q_difficultyLevel question) in
        let newResponses := responses s ++ [response] in
        let y := set (setResponses newResponses) y in
        let y := set (setUserAnswer "") y in
        if Stage_eqb (stage s) stage_main_test
           && (List.length newResponses =? MAIN_TEST_LENGTH)
        then
          let y := saveResponses s w (firstn MAIN_TEST_LENGTH newResponses) y in
          Returned (detectBlockers s w newResponses y)
        else if Stage_eqb (stage s) stage_confirmatory
                && (List.length newResponses =? MAIN_TEST_LENGTH + CONFIRMATORY_LENGTH)
        then
          let y := saveResponses s w (skipn MAIN_TEST_LENGTH newResponses) y in
          Returned (generateRoadmap s w newResponses y)
        else Returned (set (setCurrentQuestion (currentQuestion s + 1)) y)
    end.

(** ** The session as a transition system

    The controls rendered in a stage decide which events it accepts.  An
    event is dispatched once the handler run started by the event before
    it has returned.  The page does not enforce this: the Enter key of the
    name and answer inputs is not gated by [loading], so a submission made
    while a handler awaits the store or an endpoint runs on what that
    handler has written so far.  Such overlapping runs are not runs of
    [run]. *)

Inductive Event :=
| ChangeAge (a : option Z)
| ChangeName (name : string)
| ChangeAnswer (answer : string)
| ClickAgeSubmit
| ClickStudentInfoSubmit (w : World)
| ClickAnswerSubmit (w : World).

Definition Config := (State * Database)%type.

Definition begin (c : Config) : Sys := mkSys (fst c) (snd c) [] [] [] None.

Definition in_test (s : State) : bool :=
  Stage_eqb (stage s) stage_main_test || Stage_eqb (stage s) stage_confirmatory.

Definition dispatch (e : Event) (c : Config) : Outcome :=
  let s := fst c in
  let y := begin c in
  match e with
  | ChangeAge a =>
      Returned (if Stage_eqb (stage s) stage_age then set (setAge a) y else y)
  | ChangeName name =>
      Returned (if Stage_eqb (stage s) stage_student_info
                then set (setStudentName name) y else y)
  | ChangeAnswer answer =>
      Returned (if in_test s then set (setUserAnswer answer) y else y)
  | ClickAgeSubmit =>
      Returned (if Stage_eqb (stage s) stage_age then handleAgeSubmit s y else y)
  | ClickStudentInfoSubmit w =>
      Returned (if Stage_eqb (stage s) stage_student_info
                then handleStudentInfoSubmit s w y else y)
  | ClickAnswerSubmit w =>
      if in_test s then handleAnswerSubmit s w y else Returned y
  end.

Definition step (c : Config) (e : Event) : Config :=
  match dispatch e c with
  | Returned y => (ui y, store y)
  | TypeError _ => c
  end.

Definition run (events : list Event) (c : Config) : Config :=
  fold_left step events c.

(** Referential integrity of the store a session starts on: test
    identifiers are positions, blocker rows point to existing tests. *)
Definition store_ok (d : Database) : Prop :=
  (forall b, In b (blockers_detected d) ->
             blocker_test_id b < List.length (diagnostic_tests d)) /\
  (forall i t, nth_error (diagnostic_tests d) i = Some t -> test_id t = i).

(** A session: any run of events from the initial component state. *)
Definition Reachable (d0 : Database) (c : Config) : Prop :=
  exists events, c = run events (initialState, d0).

(** ** Vocabulary of the properties *)

(** Number of incorrect responses on construct [c]. *)
Definition errorsIn (c : string) (rs : list Response) : nat :=
  List.length (filter (fun r => negb (isCorrect r) && String.eqb (construct r) c) rs).

(** The counter table after counting every response of [l]. *)
Definition table (l : list Response) : JsObject := fold_left count_error l [].

Definition occurrences (c : string) (l : list Response) : nat :=
  List.length (filter (fun r => String.eqb (construct r) c) l).

(** [c] is among the detected blockers. *)
Definition promoted (rs : list Response) (c : string) : bool :=
  existsb (String.eqb c) (map blocker_name (detectedBlockers rs)).

(** The specification's primary blocker: the construct of the first
    incorrect response, in response order, whose construct is promoted. *)
Definition earliestPromoted (rs : list Response) : option string :=
  option_map construct
    (find (fun r => negb (isCorrect r) && promoted rs (construct r)) rs).

Definition is_array_index (c : string) : bool :=
  match array_index c with Some _ => true | None => false end.

Definition holds_two (o : JsObject) (k : string) : bool :=
  match get_own o k with Some v => count_ge_2 v | None => false end.

Definition index_le (x y : N * Entry) : Prop := (fst x <= fst y)%N.

(** The specification's decision table, rows tried from the top. *)
Inductive decision_table (blockerCount : nat) (errorRate : Q) : Severity -> Prop :=
| row_severe :
    3 <= blockerCount \/ (6 # 10 < errorRate)%Q ->
    decision_table blockerCount errorRate severe
| row_moderate :
    ~ (3 <= blockerCount \/ (6 # 10 < errorRate)%Q) ->
    2 <= blockerCount \/ (4 # 10 < errorRate)%Q ->
    decision_table blockerCount errorRate moderate
| row_mild :
    ~ (3 <= blockerCount \/ (6 # 10 < errorRate)%Q) ->
    ~ (2 <= blockerCount \/ (4 # 10 < errorRate)%Q) ->
    1 <= blockerCount \/ (2 # 10 < errorRate)%Q ->
    decision_table blockerCount errorRate mild
| row_none :
    ~ (3 <= blockerCount \/ (6 # 10 < errorRate)%Q) ->
    ~ (2 <= blockerCount \/ (4 # 10 < errorRate)%Q) ->
    ~ (1 <= blockerCount \/ (2 # 10 < errorRate)%Q) ->
    decision_table blockerCount errorRate none.

(** [incorrectCount / totalCount] as a rational. *)
Definition rate_of (rs : list Response) : Q :=
  (inject_Z (Z.of_nat (incorrectCount rs)) / inject_Z (Z.of_nat (List.length rs)))%Q.

(** The blocker rows of test [t] are all unconfirmed / all confirmed. *)
Definition unconfirmed (d : Database) (t : nat) : Prop :=
  forall b, In b (blockers_detected d) -> blocker_test_id b = t -> is_confirmed b = false.

Definition all_confirmed (d : Database) (t : nat) : Prop :=
  forall b, In b (blockers_detected d) -> blocker_test_id b = t -> is_confirmed b = true.

Definition no_blocker_rows (d : Database) (t : nat) : Prop :=
  forall b, In b (blockers_detected d) -> blocker_test_id b <> t.

(** What holds of the component state in each stage of a session. *)
Definition stage_inv (s : State) (d : Database) : Prop :=
  match stage s with
  | stage_age | stage_student_info =>
      responses s = [] /\ blockers s = [] /\ currentQuestion s = 0
  | stage_main_test =>
      (exists t, testId s = Some t) /\
      (List.length (responses s) < MAIN_TEST_LENGTH ->
       blockers s = [] /\ currentQuestion s = List.length (responses s)) /\
      (forall t, testId s = Some t -> blockers s = [] -> no_blocker_rows d t)
  | stage_confirmatory =>
      (exists t, testId s = Some t) /\
      blockers s <> [] /\
      MAIN_TEST_LENGTH <= List.length (responses s) /\
      (List.length (responses s) < MAIN_TEST_LENGTH + CONFIRMATORY_LENGTH ->
       currentQuestion s = List.length (responses s))
  | stage_roadmap => True
  end.

Definition Inv (c : Config) : Prop :=
  let s := fst c in
  let d := snd c in
  store_ok d /\
  (forall t, testId s = Some t -> t < List.length (diagnostic_tests d)) /\
  stage_inv s d /\
  (stage s <> stage_roadmap -> forall t, testId s = Some t -> unconfirmed d t).

(** Two runs show the user the same thing and agree on every table but
    [test_responses]. *)
Definition same_view (y1 y2 : Sys) : Prop :=
  ui y1 = ui y2 /\ toasts y1 = toasts y2 /\ requests y1 = requests y2 /\
  diagnostic_tests (store y1) = diagnostic_tests (store y2) /\
  blockers_detected (store y1) = blockers_detected (store y2) /\
  remediation_roadmaps (store y1) = remediation_roadmaps (store y2).

(** The decision table when there is no blocker: the error rate alone
    decides. *)
Definition severity_of_rate (errorRate : Q) : Severity :=
  if Qle_bool errorRate (6 # 10)
  then if Qle_bool errorRate (4 # 10)
       then if Qle_bool errorRate (2 # 10) then none else mild
       else moderate
  else severe.

(** ** Sample sessions *)

Definition emptyStore : Database := mkDatabase [] [] [] [] [].

(** A question whose reference answer is 4. *)
Definition sum_question (c : string) : Question := mkQuestion "What is 2 + 2?" "4" c 1.

(** A world in which every call succeeds and the question endpoints return
    the given batches. *)
Definition calm (main confirmatory : list Question) : World :=
  mkWorld (Some 0) DbOk DbOk (Fetched (JsonArray main)) DbOk DbOk
          (Fetched (JsonArray confirmatory)) (Fetched "five steps") DbOk DbOk DbOk.

(** The same world with one outcome replaced. *)
Definition with_question_batch (r : FetchResult Payload) (w : World) : World :=
  mkWorld (auth_session w) (insert_student w) (insert_test w) r (insert_responses w)
          (insert_blockers w) (confirmatory_batch w) (roadmap_response w)
          (insert_roadmap w) (update_test w) (update_blockers w).
Definition with_insert_responses (r : DbResult) (w : World) : World :=
  mkWorld (auth_session w) (insert_student w) (insert_test w) (question_batch w) r
          (insert_blockers w) (confirmatory_batch w) (roadmap_response w)
          (insert_roadmap w) (update_test w) (update_blockers w).
Definition with_confirmatory_batch (r : FetchResult Payload) (w : World) : World :=
  mkWorld (auth_session w) (insert_student w) (insert_test w) (question_batch w)
          (insert_responses w) (insert_blockers w) r (roadmap_response w)
          (insert_roadmap w) (update_test w) (update_blockers w).
Definition with_roadmap_response (r : FetchResult RoadmapData) (w : World) : World :=
  mkWorld (auth_session w) (insert_student w) (insert_test w) (question_batch w)
          (insert_responses w) (insert_blockers w) (confirmatory_batch w) r
          (insert_roadmap w) (update_test w) (update_blockers w).

(** What the user does: enter age 8, continue, enter a name, begin; type an
    answer and submit it. *)
Definition enrol (w : World) : list Event :=
  [ChangeAge (Some 8%Z); ClickAgeSubmit; ChangeName "Ada"; ClickStudentInfoSubmit w].

Definition answer (w : World) (a : string) : list Event :=
  [ChangeAnswer a; ClickAnswerSubmit w].

Definition answers (w : World) (l : list string) : list Event := flat_map (answer w) l.

(** Before enrolment is submitted. *)
Definition enrolling : Config :=
  run [ChangeAge (Some 8%Z); ClickAgeSubmit; ChangeName "Ada"] (initialState, emptyStore).

(** Responses and histories for the pure functions. *)
Definition incorrect_on (c : string) : Response := mkResponse 1 "q" "x" "y" false c 1.
Definition correct_on (c : string) : Response := mkResponse 1 "q" "y" "y" true c 1.

(** Fifteen responses; the six incorrect ones are on Working Memory. *)
Definition working_memory_history : list Response :=
  repeat (incorrect_on "Working Memory") 6 ++ repeat (correct_on "Number Sense") 9.

(** Three errors on a construct named like an inherited property. *)
Definition inherited_name_batch : list Response :=
  [incorrect_on "constructor"; incorrect_on "Number Sense"; incorrect_on "constructor";
   correct_on "Number Sense"; incorrect_on "constructor"].

(** Two errors on "10", then two on "2". *)
Definition numbered_batch : list Response :=
  [incorrect_on "10"; incorrect_on "10"; incorrect_on "2"; correct_on "2"; incorrect_on "2"].

(** *** A session with one blocker

    Four questions on Working Memory, six on Number Sense, five
    confirmatory questions on Working Memory; the student misses the first
    four and two of the confirmatory ones. *)
Definition memory_main : list Question :=
  repeat (sum_question "Working Memory") 4 ++ repeat (sum_question "Number Sense") 6.
Definition memory_confirmatory : list Question :=
  repeat (sum_question "Working Memory") 5.
Definition memory_world : World := calm memory_main memory_confirmatory.

(** Fourteen answers submitted, the fifteenth typed. *)
Definition memory_session : list Event :=
  enrol memory_world
  ++ answers memory_world (repeat "5" 4 ++ repeat "4" 6 ++ ["5"; "5"; "4"; "4"])
  ++ [ChangeAnswer " 4 "].

(** Nine answers submitted, the tenth typed. *)
Definition memory_tenth : Config :=
  run (enrol memory_world ++ answers memory_world (repeat "5" 4 ++ repeat "4" 5)
       ++ [ChangeAnswer "4"]) (initialState, emptyStore).

(** The same session where the confirmatory endpoint returns two
    questions, where it is throttled, where enrolment is throttled, and
    where the store rejects the responses. *)
Definition short_confirmatory_world : World := calm memory_main (firstn 2 memory_confirmatory).
Definition short_confirmatory_tenth : Config :=
  run (enrol short_confirmatory_world
       ++ answers short_confirmatory_world (repeat "5" 4 ++ repeat "4" 5)
       ++ [ChangeAnswer "4"]) (initialState, emptyStore).
Definition throttled_confirmatory : World := with_confirmatory_batch RateLimited memory_world.
Definition throttled_enrolment : World := with_question_batch RateLimited memory_world.
Definition failing_store : World :=
  with_insert_responses (DbError "permission denied") memory_world.

(** *** A session without blockers

    Ten questions on ten different constructs. *)
Definition spread_main : list Question :=
  map sum_question
      ["Counting"; "Number Sense"; "Place Value"; "Addition"; "Subtraction";
       "Multiplication"; "Division"; "Fractions"; "Patterns"; "Measurement"].
Definition spread_world : World := calm spread_main [].

(** The main-test endpoint returns three questions, or one object. *)
Definition short_world : World := calm (firstn 3 spread_main) [].
Definition single_object_world : World :=
  with_question_batch (Fetched (JsonObject (sum_question "Counting"))) spread_world.

(** The roadmap endpoint is throttled after the tenth answer; the student
    then submits an eleventh answer and types a twelfth. *)
Definition throttled_roadmap : World := with_roadmap_response RateLimited spread_world.
Definition stalled_session : list Event :=
  enrol spread_world
  ++ answers spread_world (repeat "4" 9)
  ++ answer throttled_roadmap "4"
  ++ answer spread_world "4"
  ++ [ChangeAnswer "4"].

(** *** A session with two blockers

    Three questions on Working Memory, two on Number Sense, five on
    Counting, five confirmatory questions on Working Memory; the student
    misses the first five questions. *)
Definition two_blocker_main : list Question :=
  repeat (sum_question "Working Memory") 3 ++ repeat (sum_question "Number Sense") 2
  ++ repeat (sum_question "Counting") 5.
Definition two_blocker_world : World := calm two_blocker_main memory_confirmatory.

Definition with_insert_blockers (r : DbResult) (w : World) : World :=
  mkWorld (auth_session w) (insert_student w) (insert_test w) (question_batch w)
          (insert_responses w) r (confirmatory_batch w) (roadmap_response w)
          (insert_roadmap w) (update_test w) (update_blockers w).
Definition with_update_blockers (r : DbResult) (w : World) : World :=
  mkWorld (auth_session w) (insert_student w) (insert_test w) (question_batch w)
          (insert_responses w) (insert_blockers w) (confirmatory_batch w)
          (roadmap_response w) (insert_roadmap w) (update_test w) r.

(** Fourteen answers submitted, the fifteenth typed. *)
Definition two_blocker_session : list Event :=
  enrol two_blocker_world
  ++ answers two_blocker_world (repeat "5" 5 ++ repeat "4" 9)
  ++ [ChangeAnswer "4"].

(** The same session where the store rejects the blocker rows after the
    tenth answer, and the world in which it rejects the update that
    confirms them. *)
Definition unsaved_blockers_session : list Event :=
  enrol two_blocker_world
  ++ answers two_blocker_world (repeat "5" 5 ++ repeat "4" 4)
  ++ answer (with_insert_blockers (DbError "permission denied") two_blocker_world) "4"
  ++ answers two_blocker_world (repeat "4" 5).
Definition failing_confirmation : World :=
  with_update_blockers (DbError "permission denied") two_blocker_world.

(** ** What the test view shows *)

(** [progress], the value of the progress bar.  The quotient and the
    product are doubles; they are embedded as the exact rational.  Rounding
    is monotone and 0, 1 and 100 are doubles, so a bound by 0 or by 100
    that holds of the rational holds of the double. *)
Definition progress (s : State) : Q :=
  match stage s with
  | stage_main_test =>
      (inject_Z (Z.of_nat (List.length (responses s)))
       / inject_Z (Z.of_nat MAIN_TEST_LENGTH) * 100)%Q
  | stage_confirmatory =>
      (inject_Z (Z.of_nat (List.length (responses s)) - Z.of_nat MAIN_TEST_LENGTH)
       / inject_Z (Z.of_nat CONFIRMATORY_LENGTH) * 100)%Q
  | _ => 0%Q
  end.

(** The label [Question N of M] of the test view: [N] and [M]. *)
Definition shownQuestionNumber (s : State) : Z :=
  if Stage_eqb (stage s) stage_main_test
  then (Z.of_nat (currentQuestion s) + 1)%Z
  else (Z.of_nat (currentQuestion s) - Z.of_nat MAIN_TEST_LENGTH + 1)%Z.

Definition shownStageLength (s : State) : nat :=
  if Stage_eqb (stage s) stage_main_test then MAIN_TEST_LENGTH else CONFIRMATORY_LENGTH.

(** ** Vocabulary of the session properties *)

(** The arrows of the stage diagram. *)
Definition next_stage (a b : Stage) : bool :=
  match a, b with
  | stage_age, stage_student_info
  | stage_student_info, stage_main_test
  | stage_main_test, stage_confirmatory
  | stage_main_test, stage_roadmap
  | stage_confirmatory, stage_roadmap => true
  | _, _ => false
  end.

(** Past the age stage the age is a number, 5 or more. *)
Definition age_accepted (s : State) : Prop :=
  stage s <> stage_age -> exists a, age s = Some a /\ (5 <= a)%Z.

(** The response [handleAnswerSubmit] records for question [q], read under
    cursor [i], and answer [a]. *)
Definition response_to (i : nat) (q : Question) (a : string) : Response :=
  mkResponse (i + 1) (q_questionText q) a (q_correctAnswer q)
             (isCorrectAnswer a (q_correctAnswer q)) (q_construct q)
             (q_difficultyLevel q).

(** What a run of [saveResponses] on [l] does to the store: nothing (no
    test, or the insert failed), or the rows of [l] are appended. *)
Definition responses_saved (s : State) (d d' : Database) (l : list Response) : Prop :=
  test_responses d' = test_responses d \/
  exists id, testId s = Some id /\
    test_responses d' = test_responses d ++ map (response_row id) l.

(** What a run of [generateRoadmap] on [rs] does to the store: nothing,
    or the roadmap row is appended and then, if nothing fails, the test is
    completed and its blockers are confirmed. *)
Definition completion_written (s : State) (rs : list Response) (shown : option RoadmapData)
  (d d' : Database) : Prop :=
  (remediation_roadmaps d' = remediation_roadmaps d /\
   diagnostic_tests d' = diagnostic_tests d /\
   blockers_detected d' = blockers_detected d) \/
  exists id data,
    testId s = Some id /\ shown = Some data /\
    remediation_roadmaps d' = remediation_roadmaps d ++ [mkRoadmapRow id data] /\
    (diagnostic_tests d' = diagnostic_tests d \/
     diagnostic_tests d'
     = map (complete_test id (overallSeverity (blockers s) rs)) (diagnostic_tests d)) /\
    (blockers_detected d' = blockers_detected d \/
     blockers_detected d' = map (confirm_blocker id) (blockers_detected d)).

(** A recorded response carries a non-blank answer and the verdict of
    [isCorrectAnswer] on the two answers it stores. *)
Definition graded (r : Response) : Prop :=
  isBlank (r_userAnswer r) = false /\
  isCorrect r = isCorrectAnswer (r_userAnswer r) (r_correctAnswer r).

(** Number of responses a session holds when the current stage ends. *)
Definition stage_end (s : State) : nat :=
  match stage s with
  | stage_main_test => MAIN_TEST_LENGTH
  | _ => MAIN_TEST_LENGTH + CONFIRMATORY_LENGTH
  end.

(** Up to the end of the stage, response [i] is the response to
    question [i] of the queue. *)
Definition in_step (s : State) : Prop :=
  forall i r, i < stage_end s -> nth_error (responses s) i = Some r ->
    exists q, nth_error (questions s) i = Some q /\
              r = response_to i q (r_userAnswer r).

(** The blocker list is that of the first ten responses. *)
Definition blockers_of_main_test (s : State) : Prop :=
  blockers s = if MAIN_TEST_LENGTH <=? List.length (responses s)
               then detectedBlockers (firstn MAIN_TEST_LENGTH (responses s))
               else [].

(** The test has begun: the stage is past enrolment. *)
Definition started (s : State) : bool :=
  match stage s with
  | stage_age | stage_student_info => false
  | _ => true
  end.

(** The student and the test of the session are rows of the store, and
    they carry the name and the age of the session. *)
Definition enrolled (s : State) (d : Database) : Prop :=
  exists a sid tid st tr,
    age s = Some a /\ studentId s = Some sid /\ testId s = Some tid /\
    isBlank (studentName s) = false /\
    nth_error (students d) sid = Some st /\
    student_name st = studentName s /\ student_age st = a /\
    nth_error (diagnostic_tests d) tid = Some tr /\
    test_student_id tr = sid /\ age_at_test tr = a.

(** The foreign keys of the migration, besides those of [store_ok]:
    student identifiers are positions, and tests, response rows and
    roadmap rows point to existing rows. *)
Definition store_refs (d : Database) : Prop :=
  (forall i st, nth_error (students d) i = Some st -> student_id st = i) /\
  (forall t, In t (diagnostic_tests d) ->
             test_student_id t < List.length (students d)) /\
  (forall r, In r (test_responses d) ->
             response_test_id r < List.length (diagnostic_tests d)) /\
  (forall r, In r (remediation_roadmaps d) ->
             roadmap_test_id r < List.length (diagnostic_tests d)).

(** [.eq("test_id", t)] on the three tables that hang off a test. *)
Definition blocker_rows (t : nat) (d : Database) : list BlockerRow :=
  filter (fun b => blocker_test_id b =? t) (blockers_detected d).
Definition roadmap_rows (t : nat) (d : Database) : list RoadmapRow :=
  filter (fun r => roadmap_test_id r =? t) (remediation_roadmaps d).
Definition response_rows (t : nat) (d : Database) : list ResponseRow :=
  filter (fun r => response_test_id r =? t) (test_responses d).

(** The blocker a row stores. *)
Definition stored_blocker (b : BlockerRow) : Blocker :=
  mkBlocker (row_blocker_name b) (row_error_count b).

(** The stage has had its last answer: [generateRoadmap] or
    [detectBlockers] has run for it. *)
Definition stage_closed (s : State) : Prop :=
  match stage s with
  | stage_age | stage_student_info => False
  | stage_main_test => MAIN_TEST_LENGTH <= List.length (responses s)
  | stage_confirmatory =>
      MAIN_TEST_LENGTH + CONFIRMATORY_LENGTH <= List.length (responses s)
  | stage_roadmap => True
  end.

(** The rows of the session's test, table by table. *)
Definition blocker_rows_inv (s : State) (d : Database) : Prop :=
  forall t, testId s = Some t ->
    blocker_rows t d = [] \/ map stored_blocker (blocker_rows t d) = blockers s.

Definition roadmap_rows_inv (s : State) (d : Database) : Prop :=
  forall t, testId s = Some t ->
    (roadmap_rows t d = [] \/
     (stage_closed s /\
      exists data, roadmap_rows t d = [mkRoadmapRow t data] /\ roadmap s = Some data)) /\
    (forall row, nth_error (diagnostic_tests d) t = Some row ->
                 status row = completed -> roadmap_rows t d <> []).

Definition response_rows_inv (s : State) (d : Database) : Prop :=
  forall t, testId s = Some t ->
    exists main confirmatory,
      response_rows t d = map (response_row t) (main ++ confirmatory) /\
      (main = [] \/
       (MAIN_TEST_LENGTH <= List.length (responses s) /\
        main = firstn MAIN_TEST_LENGTH (responses s))) /\
      (confirmatory = [] \/
       (MAIN_TEST_LENGTH + CONFIRMATORY_LENGTH <= List.length (responses s) /\
        stage s <> stage_main_test /\
        confirmatory
        = skipn MAIN_TEST_LENGTH
            (firstn (MAIN_TEST_LENGTH + CONFIRMATORY_LENGTH) (responses s)))).

(** The order of the severity levels. *)
Definition severity_rank (sev : Severity) : nat :=
  match sev with
  | none => 0
  | mild => 1
  | moderate => 2
  | severe => 3
  end.

(** What a session holds once its roadmap is shown, every handler having
    returned before the next event. *)
Definition finished (s : State) : Prop :=
  (exists data, roadmap s = Some data) /\
  ((List.length (responses s) = MAIN_TEST_LENGTH /\ blockers s = []) \/
   (List.length (responses s) = MAIN_TEST_LENGTH + CONFIRMATORY_LENGTH /\
    blockers s <> [])).

(** The cursor never runs ahead of the responses, and no response is
    numbered ahead of its position. *)
Definition numbered_by_position (s : State) : Prop :=
  currentQuestion s <= List.length (responses s) /\
  forall i r, nth_error (responses s) i = Some r -> 1 <= questionNumber r <= i + 1.

(** Number of responses the scoring of a finished session reads: those
    of the main test, and those of the confirmatory test if it was run. *)
Definition scored_length (s : State) : nat :=
  match blockers s with
  | [] => MAIN_TEST_LENGTH
  | _ :: _ => MAIN_TEST_LENGTH + CONFIRMATORY_LENGTH
  end.

(** ** The dashboard: [loadStudents]

    The three lookup tables are plain objects built by [reduce] on [{}] and
    keyed by row identifiers.  The identifiers are UUIDs, so no key is an
    array index or a name inherited from [Object.prototype], and the tables
    are only read by key: a table is embedded as an association list. *)

Definition ById (A : Type) := list (nat * A).

(** [acc[id]] *)
Fixpoint by_id {A} (acc : ById A) (id : nat) : option A :=
  match acc with
  | [] => None
  | (k, v) :: acc' => if k =? id then Some v else by_id acc' id
  end.

(** [acc[id] = v] *)
Fixpoint put {A} (acc : ById A) (id : nat) (v : A) : ById A :=
  match acc with
  | [] => [(id, v)]
  | (k, w) :: acc' => if k =? id then (k, v) :: acc' else (k, w) :: put acc' id v
  end.

(** [if (!acc[id]) acc[id] = []]: an array, even an empty one, is truthy. *)
Definition ensure {A} (acc : ById (list A)) (id : nat) : ById (list A) :=
  match by_id acc id with
  | Some _ => acc
  | None => put acc id []
  end.

(** [acc[id].push(x)], the array being there. *)
Definition push {A} (acc : ById (list A)) (id : nat) (x : A) : ById (list A) :=
  match by_id acc id with
  | Some l => put acc id (l ++ [x])
  | None => acc
  end.

(** [interface DiagnosticTest]: a test row with its blockers and its
    roadmap, and [interface StudentWithTests]. *)
Record DiagnosticTest := mkDiagnosticTest {
  test_row : TestRow;
  test_blockers : list BlockerRow;
  test_roadmap : option RoadmapData
}.

Record StudentWithTests := mkStudentWithTests {
  student_row : StudentRow;
  student_tests : list DiagnosticTest
}.

Definition roadmapsByTest (roadmaps : list RoadmapRow) : ById RoadmapData :=
  fold_left (fun acc roadmap => put acc (roadmap_test_id roadmap) (roadmap_data roadmap))
            roadmaps [].

Definition blockersByTest (blockers : list BlockerRow) : ById (list BlockerRow) :=
  fold_left (fun acc blocker =>
               push (ensure acc (blocker_test_id blocker)) (blocker_test_id blocker) blocker)
            blockers [].

(** [x || []] *)
Definition or_empty {A} (x : option (list A)) : list A :=
  match x with
  | Some l => l
  | None => []
  end.

Definition testsByStudent (tests : list TestRow) (blockers : ById (list BlockerRow))
  (roadmaps : ById RoadmapData) : ById (list DiagnosticTest) :=
  fold_left (fun acc test =>
               push (ensure acc (test_student_id test)) (test_student_id test)
                    (mkDiagnosticTest test (or_empty (by_id blockers (test_id test)))
                                      (by_id roadmaps (test_id test))))
            tests [].

Definition studentsWithTestsData (students : list StudentRow)
  (tests : ById (list DiagnosticTest)) : list StudentWithTests :=
  map (fun student =>
         mkStudentWithTests student (or_empty (by_id tests (student_id student))))
      students.

(** What a query comes back with: an error, or [data], which may be
    [null]. *)
Inductive QueryResult (A : Type) :=
| QueryError (message : string)
| QueryData (data : option (list A)).
Arguments QueryError {A} message.
Arguments QueryData {A} data.

Record Queries := mkQueries {
  students_query : QueryResult StudentRow;
  tests_query : QueryResult TestRow;
  blockers_query : QueryResult BlockerRow;
  roadmaps_query : QueryResult RoadmapRow
}.

(** The list the dashboard shows, its spinner, and the notifications. *)
Record Board := mkBoard {
  studentsWithTests : list StudentWithTests;
  board_loading : bool;
  board_toasts : list Toast
}.

Definition board_failed (message : string) (b : Board) : Board :=
  mkBoard (studentsWithTests b) false (board_toasts b ++ [errorToast message]).

Definition loadStudents (q : Queries) (b : Board) : Board :=
  match students_query q with
  | QueryError message => board_failed message b
  | QueryData None | QueryData (Some []) => mkBoard [] false (board_toasts b)
  | QueryData (Some students) =>
      match tests_query q with
      | QueryError message => board_failed message b
      | QueryData tests =>
          match blockers_query q with
          | QueryError message => board_failed message b
          | QueryData blockers =>
              match roadmaps_query q with
              | QueryError message => board_failed message b
              | QueryData roadmaps =>
                  let roadmapsByTest := roadmapsByTest (or_empty roadmaps) in
                  let blockersByTest := blockersByTest (or_empty blockers) in
                  let testsByStudent :=
                    testsByStudent (or_empty tests) blockersByTest roadmapsByTest in
                  mkBoard (studentsWithTestsData students testsByStudent) false
                          (board_toasts b)
              end
          end
      end
  end.

(** What the dashboard is meant to show for a student and for a test: the
    rows that point to it, in the order fetched, and the roadmap fetched
    last for the test. *)
Definition tests_of (student : nat) (tests : list TestRow) : list TestRow :=
  filter (fun t => test_student_id t =? student) tests.

Definition blockers_of (test : nat) (blockers : list BlockerRow) : list BlockerRow :=
  filter (fun b => blocker_test_id b =? test) blockers.

Definition roadmap_of (test : nat) (roadmaps : list RoadmapRow) : option RoadmapData :=
  option_map roadmap_data (find (fun r => roadmap_test_id r =? test) (rev roadmaps)).

Definition card_test (blockers : list BlockerRow) (roadmaps : list RoadmapRow)
  (t : TestRow) : DiagnosticTest :=
  mkDiagnosticTest t (blockers_of (test_id t) blockers) (roadmap_of (test_id t) roadmaps).

Definition card (tests : list TestRow) (blockers : list BlockerRow)
  (roadmaps : list RoadmapRow) (s : StudentRow) : StudentWithTests :=
  mkStudentWithTests s (map (card_test blockers roadmaps) (tests_of (student_id s) tests)).

(** ** The roadmap endpoint: extracting the JSON object from the reply

    [content.match(/\{[\s\S]*\}/)]: the match starts at the first opening
    brace from which the pattern can be completed and, the star being
    greedy, ends at the last closing brace after it. *)

(** The longest prefix of [s] that ends with a closing brace. *)
Fixpoint upto_last_brace (s : string) : option string :=
  match s with
  | EmptyString => None
  | String c s' =>
      match upto_last_brace s' with
      | Some t => Some (String c t)
      | None => if Ascii.eqb c "}" then Some (String c EmptyString) else None
      end
  end.

(** [jsonMatch[0]], or [None] for [null]. *)
Fixpoint jsonMatch (content : string) : option string :=
  match content with
  | EmptyString => None
  | String c rest =>
      if Ascii.eqb c "{"
      then match upto_last_brace rest with
           | Some t => Some (String c t)
           | None => jsonMatch rest
           end
      else jsonMatch rest
  end.

(** No code unit of [s] is [c]. *)
Fixpoint without (c : ascii) (s : string) : bool :=
  match s with
  | EmptyString => true
  | String c' s' => negb (Ascii.eqb c' c) && without c s'
  end.

(** * Properties *)

Ltac conjs := repeat match goal with |- _ /\ _ => split end.

(** ** Answer evaluation *)

Lemma trimStart_padding pre s :
  whiteSpaceOnly pre = true -> trimStart (pre ++ s)%string = trimStart s.
Proof.
  induction pre as [|c pre IH]; simpl; [reflexivity|].
  intro H. apply andb_true_iff in H. destruct H as [Hc Hp]. rewrite Hc. auto.
Qed.

Lemma trimEnd_whiteSpaceOnly post : whiteSpaceOnly post = true -> trimEnd post = "".
Proof.
  induction post as [|c post IH]; simpl; [reflexivity|].
  intro H. apply andb_true_iff in H. destruct H as [Hc Hp]. now rewrite (IH Hp), Hc.
Qed.

Lemma trimEnd_padding s post :
  whiteSpaceOnly post = true -> trimEnd (s ++ post)%string = trimEnd s.
Proof.
  intro H. induction s as [|c s IH]; simpl; [now apply trimEnd_whiteSpaceOnly|].
  now rewrite IH.
Qed.

Lemma trimStart_whiteSpaceOnly post : whiteSpaceOnly post = true -> trimStart post = "".
Proof.
  induction post as [|c post IH]; simpl; [reflexivity|].
  intro H. apply andb_true_iff in H. destruct H as [Hc Hp]. now rewrite Hc, (IH Hp).
Qed.

Lemma trim_right_padding s post :
  whiteSpaceOnly post = true -> trim (s ++ post)%string = trim s.
Proof.
  intro H. unfold trim. induction s as [|c s IH]; simpl.
  - now rewrite (trimStart_whiteSpaceOnly post H).
  - destruct (isWhiteSpace c); [exact IH|].
    change (String c (s ++ post)%string) with (String c s ++ post)%string.
    now apply trimEnd_padding.
Qed.

Lemma trim_padding pre s post :
  whiteSpaceOnly pre = true -> whiteSpaceOnly post = true ->
  trim (pre ++ s ++ post)%string = trim s.
Proof.
  intros Hpre Hpost. unfold trim. rewrite (trimStart_padding pre _ Hpre).
  now apply trim_right_padding.
Qed.

(** C4, the sentence as written fails: the reference answer is lower-cased
    but not trimmed, so an answer with a leading blank does not match
    itself, although the two agree once both are trimmed and case-folded. *)
Lemma evaluate_reference_not_trimmed :
  isCorrectAnswer " 4" " 4" = false /\ evaluate_both_trimmed " 4" " 4" = true.
Proof. split; reflexivity. Qed.

(** C4 (amended).  Answer evaluation trims and lower-cases the student
    answer, lower-cases the reference answer without trimming it, and tests
    exact string equality; hence a student answer matches every reference
    that equals its trimmed form up to case, whatever white space surrounds
    it, and every string matches its own trimmed form. *)
Theorem evaluate_trims_student_answer_only :
  (forall u c : string,
      isCorrectAnswer u c = true <-> toLowerCase (trim u) = toLowerCase c) /\
  (forall pre post a r : string,
      whiteSpaceOnly pre = true -> whiteSpaceOnly post = true ->
      toLowerCase (trim a) = toLowerCase r ->
      isCorrectAnswer (pre ++ a ++ post)%string r = true) /\
  (forall a : string, isCorrectAnswer a (trim a) = true).
Proof.
  split; [|split].
  - intros u c. unfold isCorrectAnswer. apply String.eqb_eq.
  - intros pre post a r Hpre Hpost E. unfold isCorrectAnswer.
    rewrite (trim_padding pre a post Hpre Hpost), E. apply String.eqb_refl.
  - intro a. unfold isCorrectAnswer. apply String.eqb_refl.
Qed.

Lemma evaluate_trims_student_answer_only_witness :
  isCorrectAnswer "  Twelve " "twelve" = true /\
  isCorrectAnswer " 4" (trim " 4") = true.
Proof.
  destruct evaluate_trims_student_answer_only as (_ & H2 & H3). split.
  - apply (H2 "  " " " "Twelve" "twelve"); reflexivity.
  - apply H3.
Defined.

(** ** Severity *)

Lemma errorRate_nonempty (rs : list Response) :
  rs <> [] ->
  exists q, errorRate rs = Some q /\
            (q == inject_Z (Z.of_nat (incorrectCount rs)) / inject_Z (Z.of_nat (List.length rs)))%Q.
Proof.
  intro H. unfold errorRate. destruct rs as [|r rs]; [congruence|].
  cbn [List.length]. eexists; split; [reflexivity|].
  rewrite Qmake_Qdiv. 
  replace (Z.pos (Pos.of_nat (S (List.length rs)))) with (Z.of_nat (S (List.length rs))) by lia.
  reflexivity.
Qed.

Lemma exceeds_spec (q bound : Q) : exceeds (Some q) bound = true <-> (bound < q)%Q.
Proof.
  unfold exceeds. rewrite negb_true_iff. 
  destruct (Qle_bool q bound) eqn:E.
  - apply Qle_bool_iff in E. split; [discriminate|]. intro. exfalso. eapply Qlt_not_le; eauto.
  - split; [|reflexivity]. intros _. apply Qnot_le_lt. intro H. apply Qle_bool_iff in H. congruence.
Qed.

Lemma decision_table_Qeq n q q' sev :
  (q == q')%Q -> decision_table n q sev -> decision_table n q' sev.
Proof.
  intros E H. destruct H; [apply row_severe|apply row_moderate|apply row_mild|apply row_none];
    rewrite <- ?E; assumption.
Qed.

Lemma decision_table_functional n q s1 s2 :
  decision_table n q s1 -> decision_table n q s2 -> s1 = s2.
Proof. intros H1 H2. destruct H1; destruct H2; try reflexivity; contradiction. Qed.

Lemma overallSeverity_table bs rs q :
  errorRate rs = Some q -> decision_table (List.length bs) q (overallSeverity bs rs).
Proof.
  intro E. unfold overallSeverity. rewrite E.
  destruct ((3 <=? List.length bs) || exceeds (Some q) (6 # 10)) eqn:E3.
  { apply row_severe. apply orb_true_iff in E3.
    rewrite Nat.leb_le, exceeds_spec in E3. exact E3. }
  assert (N3 : ~ (3 <= List.length bs \/ (6 # 10 < q)%Q)).
  { intro H. rewrite <- Nat.leb_le, <- exceeds_spec, <- orb_true_iff in H. congruence. }
  destruct ((2 <=? List.length bs) || exceeds (Some q) (4 # 10)) eqn:E2.
  { apply row_moderate; [assumption|]. apply orb_true_iff in E2.
    rewrite Nat.leb_le, exceeds_spec in E2. exact E2. }
  assert (N2 : ~ (2 <= List.length bs \/ (4 # 10 < q)%Q)).
  { intro H. rewrite <- Nat.leb_le, <- exceeds_spec, <- orb_true_iff in H. congruence. }
  destruct ((1 <=? List.length bs) || exceeds (Some q) (2 # 10)) eqn:E1.
  { apply row_mild; [assumption|assumption|]. apply orb_true_iff in E1.
    rewrite Nat.leb_le, exceeds_spec in E1. exact E1. }
  apply row_none; [assumption|assumption|].
  intro H. rewrite <- Nat.leb_le, <- exceeds_spec, <- orb_true_iff in H. congruence.
Qed.

(** C2.  For a non-empty response history the severity computed in
    [generateRoadmap] is the one the decision table gives for the number of
    blockers and the error rate incorrectCount / totalCount, the rows being
    tried from the top; one blocker with an error rate of exactly 0.4
    yields mild. *)
Theorem severity_follows_decision_table (bs : list Blocker) (rs : list Response) :
  rs <> [] ->
  (forall sev, decision_table (List.length bs) (rate_of rs) sev <->
               sev = overallSeverity bs rs) /\
  (List.length bs = 1 -> (rate_of rs == 4 # 10)%Q -> overallSeverity bs rs = mild).
Proof.
  intro Hne. destruct (errorRate_nonempty rs Hne) as (q & Eq & Hq).
  fold (rate_of rs) in Hq.
  assert (T : decision_table (List.length bs) (rate_of rs) (overallSeverity bs rs)).
  { apply (decision_table_Qeq _ q); [assumption|]. now apply overallSeverity_table. }
  split.
  - intro sev. split.
    + intro H. exact (decision_table_functional _ _ _ _ H T).
    + intros ->. exact T.
  - intros H1 H4. apply (decision_table_functional _ _ _ _ T).
    apply row_mild; rewrite H1, H4.
    + intros [H|H]; [lia|]. revert H. apply Qle_not_lt. unfold Qle; simpl; lia.
    + intros [H|H]; [lia|]. revert H. apply Qlt_irrefl.
    + left. lia.
Qed.

Lemma severity_follows_decision_table_witness :
  (forall sev,
      decision_table 1 (rate_of working_memory_history) sev <->
      sev = overallSeverity [mkBlocker "Working Memory" 4] working_memory_history) /\
  overallSeverity [mkBlocker "Working Memory" 4] working_memory_history = mild.
Proof.
  destruct (severity_follows_decision_table
              [mkBlocker "Working Memory" 4] working_memory_history) as [H1 H2].
  - discriminate.
  - split; [exact H1|]. apply H2; reflexivity.
Defined.

Lemma Qle_bool_Qeq q q' b : (q == q')%Q -> Qle_bool q b = Qle_bool q' b.
Proof.
  intro E. apply eq_true_iff_eq. rewrite !Qle_bool_iff. now rewrite E.
Qed.

Lemma overallSeverity_no_blocker rs :
  rs <> [] -> overallSeverity [] rs = severity_of_rate (rate_of rs).
Proof.
  intro Hne. destruct (errorRate_nonempty rs Hne) as (q & Eq & Hq). fold (rate_of rs) in Hq.
  unfold overallSeverity, severity_of_rate. rewrite Eq. cbn [List.length Nat.leb orb exceeds].
  rewrite <- !(Qle_bool_Qeq q (rate_of rs) _ Hq).
  destruct (Qle_bool q (6 # 10)), (Qle_bool q (4 # 10)), (Qle_bool q (2 # 10)); reflexivity.
Qed.

(** ** The counter table *)

Lemma table_snoc l r : table (l ++ [r]) = count_error (table l) r.
Proof. unfold table. now rewrite fold_left_app. Qed.

Lemma get_own_update_own o k v k' :
  get_own (update_own o k v) k' = if String.eqb k k' then Some v else get_own o k'.
Proof.
  induction o as [|[k0 w] o IH]; simpl.
  - destruct (String.eqb k k'); reflexivity.
  - destruct (String.eqb k0 k) eqn:E0; simpl.
    + apply String.eqb_eq in E0; subst k0. destruct (String.eqb k k'); reflexivity.
    + rewrite IH. destruct (String.eqb k0 k') eqn:E1; [|reflexivity].
      apply String.eqb_eq in E1; subst k0. now rewrite String.eqb_sym, E0.
Qed.

Lemma keys_update_own o k v :
  map fst (update_own o k v) = if existsb (String.eqb k) (map fst o) then map fst o else map fst o ++ [k].
Proof.
  induction o as [|[k0 w] o IH]; simpl; [reflexivity|].
  rewrite (String.eqb_sym k k0).
  destruct (String.eqb k0 k) eqn:E; simpl; [reflexivity|].
  rewrite IH. destruct (existsb _ _); reflexivity.
Qed.

Lemma occurrences_snoc c l r :
  occurrences c (l ++ [r]) = occurrences c l + (if String.eqb (construct r) c then 1 else 0).
Proof.
  unfold occurrences. rewrite filter_app, length_app. simpl.
  destruct (String.eqb (construct r) c); reflexivity.
Qed.

Lemma Object_prototype_proto k : Object_prototype k = None -> String.eqb k "__proto__" = false.
Proof. unfold Object_prototype. destruct (String.eqb k "__proto__"); [discriminate|reflexivity]. Qed.

(** A key that is not inherited holds the number of its occurrences. *)
Lemma table_plain_key l : forall k,
  Object_prototype k = None ->
  get_own (table l) k = match occurrences k l with 0 => None | S n => Some (JNum (S n)) end.
Proof.
  induction l as [|r l IH] using rev_ind; intros k Hk; [reflexivity|].
  rewrite table_snoc, occurrences_snoc. unfold count_error, set_prop.
  destruct (String.eqb (construct r) "__proto__") eqn:Ep.
  - apply String.eqb_eq in Ep. 
    destruct (String.eqb (construct r) k) eqn:Ek.
    + apply String.eqb_eq in Ek. subst k. rewrite Ep in Hk. discriminate.
    + rewrite Nat.add_0_r. now apply IH.
  - rewrite get_own_update_own. destruct (String.eqb (construct r) k) eqn:Ek.
    + apply String.eqb_eq in Ek. subst k. unfold incremented. rewrite (IH _ Hk), Hk.
      destruct (occurrences (construct r) l); simpl; [reflexivity|].
      now rewrite Nat.add_1_r.
    + rewrite Nat.add_0_r. now apply IH.
Qed.

Lemma append_nonempty s t : t <> "" -> (s ++ t)%string <> "".
Proof. destruct s; simpl; [auto|discriminate]. Qed.

(** An inherited key never holds a number. *)
Lemma table_inherited_key l : forall k v,
  Object_prototype k <> None -> get_own (table l) k = Some v ->
  exists s, v = JStr s /\ s <> "".
Proof.
  induction l as [|r l IH] using rev_ind; intros k v Hk; [discriminate|].
  rewrite table_snoc. unfold count_error, set_prop.
  destruct (String.eqb (construct r) "__proto__") eqn:Ep; [now apply IH|].
  rewrite get_own_update_own. destruct (String.eqb (construct r) k) eqn:Ek; [|now apply IH].
  apply String.eqb_eq in Ek. subst k. intro H. injection H as <-.
  unfold incremented. destruct (get_own (table l) (construct r)) as [v0|] eqn:E0.
  - destruct (IH _ _ Hk E0) as (s & -> & Hs).
    destruct (String.eqb s "") eqn:Es; [apply String.eqb_eq in Es; contradiction|].
    eexists; split; [reflexivity|]. apply append_nonempty. discriminate.
  - destruct (Object_prototype (construct r)) as [f|]; [|contradiction].
    eexists; split; [reflexivity|]. apply append_nonempty. discriminate.
Qed.

Lemma table_keys_NoDup l : NoDup (map fst (table l)).
Proof.
  induction l as [|r l IH] using rev_ind; [constructor|].
  rewrite table_snoc. unfold count_error, set_prop.
  destruct (String.eqb (construct r) "__proto__"); [assumption|].
  rewrite keys_update_own. destruct (existsb _ _) eqn:E; [assumption|].
  apply NoDup_app; [assumption|repeat constructor; intros []| ].
  intros x Hx [<-|[]]. 
  assert (existsb (String.eqb (construct r)) (map fst (table l)) = true); [|congruence].
  apply existsb_exists. exists (construct r). split; [assumption|apply String.eqb_refl].
Qed.

(** [Object.entries] rearranges the own properties. *)
Lemma insert_by_index_perm e l : Permutation (insert_by_index e l) (e :: l).
Proof.
  induction l as [|x l IH]; simpl; [reflexivity|].
  destruct (fst e <=? fst x)%N; [reflexivity|].
  rewrite IH. apply perm_swap.
Qed.

Lemma sort_by_index_perm l : Permutation (sort_by_index l) l.
Proof.
  induction l as [|e l IH]; simpl; [reflexivity|].
  rewrite insert_by_index_perm. now constructor.
Qed.

Lemma props_partition o : Permutation (map snd (index_props o) ++ named_props o) o.
Proof.
  induction o as [|e o IH]; simpl; [reflexivity|].
  destruct (array_index (fst e)); simpl.
  - now constructor.
  - rewrite <- Permutation_middle. now constructor.
Qed.

Lemma Object_entries_perm o : Permutation (Object_entries o) o.
Proof.
  unfold Object_entries. eapply Permutation_trans; [|apply props_partition].
  apply Permutation_app_tail, Permutation_map, sort_by_index_perm.
Qed.

Lemma get_own_In o k v : NoDup (map fst o) -> (In (k, v) o <-> get_own o k = Some v).
Proof.
  induction o as [|[k0 w] o IH]; simpl; intro ND.
  - split; [intros []|discriminate].
  - inversion ND as [|? ? Hnin ND']; subst. destruct (String.eqb k0 k) eqn:E.
    + apply String.eqb_eq in E; subst k0. split.
      * intros [H|H]; [congruence|]. exfalso. apply Hnin. now apply (in_map fst) in H.
      * intros [= ->]. now left.
    + rewrite <- (IH ND'). split; [|now right].
      intros [[= -> ->]|H]; [|assumption]. now rewrite String.eqb_refl in E.
Qed.

Lemma errorsIn_occurrences c rs :
  errorsIn c rs = occurrences c (filter (fun r => negb (isCorrect r)) rs).
Proof.
  unfold errorsIn, occurrences. f_equal.
  induction rs as [|r rs IH]; simpl; [reflexivity|].
  destruct (isCorrect r); simpl; [assumption|].
  destruct (String.eqb (construct r) c); simpl; now rewrite IH.
Qed.

Lemma constructErrors_lookup rs k v :
  get_own (constructErrors rs) k = Some v ->
  count_ge_2 v = true ->
  Object_prototype k = None /\ v = JNum (errorsIn k rs) /\ 2 <= errorsIn k rs.
Proof.
  unfold constructErrors. fold (table (filter (fun r => negb (isCorrect r)) rs)).
  intros Hget Hge. destruct (Object_prototype k) eqn:Hp.
  - destruct (table_inherited_key _ k v ltac:(congruence) Hget) as (s' & -> & _). discriminate.
  - rewrite (table_plain_key _ k Hp), <- errorsIn_occurrences in Hget.
    destruct (errorsIn k rs) as [|n]; [discriminate|]. injection Hget as <-.
    unfold count_ge_2 in Hge. apply Nat.leb_le in Hge. auto.
Qed.

Lemma constructErrors_plain rs k :
  Object_prototype k = None -> 2 <= errorsIn k rs ->
  get_own (constructErrors rs) k = Some (JNum (errorsIn k rs)).
Proof.
  unfold constructErrors. fold (table (filter (fun r => negb (isCorrect r)) rs)).
  intros Hp Hge. rewrite (table_plain_key _ k Hp), <- errorsIn_occurrences.
  destruct (errorsIn k rs); [lia|reflexivity].
Qed.

Lemma constructErrors_NoDup rs : NoDup (map fst (constructErrors rs)).
Proof. apply table_keys_NoDup. Qed.

(** ** Blocker detection *)

(** The blockers detected are the constructs with at least two incorrect
    responses whose name no plain object inherits, each with its count. *)
Theorem detectedBlockers_spec rs b :
  In b (detectedBlockers rs) <->
  Object_prototype (blocker_name b) = None /\
  2 <= errorsIn (blocker_name b) rs /\
  error_count b = errorsIn (blocker_name b) rs.
Proof.
  unfold detectedBlockers. rewrite in_map_iff. split.
  - intros ([k v] & <- & Hin). apply filter_In in Hin. destruct Hin as [Hin Hge]. simpl in *.
    apply (Permutation_in _ (Object_entries_perm _)) in Hin.
    apply get_own_In in Hin; [|apply constructErrors_NoDup].
    destruct (constructErrors_lookup _ _ _ Hin Hge) as (Hp & -> & H2). auto.
  - intros (Hp & H2 & Hc). exists (blocker_name b, JNum (errorsIn (blocker_name b) rs)). split.
    + destruct b; simpl in *. now subst.
    + apply filter_In. split; [|unfold count_ge_2; cbn [snd]; now apply Nat.leb_le].
      apply (Permutation_in _ (Permutation_sym (Object_entries_perm _))).
      apply get_own_In; [apply constructErrors_NoDup|]. now apply constructErrors_plain.
Qed.

Lemma NoDup_map_filter {A B} (f : A -> B) (P : A -> bool) l :
  NoDup (map f l) -> NoDup (map f (filter P l)).
Proof.
  induction l as [|x l IH]; simpl; [auto|]. intro ND. inversion ND as [|? ? Hn ND']; subst.
  destruct (P x); simpl; [|auto]. constructor; [|auto].
  intro H. apply Hn. apply in_map_iff in H. destruct H as (y & Hy & Hin).
  apply filter_In in Hin. apply in_map_iff. exists y. tauto.
Qed.

(** No construct is detected twice. *)
Lemma detectedBlockers_NoDup rs : NoDup (map blocker_name (detectedBlockers rs)).
Proof.
  unfold detectedBlockers. rewrite map_map. simpl.
  change (fun x : Entry => fst x) with (@fst string JsValue).
  apply NoDup_map_filter.
  eapply Permutation_NoDup; [|apply (constructErrors_NoDup rs)].
  apply Permutation_map, Permutation_sym, Object_entries_perm.
Qed.

(** C1, the code against the claim: three incorrect responses on a
    construct named like a property every object inherits are counted as a
    string, which is never [>= 2]: no blocker is detected. *)
Theorem inherited_construct_name_never_promoted :
  errorsIn "constructor" inherited_name_batch = 3 /\
  get_own (constructErrors inherited_name_batch) "constructor"
  = Some (JStr "function Object() { [native code] }111") /\
  detectedBlockers inherited_name_batch = [].
Proof. vm_compute. repeat split. Qed.

(** ** The primary blocker *)

Lemma hd_filter_find {A} (P : A -> bool) l : nth_error (filter P l) 0 = find P l.
Proof.
  induction l as [|x l IH]; simpl; [reflexivity|]. destruct (P x); [reflexivity|assumption].
Qed.

Lemma find_app {A} (P : A -> bool) l1 l2 :
  find P (l1 ++ l2) = match find P l1 with Some x => Some x | None => find P l2 end.
Proof.
  induction l1 as [|x l1 IH]; simpl; [reflexivity|]. destruct (P x); [reflexivity|assumption].
Qed.

Lemma find_filter {A} (P Q : A -> bool) l :
  find P (filter Q l) = find (fun x => Q x && P x) l.
Proof.
  induction l as [|x l IH]; simpl; [reflexivity|].
  destruct (Q x); simpl; [|assumption]. destruct (P x); [reflexivity|assumption].
Qed.

Lemma find_map {A B} (f : A -> B) (Q : B -> bool) l :
  find Q (map f l) = option_map f (find (fun x => Q (f x)) l).
Proof.
  induction l as [|x l IH]; simpl; [reflexivity|].
  destruct (Q (f x)); [reflexivity|assumption].
Qed.

Lemma find_ext_In {A} (P Q : A -> bool) l :
  (forall x, In x l -> P x = Q x) -> find P l = find Q l.
Proof.
  induction l as [|x l IH]; simpl; intro H; [reflexivity|].
  rewrite (H x) by now left. destruct (Q x); [reflexivity|]. apply IH. intros; apply H; now right.
Qed.

Lemma find_none_all {A} (P : A -> bool) l :
  (forall x, In x l -> P x = false) -> find P l = None.
Proof.
  induction l as [|x l IH]; simpl; intro H; [reflexivity|].
  rewrite (H x) by now left. apply IH. intros; apply H; now right.
Qed.

(** Keys are created in the order of first occurrence. *)
Lemma table_keys_find (Q : string -> bool) l :
  Q "__proto__" = false ->
  find Q (map fst (table l)) = find Q (map construct l).
Proof.
  intro Hq. induction l as [|r l IH] using rev_ind; [reflexivity|].
  rewrite table_snoc, map_app, find_app, <- IH. simpl.
  unfold count_error, set_prop.
  destruct (String.eqb (construct r) "__proto__") eqn:Ep.
  - apply String.eqb_eq in Ep. rewrite Ep, Hq. now destruct (find Q _).
  - rewrite keys_update_own. destruct (existsb _ _) eqn:Ex.
    + destruct (find Q (map fst (table l))) eqn:Ef; [reflexivity|].
      apply existsb_exists in Ex. destruct Ex as (k & Hin & Ek).
      apply String.eqb_eq in Ek. subst k.
      now rewrite (find_none _ _ Ef _ Hin).
    + rewrite find_app. reflexivity.
Qed.

Lemma holds_two_entry o e : NoDup (map fst o) -> In e o -> count_ge_2 (snd e) = holds_two o (fst e).
Proof.
  intros ND Hin. destruct e as [k v]. unfold holds_two.
  apply (get_own_In o k v ND) in Hin. simpl. now rewrite Hin.
Qed.

Lemma holds_two_promoted rs k : holds_two (constructErrors rs) k = promoted rs k.
Proof.
  unfold promoted. apply eq_true_iff_eq. rewrite existsb_exists. split.
  - unfold holds_two. destruct (get_own (constructErrors rs) k) as [v|] eqn:E; [|discriminate].
    intro Hge. destruct (constructErrors_lookup _ _ _ E Hge) as (Hp & -> & H2).
    exists k. split; [|apply String.eqb_refl].
    apply in_map_iff. exists (mkBlocker k (errorsIn k rs)). split; [reflexivity|].
    apply detectedBlockers_spec. auto.
  - intros (k' & Hin & Ek). apply String.eqb_eq in Ek. subst k'.
    apply in_map_iff in Hin. destruct Hin as (b & <- & Hb).
    apply detectedBlockers_spec in Hb. destruct Hb as (Hp & H2 & Hc).
    unfold holds_two. rewrite (constructErrors_plain _ _ Hp H2). now apply Nat.leb_le.
Qed.

Lemma promoted_proto rs : promoted rs "__proto__" = false.
Proof.
  destruct (promoted rs "__proto__") eqn:E; [|reflexivity].
  apply existsb_exists in E. destruct E as (k & Hin & Ek).
  apply String.eqb_eq in Ek. subst k.
  apply in_map_iff in Hin. destruct Hin as (b & Hn & Hb).
  apply detectedBlockers_spec in Hb. rewrite Hn in Hb. destruct Hb as [Hp _]. discriminate.
Qed.

Lemma primaryBlocker_find rs :
  primaryBlocker rs =
  option_map fst (find (fun e => count_ge_2 (snd e)) (Object_entries (constructErrors rs))).
Proof.
  unfold primaryBlocker, detectedBlockers. rewrite <- hd_filter_find.
  destruct (filter _ _); reflexivity.
Qed.

(** Where no promoted construct is an array index, the primary blocker is
    the construct of the first incorrect response with a promoted construct. *)
Theorem primaryBlocker_earliest rs :
  (forall b, In b (detectedBlockers rs) -> array_index (blocker_name b) = None) ->
  primaryBlocker rs = earliestPromoted rs.
Proof.
  intro Hnone. rewrite primaryBlocker_find. unfold Object_entries.
  pose proof (constructErrors_NoDup rs) as ND.
  set (o := constructErrors rs) in *.
  assert (Hidx : forall e, In e o -> is_array_index (fst e) = true -> count_ge_2 (snd e) = false).
  { intros [k v] Hin Hi. cbn [fst snd] in *. destruct (count_ge_2 v) eqn:Hge; [|reflexivity]. exfalso.
    apply (get_own_In o k v ND) in Hin.
    destruct (constructErrors_lookup _ _ _ Hin Hge) as (Hp & -> & H2).
    specialize (Hnone (mkBlocker k (errorsIn k rs))). simpl in *.
    unfold is_array_index in Hi. rewrite Hnone in Hi; [discriminate|].
    apply detectedBlockers_spec. auto. }
  rewrite find_app, find_none_all.
  2:{ intros e He. apply in_map_iff in He. destruct He as ([i e'] & <- & Hin). simpl.
      apply (Permutation_in _ (sort_by_index_perm _)) in Hin.
      unfold index_props in Hin. apply in_flat_map in Hin. destruct Hin as (e0 & Hin0 & Hin).
      destruct (array_index (fst e0)) eqn:Ea; [|destruct Hin].
      destruct Hin as [[= <- <-]|[]]. apply Hidx; [assumption|].
      unfold is_array_index. now rewrite Ea. }
  unfold named_props. rewrite find_filter.
  rewrite (find_ext_In _ (fun e => holds_two o (fst e))).
  2:{ intros e He. rewrite (holds_two_entry o e ND He).
      destruct (array_index (fst e)) eqn:Ea; [|reflexivity]. simpl.
      rewrite <- (holds_two_entry o e ND He). symmetry. apply Hidx; [assumption|].
      unfold is_array_index. now rewrite Ea. }
  rewrite <- (find_map fst (holds_two o)).
  unfold o at 2. unfold constructErrors. fold (table (filter (fun r => negb (isCorrect r)) rs)).
  rewrite table_keys_find.
  2:{ unfold o. rewrite holds_two_promoted. apply promoted_proto. }
  rewrite find_map, find_filter. unfold earliestPromoted. f_equal.
  apply find_ext_In. intros r _. unfold o. now rewrite holds_two_promoted.
Qed.

Lemma insert_by_index_sorted e l :
  StronglySorted index_le l -> StronglySorted index_le (insert_by_index e l).
Proof.
  induction 1 as [|x l Hs IH Hall]; simpl; [repeat constructor|].
  destruct (fst e <=? fst x)%N eqn:E.
  - apply N.leb_le in E. constructor; [now constructor|].
    constructor; [assumption|]. eapply Forall_impl; [|exact Hall].
    intros y Hy. unfold index_le in *. lia.
  - apply N.leb_gt in E. constructor; [assumption|].
    eapply Permutation_Forall; [symmetry; apply insert_by_index_perm|].
    constructor; [unfold index_le; lia|assumption].
Qed.

Lemma sort_by_index_sorted l : StronglySorted index_le (sort_by_index l).
Proof.
  induction l as [|e l IH]; simpl; [constructor|]. now apply insert_by_index_sorted.
Qed.

Lemma find_sorted_least (P : N * Entry -> bool) l x :
  StronglySorted index_le l -> find P l = Some x ->
  forall y, In y l -> P y = true -> index_le x y.
Proof.
  induction 1 as [|z l Hs IH Hall]; simpl; [discriminate|].
  destruct (P z) eqn:Ez.
  - intros [= <-] y [<-|Hy] _; [unfold index_le; lia|].
    rewrite Forall_forall in Hall. now apply Hall.
  - intros Hf y [<-|Hy] Py; [congruence|]. now apply IH.
Qed.

Lemma index_props_In o i e :
  In (i, e) (index_props o) <-> In e o /\ array_index (fst e) = Some i.
Proof.
  unfold index_props. rewrite in_flat_map. split.
  - intros (e0 & Hin & H). destruct (array_index (fst e0)) eqn:Ea; [|destruct H].
    destruct H as [[= <- <-]|[]]. auto.
  - intros [Hin Ha]. exists e. split; [assumption|]. rewrite Ha. now left.
Qed.

(** As soon as some promoted construct is an array index, so is the
    primary blocker, and its index is the least among them. *)
Theorem primaryBlocker_index_first rs c b j :
  primaryBlocker rs = Some c ->
  In b (detectedBlockers rs) ->
  array_index (blocker_name b) = Some j ->
  exists i, array_index c = Some i /\ (i <= j)%N.
Proof.
  rewrite primaryBlocker_find. unfold Object_entries. intros Hp Hb Hj.
  pose proof (constructErrors_NoDup rs) as ND.
  apply detectedBlockers_spec in Hb. destruct Hb as (Hproto & H2 & _).
  pose proof (constructErrors_plain _ _ Hproto H2) as Hget.
  apply (get_own_In _ _ _ ND) in Hget.
  set (e := (blocker_name b, JNum (errorsIn (blocker_name b) rs))) in *.
  assert (Hin : In (j, e) (sort_by_index (index_props (constructErrors rs)))).
  { apply (Permutation_in _ (Permutation_sym (sort_by_index_perm _))).
    apply index_props_In. auto. }
  assert (Pe : count_ge_2 (snd e) = true) by (unfold e, count_ge_2; cbn [snd]; now apply Nat.leb_le).
  rewrite find_app, find_map in Hp.
  destruct (find _ (sort_by_index _)) as [[i e1]|] eqn:Ef.
  - simpl in Hp. injection Hp as <-.
    pose proof (find_sorted_least _ _ _ (sort_by_index_sorted _) Ef _ Hin Pe) as Hle.
    apply find_some in Ef. destruct Ef as [Hin1 _].
    apply (Permutation_in _ (sort_by_index_perm _)) in Hin1.
    apply index_props_In in Hin1. destruct Hin1 as [_ Ha].
    exists i. split; [assumption|exact Hle].
  - exfalso. pose proof (find_none _ _ Ef _ Hin) as Hn. cbn [snd] in Hn. unfold e in Pe, Hn. cbn [snd] in Pe, Hn. rewrite Pe in Hn. discriminate.
Qed.

(** C5, the code against the claim: with constructs named "10" and "2"
    both promoted, the first incorrect response is on "10", yet the
    confirmatory request is made for "2". *)
Theorem numeric_construct_names_reorder_primary :
  detectedBlockers numbered_batch = [mkBlocker "2" 2; mkBlocker "10" 2] /\
  earliestPromoted numbered_batch = Some "10" /\
  primaryBlocker numbered_batch = Some "2" /\
  requests (detectBlockers initialState memory_world numbered_batch
              (begin (initialState, emptyStore)))
  = [GenerateConfirmatory None "2"].
Proof. vm_compute. repeat split. Qed.

(** ** The session invariant *)

Lemma Inv_initial d0 : store_ok d0 -> Inv (initialState, d0).
Proof.
  intro H. unfold Inv, stage_inv; simpl. split; [assumption|].
  repeat split; intros; try discriminate; auto.
Qed.

Lemma store_ok_insert_student d res name a teacher id d' :
  store_ok d -> db_insert_student res name a teacher d = inl (id, d') ->
  store_ok d' /\ diagnostic_tests d' = diagnostic_tests d /\ blockers_detected d' = blockers_detected d.
Proof.
  unfold db_insert_student. intros H E. destruct res; [|discriminate].
  destruct a as [n|]; [|discriminate]. destruct (5 <=? n)%Z; [|discriminate].
  injection E as <- <-. auto.
Qed.

Lemma store_ok_insert_test d res student a id d' :
  store_ok d -> db_insert_test res student a d = inl (id, d') ->
  store_ok d' /\ id = List.length (diagnostic_tests d) /\
  List.length (diagnostic_tests d') = S id /\
  blockers_detected d' = blockers_detected d.
Proof.
  unfold db_insert_test. intros [H1 H2] E. destruct res; [|discriminate].
  destruct a as [n|]; [|discriminate]. injection E as <- <-.
  unfold store_ok. cbn [diagnostic_tests blockers_detected with_tests].
  rewrite length_app. cbn [List.length].
  split; [split|repeat split; lia].
  - intros b Hb. specialize (H1 b Hb). lia.
  - intros i t Hn. destruct (Nat.lt_ge_cases i (List.length (diagnostic_tests d))) as [Hlt|Hge].
    + rewrite nth_error_app1 in Hn by assumption. eauto.
    + rewrite nth_error_app2 in Hn by assumption.
      destruct (i - List.length (diagnostic_tests d)) eqn:Ei; simpl in Hn.
      * injection Hn as <-. simpl. lia.
      * destruct n0; discriminate.
Qed.

Lemma Inv_handleAgeSubmit s d :
  Inv (s, d) -> stage s = stage_age ->
  let y := handleAgeSubmit s (begin (s, d)) in Inv (ui y, store y).
Proof.
  intros (Hok & Ht & Hs & Hu) Es. unfold handleAgeSubmit.
  unfold stage_inv in Hs. cbn [fst snd] in *. rewrite Es in Hs.
  assert (Hu' : forall t, testId s = Some t -> unconfirmed d t)
    by (apply Hu; rewrite Es; discriminate).
  destruct (age s) as [a|]; [destruct (_ || _)|]; cbn; unfold Inv, stage_inv; cbn;
    rewrite ?Es; repeat split; try tauto; try apply Hok; auto.
Qed.

Local Opaque detectedBlockers overallSeverity isCorrectAnswer isBlank.

Lemma Inv_handleStudentInfoSubmit s d w :
  Inv (s, d) -> stage s = stage_student_info ->
  let y := handleStudentInfoSubmit s w (begin (s, d)) in Inv (ui y, store y).
Proof.
  intros (Hok & Ht & Hs & Hu) Es. unfold stage_inv in Hs. cbn [fst snd] in *.
  rewrite Es in Hs. destruct Hs as (Hr & Hb & Hc).
  assert (Hu' : forall t, testId s = Some t -> unconfirmed d t) by (apply Hu; rewrite Es; discriminate).
  unfold handleStudentInfoSubmit.
  destruct (isBlank (studentName s)).
  { cbn. unfold Inv, stage_inv; cbn. rewrite Es. conjs; auto. }
  destruct (auth_session w) as [user|].
  2:{ cbn. unfold Inv, stage_inv; cbn. rewrite Es. conjs; auto. }
  cbn [store set write begin toast ui fst snd].
  destruct (db_insert_student _ _ _ _ d) as [[student d1]|msg] eqn:E1.
  2:{ cbn. unfold Inv, stage_inv; cbn. rewrite Es. conjs; auto. }
  destruct (store_ok_insert_student _ _ _ _ _ _ _ Hok E1) as (Hok1 & Ht1 & Hb1).
  cbn [store set write begin toast ui fst snd].
  destruct (db_insert_test _ _ _ d1) as [[test d2]|msg] eqn:E2.
  { destruct (store_ok_insert_test _ _ _ _ _ _ Hok1 E2) as (Hok2 & Hid & Hlen & Hb2).
    assert (Hfresh : no_blocker_rows d2 test).
    { intros b Hin. rewrite Hb2 in Hin. destruct Hok1 as [Hfk _]. specialize (Hfk b Hin). lia. }
    assert (Hunc : unconfirmed d2 test).
    { intros b Hin Hb'. exfalso. now apply (Hfresh b Hin). }
    destruct (question_batch w) as [| |msg|body]; cbn; unfold Inv, stage_inv; cbn;
      rewrite ?Es; conjs; auto;
      try (intros t [= <-]; first [lia | assumption]);
      try (intros _ t [= <-]; assumption); eauto.
    - intros _. rewrite Hr, Hb, Hc. auto.
    - intros t [= <-] _. assumption. }
  cbn. unfold Inv, stage_inv; cbn. rewrite Es. conjs; auto.
  - intros t Hts. rewrite Ht1. auto.
  - intros _ t Hts b Hin. rewrite Hb1 in Hin. now apply (Hu' t Hts).
Qed.

Lemma saveResponses_frame s w rs y :
  let y' := saveResponses s w rs y in
  ui y' = ui y /\ toasts y' = toasts y /\ requests y' = requests y /\
  diagnostic_tests (store y') = diagnostic_tests (store y) /\
  blockers_detected (store y') = blockers_detected (store y) /\
  remediation_roadmaps (store y') = remediation_roadmaps (store y).
Proof.
  unfold saveResponses. destruct (testId s); [destruct (insert_responses w)|]; cbn; auto 10.
Qed.

Lemma positions_complete ts id sev :
  (forall i t, nth_error ts i = Some t -> test_id t = i) ->
  forall i t, nth_error (map (complete_test id sev) ts) i = Some t -> test_id t = i.
Proof.
  intros H i t Hn. rewrite nth_error_map in Hn.
  destruct (nth_error ts i) as [t0|] eqn:E; [|discriminate].
  injection Hn as <-. unfold complete_test. destruct (_ =? _); cbn; eauto.
Qed.

Lemma references_confirm bs n id :
  (forall b, In b bs -> blocker_test_id b < n) ->
  forall b, In b (map (confirm_blocker id) bs) -> blocker_test_id b < n.
Proof.
  intros H b Hb. apply in_map_iff in Hb. destruct Hb as (b0 & <- & Hb0).
  unfold confirm_blocker. destruct (_ =? _); cbn; auto.
Qed.

Lemma references_insert bs n id (l : list Blocker) :
  (forall b, In b bs -> blocker_test_id b < n) -> id < n ->
  forall b, In b (bs ++ map (blocker_row id) l) -> blocker_test_id b < n.
Proof.
  intros H Hid b Hb. apply in_app_or in Hb. destruct Hb as [Hb|Hb]; [auto|].
  apply in_map_iff in Hb. destruct Hb as (b0 & <- & _). exact Hid.
Qed.

Ltac store_tac :=
  match goal with
  | H : store_ok _ |- store_ok _ =>
      let H1 := fresh in let H2 := fresh in
      destruct H as [H1 H2]; split; cbn; rewrite ?length_map;
      repeat first [assumption | apply positions_complete | apply references_confirm]
  end.

Lemma persist_completion_frame s w data rs y :
  match persist_completion s w data rs y with
  | inl y' =>
      ui y' = ui y /\ (store_ok (store y) -> store_ok (store y')) /\
      List.length (diagnostic_tests (store y')) = List.length (diagnostic_tests (store y))
  | inr (y', _) =>
      ui y' = ui y /\ (store_ok (store y) -> store_ok (store y')) /\
      List.length (diagnostic_tests (store y')) = List.length (diagnostic_tests (store y)) /\
      blockers_detected (store y') = blockers_detected (store y)
  end.
Proof.
  unfold persist_completion. destruct (testId s) as [id|]; [|auto].
  destruct (insert_roadmap w); [|auto 10].
  destruct (update_test w); [|cbn; conjs; auto].
  destruct (0 <? List.length (blockers s)); [destruct (update_blockers w)|];
    cbn; rewrite ?length_map; conjs; auto; try (intro; store_tac).
Qed.

Lemma generateRoadmap_frame s w rs y :
  let y' := generateRoadmap s w rs y in
  responses (ui y') = responses (ui y) /\
  blockers (ui y') = blockers (ui y) /\
  testId (ui y') = testId (ui y) /\
  currentQuestion (ui y') = currentQuestion (ui y) /\
  questions (ui y') = questions (ui y) /\
  (store_ok (store y) -> store_ok (store y')) /\
  List.length (diagnostic_tests (store y')) = List.length (diagnostic_tests (store y)) /\
  (stage (ui y') = stage_roadmap \/
   (stage (ui y') = stage (ui y) /\
    blockers_detected (store y') = blockers_detected (store y))).
Proof.
  unfold generateRoadmap. destruct (roadmap_response w) as [| |msg|data];
    try (cbn; conjs; auto; fail).
  match goal with
  | |- context [persist_completion ?a ?b ?c ?d ?e] =>
      pose proof (persist_completion_frame a b c d e) as F;
      destruct (persist_completion a b c d e) as [y1|[y1 msg]]
  end.
  - destruct F as (Fu & Fok & Fl). cbn in *. rewrite Fu, Fl. cbn. conjs; auto.
  - destruct F as (Fu & Fok & Fl & Fb). cbn in *. rewrite Fu, Fl, Fb. cbn. conjs; auto.
Qed.

Lemma unconfirmed_insert d id l t :
  unconfirmed d t ->
  unconfirmed (with_blockers (blockers_detected d ++ map (blocker_row id) l) d) t.
Proof.
  intros H b Hb Ht. cbn in Hb. apply in_app_or in Hb. destruct Hb as [Hb|Hb]; [auto|].
  apply in_map_iff in Hb. destruct Hb as (b0 & <- & _). reflexivity.
Qed.

Lemma detectBlockers_detected_frame s w rs y primary rest :
  detectedBlockers rs = primary :: rest ->
  let y' := detectBlockers s w rs y in
  responses (ui y') = responses (ui y) /\
  blockers (ui y') = primary :: rest /\
  testId (ui y') = testId (ui y) /\
  diagnostic_tests (store y') = diagnostic_tests (store y) /\
  (blockers_detected (store y') = blockers_detected (store y) \/
   exists id, testId s = Some id /\
     blockers_detected (store y') =
     blockers_detected (store y) ++ map (blocker_row id) (primary :: rest)) /\
  ((stage (ui y') = stage (ui y) /\ currentQuestion (ui y') = currentQuestion (ui y)
    /\ questions (ui y') = questions (ui y)) \/
   (stage (ui y') = stage_confirmatory /\ currentQuestion (ui y') = List.length rs)).
Proof.
  intro Ed. unfold detectBlockers. rewrite Ed.
  destruct (testId s) as [id|]; [destruct (insert_blockers w)|];
    (destruct (confirmatory_batch w) as [| |msg|[qs|q]]; cbn; conjs; eauto 10).
Qed.

Lemma detectBlockers_none s w rs y :
  detectedBlockers rs = [] -> detectBlockers s w rs y = generateRoadmap s w rs y.
Proof. intro E. unfold detectBlockers. now rewrite E. Qed.

Local Opaque generateRoadmap detectBlockers saveResponses.

Lemma Inv_handleAnswerSubmit s d w y' :
  Inv (s, d) -> in_test s = true ->
  handleAnswerSubmit s w (begin (s, d)) = Returned y' ->
  Inv (ui y', store y').
Proof.
  intros (Hok & Ht & Hs & Hu) Hin. unfold stage_inv in Hs. cbn [fst snd] in *.
  unfold handleAnswerSubmit.
  destruct (isBlank (userAnswer s)).
  { intros [= <-]. cbn. unfold Inv, stage_inv. cbn. conjs; auto. }
  destruct (nth_error (questions s) (currentQuestion s)) as [q|]; [|discriminate].
  set (r := mkResponse _ _ _ _ _ _ _).
  assert (Hlen : List.length (responses s ++ [r]) = S (List.length (responses s)))
    by (rewrite length_app; cbn; lia).
  clearbody r. unfold in_test in Hin.
  destruct (stage s) eqn:Es; try discriminate; cbn [Stage_eqb andb orb].
  - (* main test *)
    destruct Hs as ((id & Hid) & Hlt & Hrows).
    assert (Hu' : unconfirmed d id) by (apply Hu; [discriminate|assumption]).
    destruct (List.length (responses s ++ [r]) =? MAIN_TEST_LENGTH) eqn:El.
    + apply Nat.eqb_eq in El. unfold MAIN_TEST_LENGTH in *.
      destruct Hlt as [Hb Hc]; [lia|].
      match goal with
      | |- context [saveResponses ?a ?b ?c ?e] =>
          pose proof (saveResponses_frame a b c e) as F; cbv zeta in F;
          set (y1 := saveResponses a b c e) in *
      end.
      destruct F as (Fu & _ & _ & Ft & Fb & _). clearbody y1. cbn in Fu, Ft, Fb.
      assert (Hok1 : store_ok (store y1)).
      { destruct Hok as [H1 H2]. split; rewrite ?Ft, ?Fb; assumption. }
      destruct (detectedBlockers (responses s ++ [r])) as [|primary rest] eqn:Ed.
      * rewrite (detectBlockers_none _ _ _ _ Ed).
        pose proof (generateRoadmap_frame s w (responses s ++ [r]) y1) as G. cbv zeta in G.
        destruct G as (Gr & Gb & Gt & Gc & Gq & Gok & Gl & Gs).
        rewrite Fu in Gr, Gb, Gt, Gc, Gq. cbn in Gr, Gb, Gt, Gc, Gq.
        intros [= <-]. unfold Inv, stage_inv. cbn [fst snd].
        rewrite Gt, Gl, Ft. conjs; auto.
        -- destruct Gs as [-> | [-> Gd]]; [exact I|]. rewrite Fu; cbn. rewrite Es.
           rewrite ?Gr, ?Gb, ?Gt. conjs; eauto.
           ++ unfold MAIN_TEST_LENGTH. intros; lia.
           ++ intros t Hti _. unfold no_blocker_rows. rewrite Gd, Fb. now apply Hrows.
        -- destruct Gs as [-> | [_ Gd]]; [congruence|].
           intros _ t Hti. unfold unconfirmed. rewrite Gd, Fb. apply Hu; [discriminate|assumption].
      * pose proof (detectBlockers_detected_frame s w _ y1 _ _ Ed) as D. cbv zeta in D.
        destruct D as (Dr & Db & Dt & Dd & Drows & Ds).
        rewrite Fu in Dr, Dt, Ds. cbn in Dr, Dt, Ds.
        intros [= <-]. unfold Inv, stage_inv. cbn [fst snd].
        rewrite Dt, Dd, Ft.
        assert (Hfk : store_ok (store (detectBlockers s w (responses s ++ [r]) y1))).
        { destruct Hok1 as [H1 H2]. split; rewrite ?Dd; [|assumption].
          destruct Drows as [->|(id' & Hid' & ->)]; [assumption|].
          apply references_insert; [assumption|]. rewrite Ft. apply Ht. assumption. }
        assert (Hunc : forall t, testId s = Some t ->
                  unconfirmed (store (detectBlockers s w (responses s ++ [r]) y1)) t).
        { intros t Hti. unfold unconfirmed.
          destruct Drows as [->|(id' & Hid' & ->)]; rewrite Fb.
          - apply Hu; [discriminate|assumption].
          - intros b Hbi Hbt. apply in_app_or in Hbi. destruct Hbi as [Hbi|Hbi].
            + revert b Hbi Hbt. apply Hu; [discriminate|assumption].
            + apply in_map_iff in Hbi. destruct Hbi as (b0 & <- & _). reflexivity. }
        conjs; auto.
        destruct Ds as [(-> & Dc & Dq)| [-> Dc]]; cbn; rewrite ?Es, Dr, Db, ?Dc;
          unfold MAIN_TEST_LENGTH, CONFIRMATORY_LENGTH; conjs; eauto;
          try discriminate; try lia.
    + intros [= <-]. cbn. unfold Inv, stage_inv. cbn. rewrite Es. apply Nat.eqb_neq in El.
      unfold MAIN_TEST_LENGTH in *. rewrite Hlen in *. conjs; eauto.
      intro. destruct Hlt as [Hb Hc]; [lia|]. split; [assumption|lia].
  - (* confirmatory test *)
    destruct Hs as ((id & Hid) & Hne & Hge & Hlt).
    destruct (List.length (responses s ++ [r]) =? MAIN_TEST_LENGTH + CONFIRMATORY_LENGTH) eqn:El.
    + match goal with
      | |- context [saveResponses ?a ?b ?c ?e] =>
          pose proof (saveResponses_frame a b c e) as F; cbv zeta in F;
          set (y1 := saveResponses a b c e) in *
      end.
      destruct F as (Fu & _ & _ & Ft & Fb & _). clearbody y1. cbn in Fu, Ft, Fb.
      assert (Hok1 : store_ok (store y1)).
      { destruct Hok as [H1 H2]. split; rewrite ?Ft, ?Fb; assumption. }
      pose proof (generateRoadmap_frame s w (responses s ++ [r]) y1) as G. cbv zeta in G.
      destruct G as (Gr & Gb & Gt & Gc & Gq & Gok & Gl & Gs).
      rewrite Fu in Gr, Gb, Gt, Gc, Gq. cbn in Gr, Gb, Gt, Gc, Gq.
      intros [= <-]. unfold Inv, stage_inv. cbn [fst snd].
      rewrite Gt, Gl, Ft. conjs; auto.
      * destruct Gs as [-> | [-> Gd]]; [exact I|]. rewrite Fu; cbn. rewrite Es.
        rewrite ?Gr, ?Gb, ?Gt. apply Nat.eqb_eq in El.
        unfold MAIN_TEST_LENGTH, CONFIRMATORY_LENGTH in *. conjs; eauto.
        -- lia.
        -- intros; lia.
      * destruct Gs as [-> | [_ Gd]]; [congruence|].
        intros _ t Hti. unfold unconfirmed. rewrite Gd, Fb. apply Hu; [discriminate|assumption].
    + intros [= <-]. cbn. unfold Inv, stage_inv. cbn. rewrite Es. apply Nat.eqb_neq in El.
      unfold MAIN_TEST_LENGTH, CONFIRMATORY_LENGTH in *. rewrite Hlen in *. conjs; eauto.
      intro. rewrite Hlt; lia.
Qed.

Lemma Inv_step c e : Inv c -> Inv (step c e).
Proof.
  destruct c as [s d]. intro H. unfold step, dispatch. cbn [fst snd].
  destruct e as [a|name|answer| |w|w].
  - destruct (Stage_eqb (stage s) stage_age); [|exact H].
    destruct H as (H1 & H2 & H3 & H4). unfold Inv, stage_inv in *. cbn in *. auto.
  - destruct (Stage_eqb (stage s) stage_student_info); [|exact H].
    destruct H as (H1 & H2 & H3 & H4). unfold Inv, stage_inv in *. cbn in *. auto.
  - destruct (in_test s); [|exact H].
    destruct H as (H1 & H2 & H3 & H4). unfold Inv, stage_inv in *. cbn in *. auto.
  - destruct (Stage_eqb (stage s) stage_age) eqn:E; [|exact H].
    apply Inv_handleAgeSubmit; [assumption|]. now destruct (stage s).
  - destruct (Stage_eqb (stage s) stage_student_info) eqn:E; [|exact H].
    apply Inv_handleStudentInfoSubmit; [assumption|]. now destruct (stage s).
  - destruct (in_test s) eqn:E; [|exact H].
    destruct (handleAnswerSubmit s w (begin (s, d))) as [y|msg] eqn:Ey; [|exact H].
    now apply (Inv_handleAnswerSubmit s d w).
Qed.

Lemma run_snoc events e c : run (events ++ [e]) c = step (run events c) e.
Proof. unfold run. now rewrite fold_left_app. Qed.

Lemma Inv_run events c : Inv c -> Inv (run events c).
Proof.
  intro H. induction events as [|e events IH] using rev_ind; [exact H|].
  rewrite run_snoc. now apply Inv_step.
Qed.

Lemma Inv_reachable d0 c : store_ok d0 -> Reachable d0 c -> Inv c.
Proof. intros H [events ->]. now apply Inv_run, Inv_initial. Qed.

Local Transparent generateRoadmap detectBlockers saveResponses.
Local Transparent detectedBlockers overallSeverity isCorrectAnswer isBlank.

(** ** Completion *)

Lemma generateRoadmap_completion s w rs y t :
  testId s = Some t ->
  stage (ui y) <> stage_roadmap ->
  stage (ui (generateRoadmap s w rs y)) = stage_roadmap ->
  exists data,
    roadmap_response w = Fetched data /\
    roadmap (ui (generateRoadmap s w rs y)) = Some data /\
    remediation_roadmaps (store (generateRoadmap s w rs y)) =
      remediation_roadmaps (store y) ++ [mkRoadmapRow t data] /\
    diagnostic_tests (store (generateRoadmap s w rs y)) =
      map (complete_test t (overallSeverity (blockers s) rs)) (diagnostic_tests (store y)) /\
    blockers_detected (store (generateRoadmap s w rs y)) =
      (if 0 <? List.length (blockers s)
       then map (confirm_blocker t) (blockers_detected (store y))
       else blockers_detected (store y)).
Proof.
  intros Ht Hs. unfold generateRoadmap, persist_completion. rewrite Ht.
  destruct (roadmap_response w) as [| |msg|data]; try (cbn; intro; contradiction).
  destruct (insert_roadmap w); [|cbn; intro; contradiction].
  destruct (update_test w); [|cbn; intro; contradiction].
  destruct (0 <? List.length (blockers s)).
  - destruct (update_blockers w); [|cbn; intro; contradiction].
    intros _. exists data. cbn. auto.
  - intros _. exists data. cbn. auto.
Qed.

Lemma nth_error_complete_test ts t sev :
  (forall i r, nth_error ts i = Some r -> test_id r = i) -> t < List.length ts ->
  exists row, nth_error (map (complete_test t sev) ts) t = Some row /\
              status row = completed /\ overall_severity row = sev.
Proof.
  intros Hpos Hlt. destruct (nth_error ts t) as [r|] eqn:E.
  - exists (complete_test t sev r). rewrite nth_error_map, E. split; [reflexivity|].
    unfold complete_test. rewrite (Hpos _ _ E), Nat.eqb_refl. auto.
  - apply nth_error_None in E. lia.
Qed.

Lemma all_confirmed_map bs t :
  forall b, In b (map (confirm_blocker t) bs) -> blocker_test_id b = t -> is_confirmed b = true.
Proof.
  intros b Hb Hbt. apply in_map_iff in Hb. destruct Hb as (b0 & <- & _).
  unfold confirm_blocker in *. destruct (blocker_test_id b0 =? t) eqn:E; [reflexivity|].
  apply Nat.eqb_neq in E. contradiction.
Qed.

Local Opaque detectedBlockers overallSeverity isCorrectAnswer isBlank.
Local Opaque generateRoadmap detectBlockers saveResponses.

Lemma handleAnswerSubmit_completes s d w y :
  Inv (s, d) -> in_test s = true ->
  handleAnswerSubmit s w (begin (s, d)) = Returned y ->
  stage (ui y) = stage_roadmap ->
  exists t data row,
    testId (ui y) = Some t /\
    all_confirmed (store y) t /\
    roadmap (ui y) = Some data /\
    In (mkRoadmapRow t data) (remediation_roadmaps (store y)) /\
    nth_error (diagnostic_tests (store y)) t = Some row /\
    status row = completed /\
    overall_severity row = overallSeverity (blockers (ui y)) (responses (ui y)).
Proof.
  intros (Hok & Ht & Hs & Hu) Hin. unfold stage_inv in Hs. cbn [fst snd] in *.
  unfold handleAnswerSubmit.
  destruct (isBlank (userAnswer s)).
  { intros [= <-]. cbn. intros E. unfold in_test in Hin. rewrite E in Hin. discriminate. }
  destruct (nth_error (questions s) (currentQuestion s)) as [q|]; [|discriminate].
  set (r := mkResponse _ _ _ _ _ _ _). clearbody r.
  assert (Hlen : List.length (responses s ++ [r]) = S (List.length (responses s)))
    by (rewrite length_app; cbn; lia).
  unfold in_test in Hin.
  assert (Hfin : forall y1 t,
    testId s = Some t ->
    ui y1 = setUserAnswer "" (setResponses (responses s ++ [r]) s) ->
    diagnostic_tests (store y1) = diagnostic_tests d ->
    blockers_detected (store y1) = blockers_detected d ->
    (blockers s = [] -> no_blocker_rows d t) ->
    stage (ui y1) <> stage_roadmap ->
    stage (ui (generateRoadmap s w (responses s ++ [r]) y1)) = stage_roadmap ->
    exists t data row,
      testId (ui (generateRoadmap s w (responses s ++ [r]) y1)) = Some t /\
      all_confirmed (store (generateRoadmap s w (responses s ++ [r]) y1)) t /\
      roadmap (ui (generateRoadmap s w (responses s ++ [r]) y1)) = Some data /\
      In (mkRoadmapRow t data)
         (remediation_roadmaps (store (generateRoadmap s w (responses s ++ [r]) y1))) /\
      nth_error (diagnostic_tests (store (generateRoadmap s w (responses s ++ [r]) y1))) t
        = Some row /\
      status row = completed /\
      overall_severity row =
        overallSeverity (blockers (ui (generateRoadmap s w (responses s ++ [r]) y1)))
                        (responses (ui (generateRoadmap s w (responses s ++ [r]) y1)))).
  { intros y1 t Hid Fu Ft Fb Hrows Hns Hr.
    destruct (generateRoadmap_completion s w _ y1 t Hid Hns Hr) as (data & _ & Rd & Rr & Rt & Rb).
    pose proof (generateRoadmap_frame s w (responses s ++ [r]) y1) as G. cbv zeta in G.
    destruct G as (Gr & Gb & Gt & _).
    rewrite Fu in Gr, Gb, Gt. cbn in Gr, Gb, Gt.
    destruct (nth_error_complete_test (diagnostic_tests d) t
                (overallSeverity (blockers s) (responses s ++ [r])) (proj2 Hok) (Ht t Hid))
      as (row & Hrow & Hst & Hsev).
    exists t, data, row. rewrite Gt, Rd, Rr, Rt, Gb, Gr, Ft. conjs; auto.
    - unfold all_confirmed. rewrite Rb, Fb.
      destruct (blockers s) as [|b0 bs0]; cbn [List.length Nat.ltb Nat.leb].
      + intros b Hb Hbt. exfalso. exact (Hrows eq_refl b Hb Hbt).
      + apply all_confirmed_map.
    - apply in_or_app. right. now left. }
  destruct (stage s) eqn:Es; try discriminate; cbn [Stage_eqb andb orb].
  - destruct Hs as ((id & Hid) & Hlt & Hrows).
    destruct (List.length (responses s ++ [r]) =? MAIN_TEST_LENGTH) eqn:El.
    + match goal with
      | |- context [saveResponses ?a ?b ?c ?e] =>
          pose proof (saveResponses_frame a b c e) as F; cbv zeta in F;
          set (y1 := saveResponses a b c e) in *
      end.
      destruct F as (Fu & _ & _ & Ft & Fb & _). clearbody y1. cbn in Fu, Ft, Fb.
      destruct (detectedBlockers (responses s ++ [r])) as [|primary rest] eqn:Ed.
      * rewrite (detectBlockers_none _ _ _ _ Ed). intros [= <-].
        apply (Hfin y1 id); auto. rewrite Fu; cbn. rewrite Es. discriminate.
      * pose proof (detectBlockers_detected_frame s w _ y1 _ _ Ed) as D. cbv zeta in D.
        destruct D as (_ & _ & _ & _ & _ & Ds). rewrite Fu in Ds. cbn in Ds.
        intros [= <-] E. destruct Ds as [(Ds & _)|(Ds & _)]; congruence.
    + intros [= <-]. cbn. congruence.
  - destruct Hs as ((id & Hid) & Hne & Hge & Hlt).
    destruct (List.length (responses s ++ [r]) =? MAIN_TEST_LENGTH + CONFIRMATORY_LENGTH) eqn:El.
    + match goal with
      | |- context [saveResponses ?a ?b ?c ?e] =>
          pose proof (saveResponses_frame a b c e) as F; cbv zeta in F;
          set (y1 := saveResponses a b c e) in *
      end.
      destruct F as (Fu & _ & _ & Ft & Fb & _). clearbody y1. cbn in Fu, Ft, Fb.
      intros [= <-]. apply (Hfin y1 id); auto.
      * intro; contradiction.
      * rewrite Fu; cbn. rewrite Es. discriminate.
    + intros [= <-]. cbn. congruence.
Qed.

Local Transparent generateRoadmap detectBlockers saveResponses.
Local Transparent detectedBlockers overallSeverity isCorrectAnswer isBlank.

Lemma handleStudentInfoSubmit_stage s w y :
  stage (ui (handleStudentInfoSubmit s w y)) = stage (ui y) \/
  stage (ui (handleStudentInfoSubmit s w y)) = stage_main_test.
Proof.
  unfold handleStudentInfoSubmit.
  destruct (isBlank (studentName s)); [now left|].
  destruct (auth_session w); [|now left]. cbn [store set write ui].
  destruct (db_insert_student _ _ _ _ _) as [[student d1]|msg]; [|now left].
  cbn [store set write ui].
  destruct (db_insert_test _ _ _ _) as [[test d2]|msg]; [|now left].
  destruct (question_batch w); cbn; auto.
Qed.

Lemma step_after_completion c e : stage (fst c) = stage_roadmap -> step c e = c.
Proof.
  destruct c as [s d]. cbn [fst]. intro E. unfold step, dispatch, in_test. cbn [fst].
  rewrite E. destruct e; reflexivity.
Qed.

Lemma store_ok_empty : store_ok emptyStore.
Proof.
  split; cbn.
  - intros b [].
  - intros [|i] t H; discriminate.
Qed.

(** ** Sessions without blockers *)

Lemma generateRoadmap_requests s w rs y :
  requests (generateRoadmap s w rs y) = requests y ++ [GenerateRoadmap (age s) (blockers s) rs].
Proof.
  unfold generateRoadmap. destruct (roadmap_response w) as [| |msg|data]; try reflexivity.
  match goal with
  | |- context [persist_completion ?a ?b ?c ?d ?e] =>
      assert (F : match persist_completion a b c d e with
                  | inl y1 => requests y1 = requests e
                  | inr (y1, _) => requests y1 = requests e
                  end);
      [|destruct (persist_completion a b c d e) as [y1|[y1 msg]]; cbn; rewrite F; reflexivity]
  end.
  unfold persist_completion. destruct (testId s); [|reflexivity].
  destruct (insert_roadmap w); [|reflexivity]. destruct (update_test w); [|reflexivity].
  destruct (0 <? List.length (blockers s)); [destruct (update_blockers w)|]; reflexivity.
Qed.

Lemma generateRoadmap_succeeds s w rs y data :
  roadmap_response w = Fetched data ->
  insert_roadmap w = DbOk -> update_test w = DbOk ->
  blockers s = [] \/ update_blockers w = DbOk ->
  stage (ui (generateRoadmap s w rs y)) = stage_roadmap.
Proof.
  intros E1 E2 E3 E4. unfold generateRoadmap, persist_completion. rewrite E1, E2, E3.
  destruct (testId s); [|reflexivity].
  destruct E4 as [->| ->]; [reflexivity|].
  destruct (0 <? List.length (blockers s)); reflexivity.
Qed.

Local Opaque detectedBlockers overallSeverity isCorrectAnswer isBlank.
Local Opaque generateRoadmap detectBlockers saveResponses.

(** C3 (amended).  In every session, when the tenth main-test answer is
    accepted and the batch detects no blocker, the only request made is the
    roadmap request, with an empty blocker set and the ten responses; the
    session never enters the confirmatory stage; it completes as soon as the
    roadmap arrives and its writes succeed; and the severity stored with the
    completed test is decided by the error rate alone: severe above 0.6,
    moderate above 0.4, mild above 0.2, none otherwise. *)
Theorem no_blockers_skips_confirmation (d0 : Database) (events : list Event)
  (w : World) (y : Sys) :
  store_ok d0 ->
  let c := run events (initialState, d0) in
  stage (fst c) = stage_main_test ->
  List.length (responses (fst c)) = 9 ->
  isBlank (userAnswer (fst c)) = false ->
  dispatch (ClickAnswerSubmit w) c = Returned y ->
  detectedBlockers (responses (ui y)) = [] ->
  List.length (responses (ui y)) = MAIN_TEST_LENGTH /\
  blockers (ui y) = [] /\
  requests y = [GenerateRoadmap (age (fst c)) [] (responses (ui y))] /\
  (stage (ui y) = stage_roadmap \/ stage (ui y) = stage_main_test) /\
  (forall data, roadmap_response w = Fetched data ->
                insert_roadmap w = DbOk -> update_test w = DbOk ->
                stage (ui y) = stage_roadmap) /\
  (stage (ui y) = stage_roadmap ->
   exists t row,
     testId (ui y) = Some t /\
     nth_error (diagnostic_tests (store y)) t = Some row /\
     status row = completed /\
     overall_severity row = severity_of_rate (rate_of (responses (ui y)))).
Proof.
  intros Hok c Es H9 Hnb Hd Hnone.
  assert (HI : Inv c) by (apply Inv_run, Inv_initial; exact Hok).
  destruct c as [s d]. cbn [fst snd] in *.
  pose proof HI as (Hok' & Ht & Hs & Hu). unfold stage_inv in Hs. cbn [fst snd] in Hs.
  rewrite Es in Hs. destruct Hs as ((id & Hid) & Hlt & Hrows).
  destruct Hlt as [Hb Hc]; [unfold MAIN_TEST_LENGTH; lia|].
  assert (Hin : in_test s = true) by (unfold in_test; now rewrite Es).
  unfold dispatch in Hd. cbn [fst snd] in Hd. rewrite Hin in Hd.
  pose proof (handleAnswerSubmit_completes s d w y HI Hin Hd) as Hcomp.
  unfold handleAnswerSubmit in Hd. rewrite Hnb in Hd.
  destruct (nth_error (questions s) (currentQuestion s)) as [q|]; [|discriminate].
  revert Hd. set (r := mkResponse _ _ _ _ _ _ _). clearbody r.
  assert (Hlen : List.length (responses s ++ [r]) = MAIN_TEST_LENGTH)
    by (rewrite length_app; cbn; unfold MAIN_TEST_LENGTH; lia).
  rewrite Es, Hlen, Nat.eqb_refl. cbn [Stage_eqb andb].
  match goal with
  | |- context [saveResponses ?a ?b ?c ?e] =>
      pose proof (saveResponses_frame a b c e) as F; cbv zeta in F;
      set (y1 := saveResponses a b c e) in *
  end.
  destruct F as (Fu & _ & Fq & _). clearbody y1. cbn in Fu, Fq.
  intros [= <-].
  pose proof (detectBlockers_none s w (responses s ++ [r]) y1) as Dn.
  pose proof (generateRoadmap_frame s w (responses s ++ [r]) y1) as G. cbv zeta in G.
  destruct G as (Gr & Gb & Gt & _ & _ & _ & _ & Gs).
  assert (Hr : responses (ui (detectBlockers s w (responses s ++ [r]) y1)) = responses s ++ [r]).
  { destruct (detectedBlockers (responses s ++ [r])) as [|p rest] eqn:Ed.
    - rewrite (Dn eq_refl), Gr, Fu. reflexivity.
    - pose proof (detectBlockers_detected_frame s w _ y1 _ _ Ed) as D. cbv zeta in D.
      destruct D as (Dr & _). rewrite Dr, Fu. reflexivity. }
  rewrite Hr in *. specialize (Dn Hnone). rewrite Dn in *.
  rewrite Fu in Gr, Gb, Gt, Gs. cbn in Gr, Gb, Gt, Gs. rewrite Es in Gs.
  rewrite Gb, Hb, generateRoadmap_requests, Fq, Hb. conjs; auto.
  - tauto.
  - intros data E1 E2 E3. apply (generateRoadmap_succeeds s w _ y1 data); auto.
  - intro Hst. destruct (Hcomp Hst) as (t & data & row & H1 & _ & _ & _ & H5 & H6 & H7).
    exists t, row. rewrite ?Gb, ?Hb, ?Gr in H7. rewrite H7.
    conjs; auto. apply overallSeverity_no_blocker. destruct (responses s); discriminate.
Qed.

Local Transparent generateRoadmap detectBlockers saveResponses.
Local Transparent detectedBlockers overallSeverity isCorrectAnswer isBlank.

Lemma no_blockers_skips_confirmation_witness :
  exists y,
    dispatch (ClickAnswerSubmit spread_world)
      (run (enrol spread_world ++ answers spread_world (repeat "5" 9) ++ [ChangeAnswer "5"])
           (initialState, emptyStore)) = Returned y /\
    stage (ui y) = stage_roadmap /\
    blockers (ui y) = [] /\
    requests y = [GenerateRoadmap (Some 8%Z) [] (responses (ui y))] /\
    exists t row,
      testId (ui y) = Some t /\
      nth_error (diagnostic_tests (store y)) t = Some row /\
      status row = completed /\
      overall_severity row = severity_of_rate (rate_of (responses (ui y))).
Proof.
  eexists. split; [vm_compute; reflexivity|].
  match goal with
  | |- stage (ui ?y) = _ /\ _ =>
      destruct (no_blockers_skips_confirmation emptyStore
                  (enrol spread_world ++ answers spread_world (repeat "5" 9)
                   ++ [ChangeAnswer "5"]) spread_world y store_ok_empty)
        as (_ & Hb & Hr & _ & Hs & Hrow);
        [vm_compute; reflexivity | vm_compute; reflexivity | vm_compute; reflexivity
        | vm_compute; reflexivity | vm_compute; reflexivity | ]
  end.
  assert (Hst := Hs "five steps" eq_refl eq_refl eq_refl).
  split; [exact Hst|]. split; [exact Hb|]. split; [exact Hr|]. exact (Hrow Hst).
Defined.

(** C3, the sentence as written fails: ten incorrect answers on ten
    different constructs detect no blocker, the session goes straight to
    the roadmap, and the severity stored is severe. *)
Lemma no_blockers_yet_severe :
  let c := run (enrol spread_world ++ answers spread_world (repeat "5" 10))
               (initialState, emptyStore) in
  detectedBlockers (firstn MAIN_TEST_LENGTH (responses (fst c))) = [] /\
  blockers (fst c) = [] /\
  stage (fst c) = stage_roadmap /\
  map overall_severity (diagnostic_tests (snd c)) = [severe].
Proof. vm_compute. repeat split. Qed.

(** ** Question batches *)

Local Opaque isBlank.

Lemma In_snoc_inv {A} (x y : A) : In x ([] ++ [y]) -> x = y.
Proof. intros [H|[]]. now symmetry. Qed.

Lemma enrolment_batch s d w a n :
  In (GenerateQuestion a n) (requests (handleStudentInfoSubmit s w (begin (s, d)))) ->
  n = 10 /\
  match question_batch w with
  | Fetched body =>
      stage (ui (handleStudentInfoSubmit s w (begin (s, d)))) = stage_main_test /\
      questions (ui (handleStudentInfoSubmit s w (begin (s, d)))) = as_array body
  | _ =>
      stage (ui (handleStudentInfoSubmit s w (begin (s, d)))) = stage s /\
      questions (ui (handleStudentInfoSubmit s w (begin (s, d)))) = questions s
  end.
Proof.
  unfold handleStudentInfoSubmit.
  destruct (isBlank (studentName s)); [intros []|].
  destruct (auth_session w); [|intros []]. cbn [store set write ui begin snd].
  destruct (db_insert_student _ _ _ _ _) as [[student d1]|msg]; [|intros []].
  cbn [store set write ui].
  destruct (db_insert_test _ _ _ _) as [[test d2]|msg]; [|intros []].
  destruct (question_batch w); cbn; intros [[= <- <-]|[]]; auto.
Qed.

Lemma generateRoadmap_no_batch_request s w rs y a b :
  In (GenerateConfirmatory a b) (requests (generateRoadmap s w rs y)) ->
  In (GenerateConfirmatory a b) (requests y).
Proof.
  rewrite generateRoadmap_requests. intro H. apply in_app_or in H.
  destruct H as [H|[H|[]]]; [assumption|discriminate].
Qed.

Lemma confirmatory_batch_cases s d w y a b :
  handleAnswerSubmit s w (begin (s, d)) = Returned y ->
  In (GenerateConfirmatory a b) (requests y) ->
  exists r primary rest,
    responses (ui y) = responses s ++ [r] /\
    stage s = stage_main_test /\
    detectedBlockers (responses s ++ [r]) = primary :: rest /\
    a = age s /\ b = blocker_name primary /\
    blockers (ui y) = primary :: rest /\
    match confirmatory_batch w with
    | Fetched (JsonArray qs) =>
        stage (ui y) = stage_confirmatory /\
        questions (ui y) = questions s ++ qs /\
        currentQuestion (ui y) = List.length (responses (ui y))
    | _ =>
        stage (ui y) = stage s /\ questions (ui y) = questions s /\
        currentQuestion (ui y) = currentQuestion s
    end.
Proof.
  unfold handleAnswerSubmit.
  destruct (isBlank (userAnswer s)); [intros [= <-] []|].
  destruct (nth_error (questions s) (currentQuestion s)) as [q|]; [|discriminate].
  set (r := mkResponse _ _ _ _ _ _ _). clearbody r.
  assert (Hsave : forall l, requests (saveResponses s w l
            (set (setUserAnswer "") (set (setResponses (responses s ++ [r])) (begin (s, d))))) = []).
  { intro l. unfold saveResponses. destruct (testId s); [destruct (insert_responses w)|]; reflexivity. }
  destruct (Stage_eqb (stage s) stage_main_test
            && (List.length (responses s ++ [r]) =? MAIN_TEST_LENGTH)) eqn:E1.
  - apply andb_true_iff in E1. destruct E1 as [Es _].
    assert (Es' : stage s = stage_main_test) by (destruct (stage s); discriminate || reflexivity).
    intros [= <-]. unfold detectBlockers.
    destruct (detectedBlockers (responses s ++ [r])) as [|primary rest] eqn:Ed.
    + intro H. apply generateRoadmap_no_batch_request in H. rewrite Hsave in H. destruct H.
    + unfold saveResponses.
      destruct (testId s); [destruct (insert_responses w)|];
        (destruct (insert_blockers w);
         destruct (confirmatory_batch w) as [| |msg|[qs|q0]]; cbn;
         intros [[= <- <-]|[]]; exists r, primary, rest; rewrite ?length_app; auto 12).
  - destruct (Stage_eqb (stage s) stage_confirmatory
              && (List.length (responses s ++ [r]) =? MAIN_TEST_LENGTH + CONFIRMATORY_LENGTH)).
    + intros [= <-] H. apply generateRoadmap_no_batch_request in H. rewrite Hsave in H.
      destruct H.
    + intros [= <-] [].
Qed.

(** The confirmatory request is made for [detectedBlockers[0]] of the
    responses including the tenth; where no promoted construct is an array
    index, that is the earliest promoted construct. *)
Lemma confirmatory_request_names_primary s d w y a b :
  handleAnswerSubmit s w (begin (s, d)) = Returned y ->
  In (GenerateConfirmatory a b) (requests y) ->
  primaryBlocker (responses (ui y)) = Some b /\
  ((forall x, In x (detectedBlockers (responses (ui y))) ->
              array_index (blocker_name x) = None) ->
   earliestPromoted (responses (ui y)) = Some b).
Proof.
  intros Hy Hin.
  destruct (confirmatory_batch_cases s d w y a b Hy Hin)
    as (r & p & rest & Hresp & _ & Hd & _ & Hb & _).
  assert (Hp : primaryBlocker (responses (ui y)) = Some b).
  { unfold primaryBlocker. rewrite Hresp, Hd, Hb. reflexivity. }
  split; [exact Hp|]. intro Hnone. now rewrite <- (primaryBlocker_earliest _ Hnone).
Qed.

(** C7 (amended).  A question-batch request made at a stage transition is
    either answered, and then the stage is entered with whatever batch came
    back put in the queue, of any size, or it fails and stage and queue stay
    as they were. *)
Theorem batch_accepted_whatever_its_size :
  (forall s d w a n,
      let y := handleStudentInfoSubmit s w (begin (s, d)) in
      In (GenerateQuestion a n) (requests y) ->
      n = 10 /\
      match question_batch w with
      | Fetched body => stage (ui y) = stage_main_test /\ questions (ui y) = as_array body
      | _ => stage (ui y) = stage s /\ questions (ui y) = questions s
      end) /\
  (forall s d w y a b,
      handleAnswerSubmit s w (begin (s, d)) = Returned y ->
      In (GenerateConfirmatory a b) (requests y) ->
      match confirmatory_batch w with
      | Fetched (JsonArray qs) =>
          stage (ui y) = stage_confirmatory /\
          questions (ui y) = questions s ++ qs /\
          currentQuestion (ui y) = List.length (responses (ui y))
      | _ => stage (ui y) = stage s /\ questions (ui y) = questions s
      end).
Proof.
  split.
  - intros s d w a n y. apply enrolment_batch.
  - intros s d w y a b Hy Hin.
    destruct (confirmatory_batch_cases s d w y a b Hy Hin)
      as (r & p & rest & _ & _ & _ & _ & _ & _ & H).
    destruct (confirmatory_batch w) as [| |msg|[qs|q0]]; tauto.
Qed.

Lemma batch_accepted_whatever_its_size_witness :
  (let y := handleStudentInfoSubmit (fst enrolling) short_world (begin enrolling) in
   stage (ui y) = stage_main_test /\ questions (ui y) = firstn 3 spread_main) /\
  (exists y,
      handleAnswerSubmit (fst short_confirmatory_tenth) short_confirmatory_world (begin short_confirmatory_tenth)
        = Returned y /\
      stage (ui y) = stage_confirmatory /\
      questions (ui y) = memory_main ++ firstn 2 memory_confirmatory /\
      currentQuestion (ui y) = List.length (responses (ui y))).
Proof.
  destruct batch_accepted_whatever_its_size as [H1 H2]. split.
  - apply (H1 (fst enrolling) (snd enrolling) short_world (Some 8%Z) 10).
    vm_compute. now left.
  - eexists. split; [vm_compute; reflexivity|].
    match goal with
    | |- stage (ui ?y) = _ /\ _ =>
        apply (H2 (fst short_confirmatory_tenth) (snd short_confirmatory_tenth) short_confirmatory_world y
                  (Some 8%Z) "Working Memory")
    end.
    + vm_compute. reflexivity.
    + vm_compute. now left.
Defined.

(** C7, the sentence as written fails: a batch of three questions, and a
    payload that is no array at all, open the main test. *)
Lemma partial_batch_accepted :
  (let c := run (enrol short_world) (initialState, emptyStore) in
   stage (fst c) = stage_main_test /\ List.length (questions (fst c)) = 3) /\
  (let c := run (enrol single_object_world) (initialState, emptyStore) in
   stage (fst c) = stage_main_test /\ List.length (questions (fst c)) = 1).
Proof. vm_compute. repeat split. Qed.

(** ** Rate limits *)

Lemma enrolment_rate_limited s d w a n :
  In (GenerateQuestion a n) (requests (handleStudentInfoSubmit s w (begin (s, d)))) ->
  question_batch w = RateLimited ->
  exists student test,
    students (store (handleStudentInfoSubmit s w (begin (s, d)))) = students d ++ [student] /\
    diagnostic_tests (store (handleStudentInfoSubmit s w (begin (s, d))))
      = diagnostic_tests d ++ [test] /\
    studentId (ui (handleStudentInfoSubmit s w (begin (s, d)))) = Some (student_id student) /\
    testId (ui (handleStudentInfoSubmit s w (begin (s, d)))) = Some (test_id test) /\
    status test = in_progress.
Proof.
  unfold handleStudentInfoSubmit.
  destruct (isBlank (studentName s)); [intros []|].
  destruct (auth_session w) as [user|]; [|intros []]. cbn [store set write ui begin snd].
  unfold db_insert_student.
  destruct (insert_student w); [|intros []].
  destruct (age s) as [n0|]; [|intros []].
  destruct (5 <=? n0)%Z; [|intros []].
  cbn [store set write ui]. unfold db_insert_test.
  destruct (insert_test w); [|intros []].
  intros _ ->. cbn. eauto 10.
Qed.

Lemma enrolment_retry s d w body :
  let y1 := handleStudentInfoSubmit s (with_question_batch RateLimited w) (begin (s, d)) in
  let y2 := handleStudentInfoSubmit (ui y1) (with_question_batch (Fetched body) w)
              (begin (ui y1, store y1)) in
  let y0 := handleStudentInfoSubmit s (with_question_batch (Fetched body) w) (begin (s, d)) in
  setStudentId None (setTestId None (ui y2)) = setStudentId None (setTestId None (ui y0)).
Proof.
  destruct w as [au ist ite qb ir ib cb rr iro ut ub].
  unfold handleStudentInfoSubmit, with_question_batch, db_insert_student, db_insert_test.
  cbn [auth_session insert_student insert_test question_batch].
  destruct (isBlank (studentName s)) eqn:Eb.
  { cbn. rewrite Eb. reflexivity. }
  destruct au; [|cbn; rewrite Eb; reflexivity].
  destruct ist; [|cbn; rewrite Eb; reflexivity].
  destruct (age s) as [n0|] eqn:Ea; [|cbn; rewrite Eb, Ea; reflexivity].
  destruct (5 <=? n0)%Z eqn:E5; [|cbn; rewrite Eb, Ea, E5; reflexivity].
  destruct ite; cbn; rewrite Eb, Ea, E5; reflexivity.
Qed.

(** C8 (amended).  A rate-limited answer to a question-batch request leaves
    stage and question queue as they were, but what the handler did before
    the request stays: at enrolment a new student row and a new test row,
    whose identifiers the session now holds; at the end of the main test the
    tenth response and the detected blockers, with the cursor not moved.
    Retrying the enrolment with the same arguments ends in the same
    component state as an attempt that is not throttled, up to the student
    and test identifiers. *)
Theorem rate_limit_keeps_stage_and_queue :
  (forall s d w a n,
      let y := handleStudentInfoSubmit s w (begin (s, d)) in
      In (GenerateQuestion a n) (requests y) ->
      question_batch w = RateLimited ->
      stage (ui y) = stage s /\ questions (ui y) = questions s /\
      exists student test,
        students (store y) = students d ++ [student] /\
        diagnostic_tests (store y) = diagnostic_tests d ++ [test] /\
        studentId (ui y) = Some (student_id student) /\
        testId (ui y) = Some (test_id test)) /\
  (forall s d w y a b,
      handleAnswerSubmit s w (begin (s, d)) = Returned y ->
      In (GenerateConfirmatory a b) (requests y) ->
      confirmatory_batch w = RateLimited ->
      stage (ui y) = stage s /\ questions (ui y) = questions s /\
      currentQuestion (ui y) = currentQuestion s /\
      List.length (responses (ui y)) = S (List.length (responses s)) /\
      blockers (ui y) = detectedBlockers (responses (ui y)) /\
      blockers (ui y) <> []) /\
  (forall s d w body,
      let y1 := handleStudentInfoSubmit s (with_question_batch RateLimited w) (begin (s, d)) in
      let y2 := handleStudentInfoSubmit (ui y1) (with_question_batch (Fetched body) w)
                  (begin (ui y1, store y1)) in
      let y0 := handleStudentInfoSubmit s (with_question_batch (Fetched body) w)
                  (begin (s, d)) in
      setStudentId None (setTestId None (ui y2))
      = setStudentId None (setTestId None (ui y0))).
Proof.
  split; [|split].
  - intros s d w a n y Hin Hr.
    destruct (enrolment_batch s d w a n Hin) as [_ H]. rewrite Hr in H.
    destruct (enrolment_rate_limited s d w a n Hin Hr) as (st & t & H1 & H2 & H3 & H4 & _).
    destruct H as [Hs Hq]. conjs; auto. exists st, t. auto.
  - intros s d w y a b Hy Hin Hr.
    destruct (confirmatory_batch_cases s d w y a b Hy Hin)
      as (r & p & rest & Hresp & _ & Hd & _ & _ & Hb & H).
    rewrite Hr in H. destruct H as (H1 & H2 & H3).
    rewrite Hresp, Hd, Hb, length_app. cbn. conjs; auto; try lia. discriminate.
  - intros s d w body. apply enrolment_retry.
Qed.

Lemma rate_limit_keeps_stage_and_queue_witness :
  (let y := handleStudentInfoSubmit (fst enrolling) throttled_enrolment (begin enrolling) in
   stage (ui y) = stage_student_info /\ questions (ui y) = [] /\
   exists student test,
     students (store y) = [student] /\ diagnostic_tests (store y) = [test] /\
     studentId (ui y) = Some (student_id student) /\
     testId (ui y) = Some (test_id test)) /\
  (exists y,
      handleAnswerSubmit (fst memory_tenth) throttled_confirmatory (begin memory_tenth)
        = Returned y /\
      stage (ui y) = stage_main_test /\ questions (ui y) = memory_main /\
      currentQuestion (ui y) = 9 /\
      List.length (responses (ui y)) = 10 /\
      blockers (ui y) = detectedBlockers (responses (ui y)) /\
      blockers (ui y) <> []).
Proof.
  destruct rate_limit_keeps_stage_and_queue as (H1 & H2 & _). split.
  - apply (H1 (fst enrolling) (snd enrolling) throttled_enrolment (Some 8%Z) 10).
    + vm_compute. now left.
    + reflexivity.
  - eexists. split; [vm_compute; reflexivity|].
    match goal with
    | |- stage (ui ?y) = _ /\ _ =>
        apply (H2 (fst memory_tenth) (snd memory_tenth) throttled_confirmatory y
                  (Some 8%Z) "Working Memory")
    end.
    + vm_compute. reflexivity.
    + vm_compute. now left.
    + reflexivity.
Defined.

(** C8, the sentence as written fails: the throttled enrolment has already
    stored a student row and a test row, and the retry that succeeds stores
    a second pair, so its store differs from that of a first-time success. *)
Lemma rate_limited_attempt_commits_rows :
  (let c := run (enrol throttled_enrolment) (initialState, emptyStore) in
   stage (fst c) = stage_student_info /\
   List.length (students (snd c)) = 1 /\ List.length (diagnostic_tests (snd c)) = 1) /\
  (let c2 := run (enrol throttled_enrolment ++ [ClickStudentInfoSubmit memory_world])
                 (initialState, emptyStore) in
   let c0 := run (enrol memory_world) (initialState, emptyStore) in
   stage (fst c2) = stage_main_test /\ stage (fst c0) = stage_main_test /\
   List.length (students (snd c2)) = 2 /\ List.length (students (snd c0)) = 1 /\
   testId (fst c2) = Some 1 /\ testId (fst c0) = Some 0).
Proof. vm_compute. repeat split. Qed.

(** ** Writes that fail *)

Lemma generateRoadmap_same_view s w rs y1 y2 :
  same_view y1 y2 -> same_view (generateRoadmap s w rs y1) (generateRoadmap s w rs y2).
Proof.
  intros (E1 & E2 & E3 & E4 & E5 & E6). unfold generateRoadmap, persist_completion, same_view.
  destruct (roadmap_response w);
    [| | |destruct (testId s);
          [destruct (insert_roadmap w);
           [destruct (update_test w);
            [destruct (0 <? List.length (blockers s));
             [destruct (update_blockers w)|]|]|]|]];
    cbn; rewrite ?E1, ?E2, ?E3, ?E4, ?E5, ?E6; conjs; reflexivity.
Qed.

Lemma generateRoadmap_responses_table s w rs y :
  test_responses (store (generateRoadmap s w rs y)) = test_responses (store y).
Proof.
  unfold generateRoadmap, persist_completion.
  destruct (roadmap_response w); try reflexivity.
  destruct (testId s); [|reflexivity].
  destruct (insert_roadmap w); [|reflexivity].
  destruct (update_test w); [|reflexivity].
  destruct (0 <? List.length (blockers s)); [destruct (update_blockers w)|]; reflexivity.
Qed.

Lemma detectBlockers_same_view s w rs y1 y2 :
  same_view y1 y2 -> same_view (detectBlockers s w rs y1) (detectBlockers s w rs y2).
Proof.
  intro H. unfold detectBlockers. destruct (detectedBlockers rs) as [|p rest].
  - now apply generateRoadmap_same_view.
  - destruct H as (E1 & E2 & E3 & E4 & E5 & E6). unfold same_view.
    destruct (testId s); [destruct (insert_blockers w)|];
      destruct (confirmatory_batch w) as [| |msg|[qs|q0]];
      cbn; rewrite ?E1, ?E2, ?E3, ?E4, ?E5, ?E6; conjs; reflexivity.
Qed.

Lemma detectBlockers_responses_table s w rs y :
  test_responses (store (detectBlockers s w rs y)) = test_responses (store y).
Proof.
  unfold detectBlockers. destruct (detectedBlockers rs) as [|p rest].
  - apply generateRoadmap_responses_table.
  - destruct (testId s); [destruct (insert_blockers w)|];
      destruct (confirmatory_batch w) as [| |msg|[qs|q0]]; reflexivity.
Qed.

Lemma saveResponses_failure_same_view s w msg rs y :
  same_view (saveResponses s (with_insert_responses (DbError msg) w) rs y)
            (saveResponses s (with_insert_responses DbOk w) rs y) /\
  test_responses (store (saveResponses s (with_insert_responses (DbError msg) w) rs y))
  = test_responses (store y).
Proof.
  unfold saveResponses, same_view. destruct (testId s); cbn; auto 10.
Qed.

Lemma saveResponses_failure_logged s w msg rs y id :
  testId s = Some id ->
  saveResponses s (with_insert_responses (DbError msg) w) rs y
  = console_error ("Error saving responses: " ++ msg)%string y.
Proof. intro Hid. unfold saveResponses. now rewrite Hid. Qed.

Local Opaque generateRoadmap detectBlockers saveResponses detectedBlockers.

(** C9 (amended).  A rejected insert of a stage's responses does not stop
    the session: the run ends in the same component state, with the same
    notifications and requests, as when the insert succeeds; only the rows
    are missing from the store.  The failure is written to the console and
    not thrown. *)
Theorem failed_save_is_logged_and_ignored :
  (forall c w msg,
      match dispatch (ClickAnswerSubmit (with_insert_responses (DbError msg) w)) c,
            dispatch (ClickAnswerSubmit (with_insert_responses DbOk w)) c with
      | Returned y1, Returned y2 =>
          ui y1 = ui y2 /\ toasts y1 = toasts y2 /\ requests y1 = requests y2 /\
          test_responses (store y1) = test_responses (snd c)
      | TypeError m1, TypeError m2 => m1 = m2
      | _, _ => False
      end) /\
  (forall s w msg rs y id,
      testId s = Some id ->
      saveResponses s (with_insert_responses (DbError msg) w) rs y
      = console_error ("Error saving responses: " ++ msg)%string y).
Proof.
  split.
  - intros [s d] w msg. unfold dispatch. cbn [fst snd].
    destruct (in_test s); [|cbn; auto].
    unfold handleAnswerSubmit.
    destruct (isBlank (userAnswer s)); [cbn; auto|].
    destruct (nth_error (questions s) (currentQuestion s)) as [q|]; [|reflexivity].
    set (r := mkResponse _ _ _ _ _ _ _). clearbody r.
    destruct (Stage_eqb (stage s) stage_main_test
              && (List.length (responses s ++ [r]) =? MAIN_TEST_LENGTH)).
    + match goal with
      | |- context [saveResponses s (with_insert_responses (DbError msg) w) ?l ?y0] =>
          destruct (saveResponses_failure_same_view s w msg l y0) as [V T];
          set (y1 := saveResponses s (with_insert_responses (DbError msg) w) l y0) in *;
          set (y2 := saveResponses s (with_insert_responses DbOk w) l y0) in *
      end.
      clearbody y1 y2. cbn in T.
      assert (D : forall y, detectBlockers s (with_insert_responses (DbError msg) w)
                              (responses s ++ [r]) y
                            = detectBlockers s (with_insert_responses DbOk w)
                              (responses s ++ [r]) y) by reflexivity.
      rewrite D.
      destruct (detectBlockers_same_view s (with_insert_responses DbOk w)
                  (responses s ++ [r]) y1 y2 V) as (E1 & E2 & E3 & _).
      rewrite detectBlockers_responses_table. auto.
    + destruct (Stage_eqb (stage s) stage_confirmatory
                && (List.length (responses s ++ [r]) =? MAIN_TEST_LENGTH + CONFIRMATORY_LENGTH)).
      * match goal with
        | |- context [saveResponses s (with_insert_responses (DbError msg) w) ?l ?y0] =>
            destruct (saveResponses_failure_same_view s w msg l y0) as [V T];
            set (y1 := saveResponses s (with_insert_responses (DbError msg) w) l y0) in *;
            set (y2 := saveResponses s (with_insert_responses DbOk w) l y0) in *
        end.
        clearbody y1 y2. cbn in T.
        assert (D : forall y, generateRoadmap s (with_insert_responses (DbError msg) w)
                                (responses s ++ [r]) y
                              = generateRoadmap s (with_insert_responses DbOk w)
                                (responses s ++ [r]) y) by reflexivity.
        rewrite D.
        destruct (generateRoadmap_same_view s (with_insert_responses DbOk w)
                    (responses s ++ [r]) y1 y2 V) as (E1 & E2 & E3 & _).
        rewrite generateRoadmap_responses_table. auto.
      * cbn. auto.
  - intros s w msg rs y id. apply saveResponses_failure_logged.
Qed.

Lemma failed_save_is_logged_and_ignored_witness :
  (match dispatch (ClickAnswerSubmit failing_store) memory_tenth,
         dispatch (ClickAnswerSubmit (with_insert_responses DbOk memory_world)) memory_tenth with
   | Returned y1, Returned y2 =>
       ui y1 = ui y2 /\ toasts y1 = toasts y2 /\ requests y1 = requests y2 /\
       test_responses (store y1) = test_responses (snd memory_tenth)
   | TypeError m1, TypeError m2 => m1 = m2
   | _, _ => False
   end) /\
  saveResponses (fst memory_tenth) failing_store [] (begin memory_tenth)
  = console_error "Error saving responses: permission denied" (begin memory_tenth).
Proof.
  destruct failed_save_is_logged_and_ignored as [H1 H2]. split.
  - exact (H1 memory_tenth memory_world "permission denied").
  - apply (H2 (fst memory_tenth) memory_world "permission denied" [] (begin memory_tenth) 0).
    vm_compute. reflexivity.
Defined.

(** C9, the sentence as written fails: the insert of the ten main-test
    responses is rejected, nothing is stored, no error is shown, and the
    session enters the confirmatory test all the same. *)
Lemma failed_save_still_advances :
  exists y,
    dispatch (ClickAnswerSubmit failing_store) memory_tenth = Returned y /\
    stage (fst memory_tenth) = stage_main_test /\
    stage (ui y) = stage_confirmatory /\
    test_responses (store y) = [] /\
    console y = ["Error saving responses: permission denied"] /\
    forallb (fun t => negb (destructive t)) (toasts y) = true.
Proof. eexists. vm_compute. repeat split. Qed.

(** ** The question cursor *)

Lemma handleAnswerSubmit_unchecked s w y :
  isBlank (userAnswer s) = false ->
  nth_error (questions s) (currentQuestion s) = None ->
  handleAnswerSubmit s w y
  = TypeError "Cannot read properties of undefined (reading 'correctAnswer')".
Proof. intros Hb Hn. unfold handleAnswerSubmit. now rewrite Hb, Hn. Qed.

(** While a stage still lacks responses, the cursor equals the number of
    responses, so a queue of the stage's full length covers it. *)
Lemma cursor_in_bounds_before_stage_end d0 c :
  store_ok d0 -> Reachable d0 c ->
  (stage (fst c) = stage_main_test ->
   List.length (responses (fst c)) < MAIN_TEST_LENGTH ->
   MAIN_TEST_LENGTH <= List.length (questions (fst c)) ->
   currentQuestion (fst c) < List.length (questions (fst c))) /\
  (stage (fst c) = stage_confirmatory ->
   List.length (responses (fst c)) < MAIN_TEST_LENGTH + CONFIRMATORY_LENGTH ->
   MAIN_TEST_LENGTH + CONFIRMATORY_LENGTH <= List.length (questions (fst c)) ->
   currentQuestion (fst c) < List.length (questions (fst c))).
Proof.
  intros Hok Hr. destruct (Inv_reachable d0 c Hok Hr) as (_ & _ & Hs & _).
  unfold stage_inv in Hs. split; intros Es Hl Hq; rewrite Es in Hs.
  - destruct Hs as (_ & H & _). destruct (H Hl) as [_ ->]. lia.
  - destruct Hs as (_ & _ & _ & H). rewrite (H Hl). lia.
Qed.

(** C10, the code against the claim: the queue holds the full ten
    questions; the roadmap request after the tenth answer is throttled, the
    session stays in the main test, takes an eleventh answer for question
    ten, moves the cursor to 10, and the next submission reads past the
    queue. *)
Theorem full_queue_overrun_after_failed_completion :
  let c := run stalled_session (initialState, emptyStore) in
  stage (fst c) = stage_main_test /\
  List.length (questions (fst c)) = MAIN_TEST_LENGTH /\
  List.length (responses (fst c)) = 11 /\
  currentQuestion (fst c) = 10 /\
  nth_error (questions (fst c)) (currentQuestion (fst c)) = None /\
  dispatch (ClickAnswerSubmit spread_world) c
  = TypeError "Cannot read properties of undefined (reading 'correctAnswer')".
Proof. vm_compute. repeat split. Qed.

Local Transparent generateRoadmap detectBlockers saveResponses detectedBlockers isBlank.

(** ** Effects of the handlers, field by field *)

Lemma saveResponses_effect s w rs y :
  let y' := saveResponses s w rs y in
  ui y' = ui y /\
  students (store y') = students (store y) /\
  diagnostic_tests (store y') = diagnostic_tests (store y) /\
  blockers_detected (store y') = blockers_detected (store y) /\
  remediation_roadmaps (store y') = remediation_roadmaps (store y) /\
  (test_responses (store y') = test_responses (store y) \/
   exists id, testId s = Some id /\
     test_responses (store y')
     = test_responses (store y) ++ map (response_row id) rs).
Proof.
  unfold saveResponses. destruct (testId s); [destruct (insert_responses w)|];
    cbn; conjs; eauto.
Qed.

Lemma generateRoadmap_effect s w rs y :
  let y' := generateRoadmap s w rs y in
  (age (ui y') = age (ui y) /\ studentName (ui y') = studentName (ui y) /\
   studentId (ui y') = studentId (ui y) /\ testId (ui y') = testId (ui y) /\
   currentQuestion (ui y') = currentQuestion (ui y) /\
   questions (ui y') = questions (ui y) /\ responses (ui y') = responses (ui y) /\
   blockers (ui y') = blockers (ui y) /\ loading (ui y') = false) /\
  ((stage (ui y') = stage (ui y) /\
    (roadmap (ui y') = roadmap (ui y) \/ exists data, roadmap (ui y') = Some data)) \/
   (stage (ui y') = stage_roadmap /\ exists data, roadmap (ui y') = Some data)) /\
  students (store y') = students (store y) /\
  test_responses (store y') = test_responses (store y) /\
  ((remediation_roadmaps (store y') = remediation_roadmaps (store y) /\
    diagnostic_tests (store y') = diagnostic_tests (store y) /\
    blockers_detected (store y') = blockers_detected (store y)) \/
   exists id data,
     testId s = Some id /\ roadmap (ui y') = Some data /\
     remediation_roadmaps (store y')
     = remediation_roadmaps (store y) ++ [mkRoadmapRow id data] /\
     (diagnostic_tests (store y') = diagnostic_tests (store y) \/
      diagnostic_tests (store y')
      = map (complete_test id (overallSeverity (blockers s) rs))
            (diagnostic_tests (store y))) /\
     (blockers_detected (store y') = blockers_detected (store y) \/
      blockers_detected (store y')
      = map (confirm_blocker id) (blockers_detected (store y)))).
Proof.
  unfold generateRoadmap, persist_completion.
  destruct (roadmap_response w) as [| |msg|data]; try (cbn; conjs; auto; fail).
  destruct (testId s) as [id|]; [|cbn; conjs; eauto 10].
  destruct (insert_roadmap w); [|cbn; conjs; eauto 10].
  destruct (update_test w); [|cbn; conjs; eauto 15].
  destruct (0 <? List.length (blockers s)); [destruct (update_blockers w)|];
    cbn; conjs; eauto 15.
Qed.

Lemma detectBlockers_effect s w rs y primary rest :
  detectedBlockers rs = primary :: rest ->
  let y' := detectBlockers s w rs y in
  (age (ui y') = age (ui y) /\ studentName (ui y') = studentName (ui y) /\
   studentId (ui y') = studentId (ui y) /\ testId (ui y') = testId (ui y) /\
   responses (ui y') = responses (ui y) /\ roadmap (ui y') = roadmap (ui y) /\
   blockers (ui y') = primary :: rest /\ loading (ui y') = false) /\
  ((stage (ui y') = stage (ui y) /\ currentQuestion (ui y') = currentQuestion (ui y) /\
    questions (ui y') = questions (ui y)) \/
   (stage (ui y') = stage_confirmatory /\ currentQuestion (ui y') = List.length rs /\
    exists extra, questions (ui y') = questions s ++ extra)) /\
  students (store y') = students (store y) /\
  diagnostic_tests (store y') = diagnostic_tests (store y) /\
  test_responses (store y') = test_responses (store y) /\
  remediation_roadmaps (store y') = remediation_roadmaps (store y) /\
  (blockers_detected (store y') = blockers_detected (store y) \/
   exists id, testId s = Some id /\
     blockers_detected (store y')
     = blockers_detected (store y) ++ map (blocker_row id) (primary :: rest)).
Proof.
  intro Ed. unfold detectBlockers. rewrite Ed.
  destruct (testId s) as [id|]; [destruct (insert_blockers w)|];
    (destruct (confirmatory_batch w) as [| |msg|[qs|q]]; cbn; conjs; eauto 10).
Qed.

(** The response built for the question under the cursor. *)
Lemma handleAnswerSubmit_effect s d w y' :
  handleAnswerSubmit s w (begin (s, d)) = Returned y' ->
  (isBlank (userAnswer s) = true /\ ui y' = s /\ store y' = d) \/
  (isBlank (userAnswer s) = false /\
   exists q, nth_error (questions s) (currentQuestion s) = Some q /\
     let r := mkResponse (currentQuestion s + 1) (q_questionText q) (userAnswer s)
                (q_correctAnswer q) (isCorrectAnswer (userAnswer s) (q_correctAnswer q))
                (q_construct q) (q_difficultyLevel q) in
     let new := responses s ++ [r] in
     let y0 := set (setUserAnswer "") (set (setResponses new) (begin (s, d))) in
     (stage s = stage_main_test /\ List.length new = 10 /\
      y' = detectBlockers s w new (saveResponses s w (firstn 10 new) y0)) \/
     (stage s = stage_confirmatory /\ List.length new = 15 /\
      y' = generateRoadmap s w new (saveResponses s w (skipn 10 new) y0)) \/
     ((stage s = stage_main_test -> List.length new <> 10) /\
      (stage s = stage_confirmatory -> List.length new <> 15) /\
      y' = set (setCurrentQuestion (currentQuestion s + 1)) y0)).
Proof.
  unfold handleAnswerSubmit. destruct (isBlank (userAnswer s)).
  { intros [= <-]. left. auto. }
  destruct (nth_error (questions s) (currentQuestion s)) as [q|]; [|discriminate].
  intro H. right. split; [reflexivity|].
  exists q. split; [reflexivity|]. cbv zeta.
  set (r := mkResponse _ _ _ _ _ _ _) in *. clearbody r.
  unfold MAIN_TEST_LENGTH, CONFIRMATORY_LENGTH in *.
  change (10 + 5) with 15 in *.
  destruct (Stage_eqb (stage s) stage_main_test) eqn:Em; cbn [andb] in *.
  - assert (Es : stage s = stage_main_test) by (now destruct (stage s)).
    destruct (List.length (responses s ++ [r]) =? 10) eqn:El.
    + apply Nat.eqb_eq in El. injection H as <-. left. auto.
    + apply Nat.eqb_neq in El. rewrite Es in H. cbn [Stage_eqb andb] in H.
      injection H as <-. right. right. conjs; auto. rewrite Es. discriminate.
  - destruct (Stage_eqb (stage s) stage_confirmatory) eqn:Ec; cbn [andb] in *.
    + assert (Es : stage s = stage_confirmatory) by (now destruct (stage s)).
      destruct (List.length (responses s ++ [r]) =? 15) eqn:El.
      * apply Nat.eqb_eq in El. injection H as <-. right. left. auto.
      * apply Nat.eqb_neq in El. injection H as <-. right. right. conjs; auto.
        rewrite Es. discriminate.
    + injection H as <-. right. right. conjs; auto.
      * intro Es. rewrite Es in Em. discriminate.
      * intro Es. rewrite Es in Ec. discriminate.
Qed.

Lemma detectBlockers_cases s w rs y :
  (detectedBlockers rs = [] /\ detectBlockers s w rs y = generateRoadmap s w rs y) \/
  (exists primary rest, detectedBlockers rs = primary :: rest).
Proof.
  destruct (detectedBlockers rs) as [|primary rest] eqn:E; [left|right; eauto].
  split; [reflexivity|]. unfold detectBlockers. now rewrite E.
Qed.

Lemma handleStudentInfoSubmit_effect s d w :
  let y' := handleStudentInfoSubmit s w (begin (s, d)) in
  (age (ui y') = age s /\ studentName (ui y') = studentName s /\
   currentQuestion (ui y') = currentQuestion s /\ responses (ui y') = responses s /\
   blockers (ui y') = blockers s /\ roadmap (ui y') = roadmap s /\
   (loading s = false -> loading (ui y') = false)) /\
  ((stage (ui y') = stage s /\ questions (ui y') = questions s) \/
   (stage (ui y') = stage_main_test /\ isBlank (studentName s) = false /\
    exists body sid tid user a,
      question_batch w = Fetched body /\ questions (ui y') = as_array body /\
      auth_session w = Some user /\ age s = Some a /\
      studentId (ui y') = Some sid /\ testId (ui y') = Some tid /\
      sid = List.length (students d) /\ tid = List.length (diagnostic_tests d) /\
      students (store y') = students d ++ [mkStudentRow sid (studentName s) a user] /\
      diagnostic_tests (store y')
      = diagnostic_tests d ++ [mkTestRow tid sid a in_progress none])) /\
  test_responses (store y') = test_responses d /\
  blockers_detected (store y') = blockers_detected d /\
  remediation_roadmaps (store y') = remediation_roadmaps d /\
  ((students (store y') = students d /\ diagnostic_tests (store y') = diagnostic_tests d /\
    studentId (ui y') = studentId s /\ testId (ui y') = testId s) \/
   (exists a user,
      age s = Some a /\ (5 <= a)%Z /\ auth_session w = Some user /\
      studentId (ui y') = Some (List.length (students d)) /\
      students (store y')
      = students d ++ [mkStudentRow (List.length (students d)) (studentName s) a user] /\
      ((diagnostic_tests (store y') = diagnostic_tests d /\ testId (ui y') = testId s) \/
       (testId (ui y') = Some (List.length (diagnostic_tests d)) /\
        diagnostic_tests (store y')
        = diagnostic_tests d
          ++ [mkTestRow (List.length (diagnostic_tests d)) (List.length (students d))
                        a in_progress none])))).
Proof.
  unfold handleStudentInfoSubmit.
  destruct (isBlank (studentName s)) eqn:Eb; [cbn; conjs; auto|].
  destruct (auth_session w) as [user|]; [|cbn; conjs; auto].
  unfold db_insert_student, db_insert_test.
  destruct (insert_student w); [|cbn; conjs; auto].
  destruct (age s) as [a|] eqn:Ea; [|cbn; conjs; auto].
  cbn [begin store set write ui].
  destruct (5 <=? a)%Z eqn:E5; [|cbn; conjs; auto].
  apply Z.leb_le in E5.
  destruct (insert_test w); [|cbn; rewrite ?Ea; conjs; auto; right; exists a, user; conjs; auto].
  cbn [begin store set write ui post toast].
  destruct (question_batch w) as [| |msg|body]; cbn; rewrite ?Ea; conjs; auto;
    try (right; exists a, user; conjs; auto; fail).
  right. conjs; auto. exists body, (List.length (students d)), (List.length (diagnostic_tests d)), user, a.
  conjs; auto.
Qed.

(** Every event, seen from the store and the state it leaves. *)
Lemma step_cases (P : Config -> Prop) (c : Config) (e : Event) :
  P c ->
  (forall a, stage (fst c) = stage_age -> P (setAge a (fst c), snd c)) ->
  (forall n, stage (fst c) = stage_student_info -> P (setStudentName n (fst c), snd c)) ->
  (forall a, in_test (fst c) = true -> P (setUserAnswer a (fst c), snd c)) ->
  (stage (fst c) = stage_age ->
   let y := handleAgeSubmit (fst c) (begin c) in P (ui y, store y)) ->
  (forall w, stage (fst c) = stage_student_info ->
   let y := handleStudentInfoSubmit (fst c) w (begin c) in P (ui y, store y)) ->
  (forall w y, in_test (fst c) = true ->
   handleAnswerSubmit (fst c) w (begin c) = Returned y -> P (ui y, store y)) ->
  P (step c e).
Proof.
  intros H0 Ha Hn Hu Hage Hinfo Hans. unfold step, dispatch.
  destruct e as [a|name|answer| |w|w].
  - destruct (Stage_eqb (stage (fst c)) stage_age) eqn:E; cbn [ui store set begin].
    + apply Ha. now destruct (stage (fst c)).
    + now destruct c.
  - destruct (Stage_eqb (stage (fst c)) stage_student_info) eqn:E; cbn [ui store set begin].
    + apply Hn. now destruct (stage (fst c)).
    + now destruct c.
  - destruct (in_test (fst c)) eqn:E; cbn [ui store set begin].
    + now apply Hu.
    + now destruct c.
  - destruct (Stage_eqb (stage (fst c)) stage_age) eqn:E.
    + apply Hage. now destruct (stage (fst c)).
    + now destruct c.
  - destruct (Stage_eqb (stage (fst c)) stage_student_info) eqn:E.
    + apply Hinfo. now destruct (stage (fst c)).
    + now destruct c.
  - destruct (in_test (fst c)) eqn:E.
    + destruct (handleAnswerSubmit (fst c) w (begin c)) as [y|msg] eqn:Ey; [|exact H0].
      now apply (Hans w).
    + now destruct c.
Qed.

Lemma run_invariant (P : Config -> Prop) :
  (forall c e, Inv c -> P c -> P (step c e)) ->
  forall events c, Inv c -> P c -> P (run events c).
Proof.
  intros Hstep events c Hi Hp.
  induction events as [|e events IH] using rev_ind; [exact Hp|].
  rewrite run_snoc. apply Hstep; [now apply Inv_run|exact IH].
Qed.

Lemma in_test_stage s :
  in_test s = true -> stage s = stage_main_test \/ stage s = stage_confirmatory.
Proof. unfold in_test. destruct (stage s); cbn; auto; discriminate. Qed.

(** *** The spinner *)

Lemma loading_step c e : loading (fst c) = false -> loading (fst (step c e)) = false.
Proof.
  intro H. apply (step_cases (fun c => loading (fst c) = false)); auto.
  - intros _. unfold handleAgeSubmit. destruct (age (fst c)) as [a|]; [destruct (_ || _)|]; exact H.
  - intros w _. destruct c as [s d]. cbn [fst snd] in *.
    destruct (handleStudentInfoSubmit_effect s d w) as ((_ & _ & _ & _ & _ & _ & Hl) & _).
    now apply Hl.
  - intros w y _ Hy. destruct c as [s d]. cbn [fst snd] in *.
    destruct (handleAnswerSubmit_effect s d w y Hy) as [(_ & -> & _)|(_ & q & _ & Hc)]; [exact H|].
    cbv zeta in Hc. destruct Hc as [(_ & _ & ->)|[(_ & _ & ->)|(_ & _ & ->)]].
    + match goal with |- context [detectBlockers ?s ?w ?rs ?y] =>
        destruct (detectBlockers_cases s w rs y) as [[_ ->]|(p & rest & Ed)] end.
      * match goal with |- context [generateRoadmap ?s ?w ?rs ?y] =>
          destruct (generateRoadmap_effect s w rs y) as (G & _) end. apply G.
      * match goal with |- context [detectBlockers ?s ?w ?rs ?y] =>
          destruct (detectBlockers_effect s w rs y p rest Ed) as (G & _) end. apply G.
    + match goal with |- context [generateRoadmap ?s ?w ?rs ?y] =>
        destruct (generateRoadmap_effect s w rs y) as (G & _) end. apply G.
    + exact H.
Qed.

(** X1.  After every event the spinner is off: no handler run, whatever
    fails in it, leaves [loading] set, so the buttons are never left
    disabled. *)
Theorem loading_is_cleared_after_every_event (d0 : Database) (events : list Event) :
  loading (fst (run events (initialState, d0))) = false.
Proof.
  induction events as [|e events IH] using rev_ind; [reflexivity|].
  rewrite run_snoc. now apply loading_step.
Qed.

(** *** The stage diagram *)

Lemma handleAnswerSubmit_stage s d w y :
  in_test s = true ->
  handleAnswerSubmit s w (begin (s, d)) = Returned y ->
  stage (ui y) = stage s \/
  (stage s = stage_main_test /\ stage (ui y) = stage_confirmatory) \/
  stage (ui y) = stage_roadmap.
Proof.
  intros Hin Hy.
  destruct (handleAnswerSubmit_effect s d w y Hy) as [(_ & -> & _)|(_ & q & _ & Hc)]; [auto|].
  cbv zeta in Hc. destruct Hc as [(Es & _ & ->)|[(Es & _ & ->)|(_ & _ & ->)]].
  - match goal with |- context [detectBlockers ?s ?w ?rs ?y] =>
      destruct (detectBlockers_cases s w rs y) as [[_ ->]|(p & rest & Ed)] end.
    + match goal with |- context [generateRoadmap ?s ?w ?rs ?y] =>
        destruct (generateRoadmap_effect s w rs y) as (_ & [[G _]|[G _]] & _);
        pose proof (saveResponses_effect s w (firstn 10 rs)
                      (set (setUserAnswer "") (set (setResponses rs) (begin (s, d))))) as F
      end; cbv zeta in F; destruct F as (F & _); rewrite ?F in G; auto.
    + match goal with |- context [detectBlockers ?s ?w ?rs ?y] =>
        destruct (detectBlockers_effect s w rs y p rest Ed) as (_ & [(G & _)|(G & _)] & _);
        pose proof (saveResponses_effect s w (firstn 10 rs)
                      (set (setUserAnswer "") (set (setResponses rs) (begin (s, d))))) as F
      end; cbv zeta in F; destruct F as (F & _); rewrite ?F in G; auto.
  - match goal with |- context [generateRoadmap ?s ?w ?rs ?y] =>
      destruct (generateRoadmap_effect s w rs y) as (_ & [[G _]|[G _]] & _);
      pose proof (saveResponses_effect s w (skipn 10 rs)
                    (set (setUserAnswer "") (set (setResponses rs) (begin (s, d))))) as F
    end; cbv zeta in F; destruct F as (F & _); rewrite ?F in G; auto.
  - auto.
Qed.


(** *** The age gate *)

Lemma age_accepted_step c e : age_accepted (fst c) -> age_accepted (fst (step c e)).
Proof.
  intro H. apply (step_cases (fun c => age_accepted (fst c))); auto.
  - intros a Es. unfold age_accepted. cbn. intro Hn. contradiction.
  - intros Es. unfold handleAgeSubmit, age_accepted.
    destruct (age (fst c)) as [a|] eqn:Ea; [destruct ((a =? 0)%Z || (a <? 5)%Z) eqn:Eg|]; cbn;
      try (intro Hn; contradiction).
    intros _. rewrite Ea. exists a. split; [reflexivity|].
    apply orb_false_iff in Eg. destruct Eg as [_ Eg]. apply Z.ltb_ge in Eg. exact Eg.
  - intros w Es. destruct c as [s d]. cbn [fst snd] in *.
    destruct (handleStudentInfoSubmit_effect s d w) as ((Ga & _) & _).
    unfold age_accepted in *. cbn [fst]. rewrite Ga. intros _. apply H. rewrite Es. discriminate.
  - intros w y Hin Hy. destruct c as [s d]. cbn [fst snd] in *.
    assert (Hs : stage s <> stage_age) by (destruct (in_test_stage s Hin) as [-> | ->]; discriminate).
    unfold age_accepted in *. cbn [fst]. intros _.
    enough (age (ui y) = age s) as -> by (now apply H).
    destruct (handleAnswerSubmit_effect s d w y Hy) as [(_ & -> & _)|(_ & q & _ & Hc)]; [auto|].
    cbv zeta in Hc. destruct Hc as [(_ & _ & ->)|[(_ & _ & ->)|(_ & _ & ->)]].
    + match goal with |- context [detectBlockers ?s ?w ?rs ?y] =>
        destruct (detectBlockers_cases s w rs y) as [[_ ->]|(p & rest & Ed)] end.
      * match goal with |- context [generateRoadmap ?s ?w ?rs ?y] =>
          destruct (generateRoadmap_effect s w rs y) as ((G & _) & _) end. rewrite G.
        match goal with |- context [saveResponses ?s ?w ?rs ?y] =>
          destruct (saveResponses_effect s w rs y) as (F & _) end. now rewrite F.
      * match goal with |- context [detectBlockers ?s ?w ?rs ?y] =>
          destruct (detectBlockers_effect s w rs y p rest Ed) as ((G & _) & _) end. rewrite G.
        match goal with |- context [saveResponses ?s ?w ?rs ?y] =>
          destruct (saveResponses_effect s w rs y) as (F & _) end. now rewrite F.
    + match goal with |- context [generateRoadmap ?s ?w ?rs ?y] =>
        destruct (generateRoadmap_effect s w rs y) as ((G & _) & _) end. rewrite G.
      match goal with |- context [saveResponses ?s ?w ?rs ?y] =>
        destruct (saveResponses_effect s w rs y) as (F & _) end. now rewrite F.
    + reflexivity.
Qed.

Lemma age_accepted_run events d0 : age_accepted (fst (run events (initialState, d0))).
Proof.
  induction events as [|e events IH] using rev_ind.
  - intro H. now contradiction H.
  - rewrite run_snoc. now apply age_accepted_step.
Qed.

(** X3.  Past the age stage the age of the session is a number, 5 or
    more, whatever was typed and however often the form was submitted; the
    student row written at enrolment therefore passes the table's check
    [age >= 5], and the insert fails only when the store reports an error
    of its own. *)
Theorem age_gate_protects_the_age_check (d0 : Database) (events : list Event) :
  let c := run events (initialState, d0) in
  stage (fst c) <> stage_age ->
  exists a, age (fst c) = Some a /\ (5 <= a)%Z /\
    forall res name teacher d,
      match db_insert_student res name (age (fst c)) teacher d with
      | inl (id, d') =>
          students d' = students d ++ [mkStudentRow id name a teacher]
      | inr msg => res = DbError msg
      end.
Proof.
  intros c Hs. destruct (age_accepted_run events d0 Hs) as (a & Ea & H5).
  exists a. fold c in Ea. conjs; auto. intros res name teacher d.
  unfold db_insert_student. rewrite Ea. destruct res; [|reflexivity].
  apply Z.leb_le in H5. rewrite H5. reflexivity.
Qed.

Lemma age_gate_protects_the_age_check_witness :
  exists a,
    age (fst (run (enrol memory_world) (initialState, emptyStore))) = Some a /\ (5 <= a)%Z /\
    forall res name teacher d,
      match db_insert_student res name
              (age (fst (run (enrol memory_world) (initialState, emptyStore)))) teacher d with
      | inl (id, d') =>
          students d' = students d ++ [mkStudentRow id name a teacher]
      | inr msg => res = DbError msg
      end.
Proof.
  apply (age_gate_protects_the_age_check emptyStore (enrol memory_world)).
  vm_compute. discriminate.
Defined.

(** *** One answer, from the state and store before to those after *)

Lemma answer_effect s d w y :
  handleAnswerSubmit s w (begin (s, d)) = Returned y ->
  (isBlank (userAnswer s) = true /\ ui y = s /\ store y = d) \/
  exists q,
    isBlank (userAnswer s) = false /\
    nth_error (questions s) (currentQuestion s) = Some q /\
    let new := responses s ++ [response_to (currentQuestion s) q (userAnswer s)] in
    (age (ui y) = age s /\ studentName (ui y) = studentName s /\
     studentId (ui y) = studentId s /\ testId (ui y) = testId s /\
     responses (ui y) = new /\ students (store y) = students d) /\
    (* the next question of the stage *)
    (((stage s = stage_main_test -> List.length new <> 10) /\
      (stage s = stage_confirmatory -> List.length new <> 15) /\
      stage (ui y) = stage s /\ questions (ui y) = questions s /\
      blockers (ui y) = blockers s /\ roadmap (ui y) = roadmap s /\
      currentQuestion (ui y) = currentQuestion s + 1 /\ store y = d) \/
     (* the tenth answer, with blockers *)
     (stage s = stage_main_test /\ List.length new = 10 /\
      detectedBlockers new <> [] /\ blockers (ui y) = detectedBlockers new /\
      roadmap (ui y) = roadmap s /\
      ((stage (ui y) = stage s /\ currentQuestion (ui y) = currentQuestion s /\
        questions (ui y) = questions s) \/
       (stage (ui y) = stage_confirmatory /\ currentQuestion (ui y) = List.length new /\
        exists extra, questions (ui y) = questions s ++ extra)) /\
      diagnostic_tests (store y) = diagnostic_tests d /\
      remediation_roadmaps (store y) = remediation_roadmaps d /\
      (exists d1, responses_saved s d d1 (firstn 10 new) /\
                  test_responses (store y) = test_responses d1) /\
      (blockers_detected (store y) = blockers_detected d \/
       exists id, testId s = Some id /\
         blockers_detected (store y)
         = blockers_detected d ++ map (blocker_row id) (detectedBlockers new))) \/
     (* the last answer of the session *)
     (((stage s = stage_main_test /\ List.length new = 10 /\ detectedBlockers new = [] /\
        exists d1, responses_saved s d d1 (firstn 10 new) /\
                   test_responses (store y) = test_responses d1) \/
       (stage s = stage_confirmatory /\ List.length new = 15 /\
        exists d1, responses_saved s d d1 (skipn 10 new) /\
                   test_responses (store y) = test_responses d1)) /\
      blockers (ui y) = blockers s /\ questions (ui y) = questions s /\
      currentQuestion (ui y) = currentQuestion s /\
      ((stage (ui y) = stage s /\
        (roadmap (ui y) = roadmap s \/ exists data, roadmap (ui y) = Some data)) \/
       (stage (ui y) = stage_roadmap /\ exists data, roadmap (ui y) = Some data)) /\
      completion_written s new (roadmap (ui y)) d (store y))).
Proof.
  intro Hy.
  destruct (handleAnswerSubmit_effect s d w y Hy) as [H|(Hb & q & Hq & Hc)]; [now left|].
  right. exists q. split; [exact Hb|]. split; [exact Hq|]. cbv zeta in Hc |- *.
  fold (response_to (currentQuestion s) q (userAnswer s)) in Hc.
  set (new := responses s ++ [response_to (currentQuestion s) q (userAnswer s)]) in *.
  clearbody new.
  set (y0 := set (setUserAnswer "") (set (setResponses new) (begin (s, d)))) in *.
  assert (H0 : ui y0 = setUserAnswer "" (setResponses new s) /\ store y0 = d) by auto.
  clearbody y0. destruct H0 as [Hu0 Hd0].
  destruct Hc as [(Es & El & ->)|[(Es & El & ->)|(Em & Ec & ->)]].
  - (* main test complete *)
    pose proof (saveResponses_effect s w (firstn 10 new) y0) as F. cbv zeta in F.
    set (y1 := saveResponses s w (firstn 10 new) y0) in *. clearbody y1.
    destruct F as (Fu & Fs & Ft & Fb & Fr & Fsave).
    assert (Hsaved : responses_saved s d (store y1) (firstn 10 new))
      by (unfold responses_saved; rewrite <- Hd0; exact Fsave).
    destruct (detectBlockers_cases s w new y1) as [[Ed ->]|(p & rest & Ed)].
    + pose proof (generateRoadmap_effect s w new y1) as G. cbv zeta in G.
      set (y2 := generateRoadmap s w new y1) in *. clearbody y2.
      destruct G as ((Ga & Gn & Gi & Gt & Gc & Gq & Gr & Gb & _) & Gst & Gs & Gtr & Gw).
      rewrite Fu, Hu0 in *. cbn in Ga, Gn, Gi, Gt, Gc, Gq, Gr, Gb, Gst.
      split; [conjs; auto; congruence|]. right. right. conjs; auto.
      * left. conjs; auto. exists (store y1). split; [exact Hsaved|exact Gtr].
      * unfold completion_written. rewrite <- Hd0, <- Ft, <- Fb, <- Fr. exact Gw.
    + pose proof (detectBlockers_effect s w new y1 p rest Ed) as G. cbv zeta in G.
      set (y2 := detectBlockers s w new y1) in *. clearbody y2.
      destruct G as ((Ga & Gn & Gi & Gt & Gr & Gm & Gb & _) & Gst & Gs & Gte & Gtr & Gro & Gbl).
      rewrite Fu, Hu0 in *. cbn in Ga, Gn, Gi, Gt, Gr, Gm, Gb, Gst.
      split; [conjs; auto; congruence|]. right. left. rewrite Ed. conjs; auto; try congruence.
      * exists (store y1). split; [exact Hsaved|exact Gtr].
      * rewrite <- Hd0, <- Fb. exact Gbl.
  - (* confirmatory test complete *)
    pose proof (saveResponses_effect s w (skipn 10 new) y0) as F. cbv zeta in F.
    set (y1 := saveResponses s w (skipn 10 new) y0) in *. clearbody y1.
    destruct F as (Fu & Fs & Ft & Fb & Fr & Fsave).
    assert (Hsaved : responses_saved s d (store y1) (skipn 10 new))
      by (unfold responses_saved; rewrite <- Hd0; exact Fsave).
    pose proof (generateRoadmap_effect s w new y1) as G. cbv zeta in G.
    set (y2 := generateRoadmap s w new y1) in *. clearbody y2.
    destruct G as ((Ga & Gn & Gi & Gt & Gc & Gq & Gr & Gb & _) & Gst & Gs & Gtr & Gw).
    rewrite Fu, Hu0 in *. cbn in Ga, Gn, Gi, Gt, Gc, Gq, Gr, Gb, Gst.
    split; [conjs; auto; congruence|]. right. right. conjs; auto.
    + right. conjs; auto. exists (store y1). split; [exact Hsaved|exact Gtr].
    + unfold completion_written. rewrite <- Hd0, <- Ft, <- Fb, <- Fr. exact Gw.
  - cbn. rewrite Hu0, Hd0. cbn. split; [conjs; auto|]. left. conjs; auto.
Qed.

(** *** Recorded responses *)

Lemma graded_step c e :
  Forall graded (responses (fst c)) -> Forall graded (responses (fst (step c e))).
Proof.
  intro H. apply (step_cases (fun c => Forall graded (responses (fst c)))); auto.
  - intros _. unfold handleAgeSubmit.
    destruct (age (fst c)) as [a|]; [destruct (_ || _)|]; exact H.
  - intros w _. destruct c as [s d]. cbn [fst snd] in *.
    destruct (handleStudentInfoSubmit_effect s d w) as ((_ & _ & _ & -> & _) & _). exact H.
  - intros w y _ Hy. destruct c as [s d]. cbn [fst snd] in *.
    destruct (answer_effect s d w y Hy) as [(_ & -> & _)|(q & Hb & Hq & Hc)]; [exact H|].
    cbv zeta in Hc. destruct Hc as ((_ & _ & _ & _ & -> & _) & _).
    apply Forall_app. split; [exact H|]. constructor; [|constructor].
    split; [exact Hb|reflexivity].
Qed.

(** X4.  Every response a session holds has a non-blank answer, and its
    [isCorrect] flag is the verdict of the comparison on the answer and the
    reference answer stored in the same response. *)
Theorem responses_are_graded_answers (d0 : Database) (events : list Event) :
  Forall graded (responses (fst (run events (initialState, d0)))).
Proof.
  induction events as [|e events IH] using rev_ind; [constructor|].
  rewrite run_snoc. now apply graded_step.
Qed.

Lemma Inv_cursor s d :
  Inv (s, d) -> in_test s = true -> List.length (responses s) < stage_end s ->
  currentQuestion s = List.length (responses s).
Proof.
  intros (_ & _ & Hs & _) Hin Hl. unfold stage_inv in Hs. cbn [fst snd] in Hs.
  unfold stage_end in Hl.
  destruct (in_test_stage s Hin) as [Es|Es]; rewrite Es in *.
  - destruct Hs as (_ & Hc & _). now destruct (Hc Hl).
  - destruct Hs as (_ & _ & _ & Hc). now apply Hc.
Qed.

Lemma Inv_confirmatory s d :
  Inv (s, d) -> stage s = stage_confirmatory -> 10 <= List.length (responses s).
Proof.
  intros (_ & _ & Hs & _) Es. unfold stage_inv in Hs. cbn [fst snd] in Hs.
  rewrite Es in Hs. apply Hs.
Qed.

Lemma Inv_before_test s d :
  Inv (s, d) -> stage s = stage_age \/ stage s = stage_student_info ->
  responses s = [] /\ blockers s = [].
Proof.
  intros (_ & _ & Hs & _) Es. unfold stage_inv in Hs. cbn [fst snd] in Hs.
  destruct Es as [Es|Es]; rewrite Es in Hs; tauto.
Qed.

Lemma nth_error_lt {A} (l : list A) i x : nth_error l i = Some x -> i < List.length l.
Proof. intro H. apply nth_error_Some. congruence. Qed.

Lemma in_step_snoc rs qs qs' i0 q a bound bound' :
  (forall i r, i < bound -> nth_error rs i = Some r ->
     exists q, nth_error qs i = Some q /\ r = response_to i q (r_userAnswer r)) ->
  (forall i q, nth_error qs i = Some q -> nth_error qs' i = Some q) ->
  nth_error qs i0 = Some q ->
  (forall i, i < bound' -> i < List.length rs -> i < bound) ->
  (List.length rs < bound' -> i0 = List.length rs) ->
  forall i r, i < bound' -> nth_error (rs ++ [response_to i0 q a]) i = Some r ->
    exists q, nth_error qs' i = Some q /\ r = response_to i q (r_userAnswer r).
Proof.
  intros H Hqs Hq Hb Hc i r Hi Hn.
  destruct (Nat.lt_ge_cases i (List.length rs)) as [Hlt|Hge].
  - rewrite nth_error_app1 in Hn by assumption.
    destruct (H i r (Hb i Hi Hlt) Hn) as (q' & Hq' & Hr). exists q'. split; [now apply Hqs|exact Hr].
  - rewrite nth_error_app2 in Hn by assumption.
    destruct (i - List.length rs) as [|k] eqn:Ek; cbn in Hn; [|now destruct k].
    injection Hn as <-. assert (i = List.length rs) as -> by lia.
    rewrite (Hc Hi) in *. exists q. split; [now apply Hqs|reflexivity].
Qed.

Lemma in_step_step c e : Inv c -> in_step (fst c) -> in_step (fst (step c e)).
Proof.
  intros Hi H. apply (step_cases (fun c => in_step (fst c))); auto.
  - intros Es. unfold handleAgeSubmit.
    destruct (age (fst c)) as [a|]; [destruct (_ || _)|]; try exact H.
    destruct c as [s d]. cbn [fst snd] in *.
    destruct (Inv_before_test s d Hi (or_introl Es)) as [Hr _].
    unfold in_step. cbn. rewrite Hr. intros i r _ Hn. now destruct i.
  - intros w Es. destruct c as [s d]. cbn [fst snd] in *.
    destruct (Inv_before_test s d Hi (or_intror Es)) as [Hr _].
    destruct (handleStudentInfoSubmit_effect s d w) as ((_ & _ & _ & Gr & _) & _).
    unfold in_step. cbn [fst]. rewrite Gr, Hr. intros i r _ Hn. now destruct i.
  - intros w y Hin Hy. destruct c as [s d]. cbn [fst snd] in *.
    destruct (answer_effect s d w y Hy) as [(_ & -> & _)|(q & Hb & Hq & Hc)]; [exact H|].
    cbv zeta in Hc. destruct Hc as ((_ & _ & _ & _ & Gr & _) & Hc).
    pose proof (Inv_cursor s d Hi Hin) as Hcur.
    assert (Hlen : List.length (responses s ++ [response_to (currentQuestion s) q (userAnswer s)])
                   = S (List.length (responses s))) by (rewrite length_app; cbn; lia).
    unfold in_step. rewrite Gr. rewrite Hlen in Hc. unfold in_step in H.
    unfold stage_end, MAIN_TEST_LENGTH, CONFIRMATORY_LENGTH in *. cbn [Nat.add] in *.
    destruct Hc as [(Em & Ec & Gs & Gq & _)|[(Es & El & _ & _ & _ & Gst & _)|(Hlast & _ & Gq & _ & Gs & _)]].
    + rewrite Gq, Gs. eapply in_step_snoc; eauto.
    + rewrite Es in *.
      destruct Gst as [(Gs & _ & Gq)|(Gs & _ & extra & Gq)]; rewrite Gq, Gs.
      * eapply in_step_snoc; eauto.
      * eapply in_step_snoc; eauto; try (intros; lia).
        intros j q' Hj. rewrite nth_error_app1; [exact Hj|]. now apply nth_error_lt in Hj.
    + rewrite Gq.
      destruct Hlast as [(Es & El & _)|(Es & El & _)]; rewrite Es in *;
        (destruct Gs as [[-> _]|[-> _]]; eapply in_step_snoc; eauto; intros; lia).
Qed.

Lemma in_step_run d0 events :
  store_ok d0 -> in_step (fst (run events (initialState, d0))).
Proof.
  intro Hok. apply (run_invariant (fun c => in_step (fst c))).
  - intros c e. apply in_step_step.
  - now apply Inv_initial.
  - intros i r _ Hn. now destruct i.
Qed.

Lemma numbered_by_position_step c e :
  numbered_by_position (fst c) -> numbered_by_position (fst (step c e)).
Proof.
  intro H. apply (step_cases (fun c => numbered_by_position (fst c))); auto.
  - intros _. unfold handleAgeSubmit.
    destruct (age (fst c)) as [a|]; [destruct (_ || _)|]; exact H.
  - intros w _. destruct c as [s d]. cbn [fst snd] in *.
    destruct (handleStudentInfoSubmit_effect s d w) as ((_ & _ & Gc & Gr & _) & _).
    unfold numbered_by_position in *. now rewrite Gc, Gr.
  - intros w y _ Hy. destruct c as [s d]. cbn [fst snd] in *.
    destruct (answer_effect s d w y Hy) as [(_ & -> & _)|(q & Hb & Hq & Hc)]; [exact H|].
    cbv zeta in Hc. destruct Hc as ((_ & _ & _ & _ & Gr & _) & Hc).
    destruct H as [Hle Hnum].
    assert (Hlen : List.length (responses s ++ [response_to (currentQuestion s) q (userAnswer s)])
                   = S (List.length (responses s))) by (rewrite length_app; cbn; lia).
    unfold numbered_by_position. rewrite Gr, Hlen. split.
    + destruct Hc as [(_ & _ & _ & _ & _ & _ & -> & _)|[(_ & _ & _ & _ & _ & Gst & _)|(_ & _ & _ & -> & _)]];
        lia.
    + intros i r Hn.
      destruct (Nat.lt_ge_cases i (List.length (responses s))) as [Hlt|Hge].
      * rewrite nth_error_app1 in Hn by assumption. now apply Hnum.
      * rewrite nth_error_app2 in Hn by assumption.
        destruct (i - List.length (responses s)) as [|k] eqn:Ek; cbn in Hn; [|now destruct k].
        injection Hn as <-. cbn. lia.
Qed.

Lemma numbered_by_position_run d0 events :
  numbered_by_position (fst (run events (initialState, d0))).
Proof.
  induction events as [|e events IH] using rev_ind.
  - split; [cbn; lia|]. intros i r Hn. now destruct i.
  - rewrite run_snoc. now apply numbered_by_position_step.
Qed.

(** X5.  The cursor never runs ahead of the responses and no response is
    numbered ahead of its position: the response at position [i] carries a
    number from 1 to [i + 1], and the responses of the main test, the
    first ten, are numbered 1 to 10 in order. *)
Theorem responses_are_numbered_by_position (d0 : Database) (events : list Event) :
  store_ok d0 ->
  let s := fst (run events (initialState, d0)) in
  currentQuestion s <= List.length (responses s) /\
  forall i r, nth_error (responses s) i = Some r ->
    1 <= questionNumber r <= i + 1 /\
    (i < MAIN_TEST_LENGTH -> questionNumber r = i + 1).
Proof.
  intros Hok s. destruct (numbered_by_position_run d0 events) as [Hle Hnum]. fold s in Hle, Hnum.
  split; [exact Hle|]. intros i r Hn. split; [now apply Hnum|]. intro Hi.
  destruct (in_step_run d0 events Hok i r) as (q & _ & ->); [|exact Hn|reflexivity].
  fold s. unfold stage_end, MAIN_TEST_LENGTH, CONFIRMATORY_LENGTH in *.
  destruct (stage s); lia.
Qed.

Lemma responses_are_numbered_by_position_witness :
  let s := fst (run memory_session (initialState, emptyStore)) in
  currentQuestion s <= List.length (responses s) /\
  forall i r, nth_error (responses s) i = Some r ->
    1 <= questionNumber r <= i + 1 /\
    (i < MAIN_TEST_LENGTH -> questionNumber r = i + 1).
Proof. exact (responses_are_numbered_by_position emptyStore memory_session store_ok_empty). Defined.

(** *** The blocker list *)

Lemma firstn_snoc_full {A} (l : list A) x n :
  n <= List.length l -> firstn n (l ++ [x]) = firstn n l.
Proof.
  intro H. rewrite firstn_app. replace (n - List.length l) with 0 by lia.
  cbn. now rewrite app_nil_r.
Qed.

Lemma blockers_of_main_test_step c e :
  Inv c -> blockers_of_main_test (fst c) -> blockers_of_main_test (fst (step c e)).
Proof.
  intros Hi H. apply (step_cases (fun c => blockers_of_main_test (fst c))); auto.
  - intros _. unfold handleAgeSubmit.
    destruct (age (fst c)) as [a|]; [destruct (_ || _)|]; exact H.
  - intros w _. destruct c as [s d]. cbn [fst snd] in *.
    destruct (handleStudentInfoSubmit_effect s d w) as ((_ & _ & _ & Gr & Gb & _) & _).
    unfold blockers_of_main_test in *. now rewrite Gr, Gb.
  - intros w y Hin Hy. destruct c as [s d]. cbn [fst snd] in *.
    destruct (answer_effect s d w y Hy) as [(_ & -> & _)|(q & Hb & Hq & Hc)]; [exact H|].
    cbv zeta in Hc. destruct Hc as ((_ & _ & _ & _ & Gr & _) & Hc).
    set (r := response_to (currentQuestion s) q (userAnswer s)) in *. clearbody r.
    assert (Hlen : List.length (responses s ++ [r]) = S (List.length (responses s)))
      by (rewrite length_app; cbn; lia).
    unfold blockers_of_main_test in *. rewrite Gr, Hlen. rewrite Hlen in Hc.
    unfold MAIN_TEST_LENGTH in *.
    destruct Hc as [(Em & Ec & Gs & _ & Gb & _)|[(Es & El & _ & Gb & _)|(Hlast & Gb & _)]].
    + rewrite Gb, H.
      destruct (10 <=? List.length (responses s)) eqn:E10.
      * apply Nat.leb_le in E10. rewrite firstn_snoc_full by assumption.
        replace (10 <=? S (List.length (responses s))) with true
          by (symmetry; apply Nat.leb_le; lia). reflexivity.
      * apply Nat.leb_gt in E10.
        destruct (10 <=? S (List.length (responses s))) eqn:E11; [|reflexivity].
        apply Nat.leb_le in E11. exfalso.
        destruct (in_test_stage s Hin) as [Es|Es]; [apply (Em Es); lia|].
        pose proof (Inv_confirmatory s d Hi Es). lia.
    + rewrite Gb. replace (10 <=? S (List.length (responses s))) with true
        by (symmetry; apply Nat.leb_le; lia).
      rewrite firstn_all2 by lia. reflexivity.
    + rewrite Gb, H. destruct Hlast as [(Es & El & Ed & _)|(Es & El & _)].
      * replace (10 <=? List.length (responses s)) with false
          by (symmetry; apply Nat.leb_gt; lia).
        replace (10 <=? S (List.length (responses s))) with true
          by (symmetry; apply Nat.leb_le; lia).
        rewrite firstn_all2 by lia. now rewrite Ed.
      * replace (10 <=? List.length (responses s)) with true
          by (symmetry; apply Nat.leb_le; lia).
        replace (10 <=? S (List.length (responses s))) with true
          by (symmetry; apply Nat.leb_le; lia).
        now rewrite firstn_snoc_full by lia.
Qed.

Lemma blockers_of_main_test_run d0 events :
  store_ok d0 -> blockers_of_main_test (fst (run events (initialState, d0))).
Proof.
  intro Hok. apply (run_invariant (fun c => blockers_of_main_test (fst c))).
  - intros c e. apply blockers_of_main_test_step.
  - now apply Inv_initial.
  - reflexivity.
Qed.

(** X6.  The blocker list of a session is empty until the tenth answer and
    from then on the list detected in the first ten responses: the answers
    of the confirmatory test never add, remove or recount a blocker. *)
Theorem blockers_come_from_the_main_test (d0 : Database) (events : list Event) :
  store_ok d0 ->
  let s := fst (run events (initialState, d0)) in
  (List.length (responses s) < MAIN_TEST_LENGTH -> blockers s = []) /\
  (MAIN_TEST_LENGTH <= List.length (responses s) ->
   blockers s = detectedBlockers (firstn MAIN_TEST_LENGTH (responses s))).
Proof.
  intros Hok s. pose proof (blockers_of_main_test_run d0 events Hok) as H.
  fold s in H. unfold blockers_of_main_test in H. split; intro Hl.
  - apply Nat.leb_gt in Hl. now rewrite Hl in H.
  - apply Nat.leb_le in Hl. now rewrite Hl in H.
Qed.

Lemma blockers_come_from_the_main_test_witness :
  let s := fst (run memory_session (initialState, emptyStore)) in
  (List.length (responses s) < MAIN_TEST_LENGTH -> blockers s = []) /\
  (MAIN_TEST_LENGTH <= List.length (responses s) ->
   blockers s = detectedBlockers (firstn MAIN_TEST_LENGTH (responses s))).
Proof. exact (blockers_come_from_the_main_test emptyStore memory_session store_ok_empty). Defined.

(** *** Enrolment *)

Lemma enrolled_step c e :
  (started (fst c) = true -> enrolled (fst c) (snd c)) ->
  started (fst (step c e)) = true -> enrolled (fst (step c e)) (snd (step c e)).
Proof.
  intro H.
  apply (step_cases (fun c => started (fst c) = true -> enrolled (fst c) (snd c))); auto.
  - intros a Es. unfold started. cbn. rewrite Es. discriminate.
  - intros n Es. unfold started. cbn. rewrite Es. discriminate.
  - intros Es. unfold handleAgeSubmit, started.
    destruct (age (fst c)) as [a|]; [destruct (_ || _)|]; cbn; rewrite ?Es; discriminate.
  - intros w Es. destruct c as [s d]. cbn [fst snd] in *.
    destruct (handleStudentInfoSubmit_effect s d w)
      as ((Ga & Gn & _) & [(Gs & _)|(Gs & Hb & body & sid & tid & user & a & G)] & _).
    + unfold started. rewrite Gs, Es. discriminate.
    + intros _. destruct G as (_ & _ & _ & Ea & Gi & Gt & -> & -> & Gst & Gte).
      exists a, (List.length (students d)), (List.length (diagnostic_tests d)).
      eexists. eexists. rewrite Ga, Gn, Gst, Gte.
      rewrite !nth_error_app2, !Nat.sub_diag by lia. cbn.
      conjs; auto.
  - intros w y Hin Hy _. destruct c as [s d]. cbn [fst snd] in *.
    assert (Hst : started s = true) by (unfold started; destruct (in_test_stage s Hin) as [-> | ->]; reflexivity).
    destruct (H Hst) as (a0 & sid & tid & st & tr & Ea & Esi & Eti & Eb & Est & En & Eag & Etr & Ets & Eat).
    destruct (answer_effect s d w y Hy) as [(_ & -> & ->)|(q & Hb & Hq & Hc)].
    { exists a0, sid, tid, st, tr. conjs; auto. }
    cbv zeta in Hc. destruct Hc as ((Ga & Gn & Gi & Gt & _ & Gst) & Hc).
    assert (Hte : diagnostic_tests (store y) = diagnostic_tests d \/
                  exists id sev, diagnostic_tests (store y)
                                 = map (complete_test id sev) (diagnostic_tests d)).
    { destruct Hc as [(_ & _ & _ & _ & _ & _ & _ & ->)|[(_ & _ & _ & _ & _ & _ & G & _)|(_ & _ & _ & _ & _ & G)]];
        auto.
      destruct G as [(_ & G & _)|(id & data & _ & _ & _ & [G|G] & _)]; eauto. }
    destruct Hte as [Hte|(id & sev & Hte)].
    + exists a0, sid, tid, st, tr. rewrite Ga, Gn, Gi, Gt, Gst, Hte. conjs; auto.
    + exists a0, sid, tid, st, (complete_test id sev tr).
      assert (P1 : test_student_id (complete_test id sev tr) = test_student_id tr)
        by (unfold complete_test; destruct (_ =? _); reflexivity).
      assert (P2 : age_at_test (complete_test id sev tr) = age_at_test tr)
        by (unfold complete_test; destruct (_ =? _); reflexivity).
      rewrite Ga, Gn, Gi, Gt, Gst, Hte, nth_error_map, Etr, P1, P2. cbn [option_map].
      conjs; auto.
Qed.



(** *** Foreign keys *)

Lemma store_refs_step c e :
  Inv c -> store_refs (snd c) -> store_refs (snd (step c e)).
Proof.
  intros Hi H. apply (step_cases (fun c => store_refs (snd c))); auto.
  - intros _. unfold handleAgeSubmit.
    destruct (age (fst c)) as [a|]; [destruct (_ || _)|]; exact H.
  - intros w _. destruct c as [s d]. cbn [fst snd] in *.
    destruct H as (Hsp & Hts & Hrs & Hro).
    destruct (handleStudentInfoSubmit_effect s d w)
      as (_ & _ & Gr & _ & Gro & [(Gst & Gte & _)|(a & user & _ & _ & _ & _ & Gst & Gte)]);
      unfold store_refs; rewrite Gr, Gro, Gst.
    { rewrite Gte. conjs; auto. }
    assert (Hsp' : forall i st,
               nth_error (students d ++ [mkStudentRow (List.length (students d)) (studentName s) a user]) i
               = Some st -> student_id st = i).
    { intros i st Hn. destruct (Nat.lt_ge_cases i (List.length (students d))) as [Hlt|Hge].
      - rewrite nth_error_app1 in Hn by assumption. eauto.
      - rewrite nth_error_app2 in Hn by assumption.
        destruct (i - List.length (students d)) as [|k] eqn:Ek; cbn in Hn; [|now destruct k].
        injection Hn as <-. cbn. lia. }
    destruct Gte as [(Gte & _)|(_ & Gte)]; rewrite Gte, ?length_app; cbn [List.length];
      conjs; auto.
    + intros t Ht. specialize (Hts t Ht). lia.
    + intros t Ht. apply in_app_or in Ht. destruct Ht as [Ht|[<-|[]]]; [|cbn; lia].
      specialize (Hts t Ht). lia.
    + intros r Hr. specialize (Hrs r Hr). lia.
    + intros r Hr. specialize (Hro r Hr). lia.
  - intros w y Hin Hy. destruct c as [s d]. cbn [fst snd] in *.
    destruct Hi as (_ & Hid & _). cbn [fst snd] in Hid.
    destruct H as (Hsp & Hts & Hrs & Hro).
    destruct (answer_effect s d w y Hy) as [(_ & _ & ->)|(q & Hb & Hq & Hc)].
    { unfold store_refs. auto. }
    cbv zeta in Hc. destruct Hc as ((_ & _ & _ & _ & _ & Gst) & Hc).
    assert (Hsaved : forall l d1, responses_saved s d d1 l ->
              forall r, In r (test_responses d1) ->
                        response_test_id r < List.length (diagnostic_tests d)).
    { intros l d1 [->|(id & Ei & ->)] r Hr; [auto|].
      apply in_app_or in Hr. destruct Hr as [Hr|Hr]; [auto|].
      apply in_map_iff in Hr. destruct Hr as (r0 & <- & _). cbn. auto. }
    assert (Hwritten : forall rs shown,
              completion_written s rs shown d (store y) ->
              (forall r, In r (test_responses (store y)) ->
                         response_test_id r < List.length (diagnostic_tests d)) ->
              store_refs (store y)).
    { intros rs shown [(Gro & Gte & _)|(id & data & Ei & _ & Gro & Gte & _)] Hresp;
        unfold store_refs; rewrite Gst, Gro.
      - rewrite Gte. conjs; auto.
      - assert (Hro' : forall r, In r (remediation_roadmaps d ++ [mkRoadmapRow id data]) ->
                                 roadmap_test_id r < List.length (diagnostic_tests d)).
        { intros r Hr. apply in_app_or in Hr. destruct Hr as [Hr|[<-|[]]]; cbn; auto. }
        destruct Gte as [Gte|Gte]; rewrite Gte, ?length_map; conjs; auto.
        intros t Ht. apply in_map_iff in Ht. destruct Ht as (t0 & <- & Ht0).
        unfold complete_test. destruct (test_id t0 =? id); cbn; auto. }
    destruct Hc as [(_ & _ & _ & _ & _ & _ & _ & ->)|[(_ & _ & _ & _ & _ & _ & Gte & Gro & (d1 & Hs1 & Gr) & _)|(Hlast & _ & _ & _ & _ & G)]].
    + unfold store_refs. auto.
    + unfold store_refs. rewrite Gst, Gte, Gro, Gr. conjs; auto. eapply Hsaved; eauto.
    + apply (Hwritten _ _ G).
      destruct Hlast as [(_ & _ & _ & d1 & Hs1 & ->)|(_ & _ & d1 & Hs1 & ->)]; eapply Hsaved; eauto.
Qed.

Lemma store_refs_run d0 events :
  store_ok d0 -> store_refs d0 -> store_refs (snd (run events (initialState, d0))).
Proof.
  intros Hok Hr. apply (run_invariant (fun c => store_refs (snd c))).
  - intros c e. apply store_refs_step.
  - now apply Inv_initial.
  - exact Hr.
Qed.

Lemma store_refs_empty : store_refs emptyStore.
Proof. unfold store_refs. cbn. conjs; try tauto. intros [|i] st H; discriminate. Qed.

(** X8.  A session run on a store whose rows satisfy the foreign keys of
    the migration leaves such a store: every student, test, response,
    blocker and roadmap row it writes refers to a row that exists, and row
    identifiers stay unique. *)
Theorem session_keeps_foreign_keys (d0 : Database) (events : list Event) :
  store_ok d0 -> store_refs d0 ->
  store_ok (snd (run events (initialState, d0))) /\
  store_refs (snd (run events (initialState, d0))).
Proof.
  intros Hok Hr. split; [|now apply store_refs_run].
  apply (Inv_run events (initialState, d0)). now apply Inv_initial.
Qed.

Lemma session_keeps_foreign_keys_witness :
  store_ok (snd (run memory_session (initialState, emptyStore))) /\
  store_refs (snd (run memory_session (initialState, emptyStore))).
Proof.
  exact (session_keeps_foreign_keys emptyStore memory_session store_ok_empty store_refs_empty).
Defined.

(** *** The rows of the session's test *)

Lemma filter_none {A} (f : A -> bool) l :
  (forall x, In x l -> f x = false) -> filter f l = [].
Proof.
  induction l as [|x l IH]; [reflexivity|]. intro H. cbn.
  rewrite (H x (or_introl eq_refl)). apply IH. intros y Hy. apply H. now right.
Qed.

Lemma filter_all {A} (f : A -> bool) l :
  (forall x, In x l -> f x = true) -> filter f l = l.
Proof.
  induction l as [|x l IH]; [reflexivity|]. intro H. cbn.
  rewrite (H x (or_introl eq_refl)). f_equal. apply IH. intros y Hy. apply H. now right.
Qed.

Lemma blocker_rows_fresh d t :
  store_ok d -> List.length (diagnostic_tests d) <= t -> blocker_rows t d = [].
Proof.
  intros [H _] Ht. apply filter_none. intros b Hb. apply Nat.eqb_neq.
  specialize (H b Hb). lia.
Qed.

Lemma roadmap_rows_fresh d t :
  store_refs d -> List.length (diagnostic_tests d) <= t -> roadmap_rows t d = [].
Proof.
  intros (_ & _ & _ & H) Ht. apply filter_none. intros b Hb. apply Nat.eqb_neq.
  specialize (H b Hb). lia.
Qed.

Lemma response_rows_fresh d t :
  store_refs d -> List.length (diagnostic_tests d) <= t -> response_rows t d = [].
Proof.
  intros (_ & _ & H & _) Ht. apply filter_none. intros b Hb. apply Nat.eqb_neq.
  specialize (H b Hb). lia.
Qed.

Lemma blocker_rows_insert t l :
  filter (fun b => blocker_test_id b =? t) (map (blocker_row t) l) = map (blocker_row t) l.
Proof.
  apply filter_all. intros b Hb. apply in_map_iff in Hb. destruct Hb as (b0 & <- & _).
  cbn. apply Nat.eqb_refl.
Qed.

Lemma response_rows_insert t l :
  filter (fun r => response_test_id r =? t) (map (response_row t) l) = map (response_row t) l.
Proof.
  apply filter_all. intros b Hb. apply in_map_iff in Hb. destruct Hb as (b0 & <- & _).
  cbn. apply Nat.eqb_refl.
Qed.

Lemma stored_blocker_row t l : map stored_blocker (map (blocker_row t) l) = l.
Proof.
  rewrite map_map. rewrite <- (map_id l) at 2. apply map_ext. now intros [n k].
Qed.

Lemma blocker_rows_confirm t id l :
  map stored_blocker (filter (fun b => blocker_test_id b =? t) (map (confirm_blocker id) l))
  = map stored_blocker (filter (fun b => blocker_test_id b =? t) l).
Proof.
  induction l as [|b l IH]; [reflexivity|]. cbn [map filter].
  assert (E : blocker_test_id (confirm_blocker id b) = blocker_test_id b)
    by (unfold confirm_blocker; destruct (_ =? _); reflexivity).
  assert (E' : stored_blocker (confirm_blocker id b) = stored_blocker b)
    by (unfold confirm_blocker; destruct (_ =? _); reflexivity).
  rewrite E. destruct (blocker_test_id b =? t); cbn [map]; now rewrite IH, ?E'.
Qed.

Lemma map_stored_nil l : map stored_blocker l = [] -> l = [].
Proof. now destruct l. Qed.

Lemma blocker_rows_step c e :
  Inv c -> blocker_rows_inv (fst c) (snd c) ->
  blocker_rows_inv (fst (step c e)) (snd (step c e)).
Proof.
  intros Hi H.
  apply (step_cases (fun c => blocker_rows_inv (fst c) (snd c))); auto.
  - intros _. unfold handleAgeSubmit.
    destruct (age (fst c)) as [a|]; [destruct (_ || _)|]; exact H.
  - intros w Es. destruct c as [s d]. cbn [fst snd] in *.
    destruct (Inv_before_test s d Hi (or_intror Es)) as [_ Hbl].
    destruct Hi as (Hok & _).  cbn [fst snd] in Hok.
    destruct (handleStudentInfoSubmit_effect s d w)
      as ((_ & _ & _ & _ & Gb & _) & _ & _ & Gbd & _ & G).
    intros t Ht. left. unfold blocker_rows. rewrite Gbd.
    destruct G as [(_ & _ & _ & Gt)|(a & user & _ & _ & _ & _ & _ & [(_ & Gt)|(Gt & _)])].
    + rewrite Gt in Ht. destruct (H t Ht) as [E|E]; [exact E|].
      rewrite Hbl in E. now apply map_stored_nil in E.
    + rewrite Gt in Ht. destruct (H t Ht) as [E|E]; [exact E|].
      rewrite Hbl in E. now apply map_stored_nil in E.
    + rewrite Gt in Ht. injection Ht as <-. now apply blocker_rows_fresh.
  - intros w y Hin Hy. destruct c as [s d]. cbn [fst snd] in *.
    destruct (answer_effect s d w y Hy) as [(_ & -> & ->)|(q & Hb & Hq & Hc)]; [exact H|].
    cbv zeta in Hc. destruct Hc as ((_ & _ & _ & Gt & _) & Hc).
    intros t Ht. rewrite Gt in Ht. specialize (H t Ht).
    destruct Hc as [(_ & _ & _ & _ & Gb & _ & _ & ->)|[(Es & El & _ & Gb & _ & _ & _ & _ & _ & Gbd)|(_ & Gb & _ & _ & _ & G)]].
    + now rewrite Gb.
    + (* the blockers are detected: there was no row before *)
      assert (Hnone : blocker_rows t d = []).
      { destruct H as [E|E]; [exact E|]. apply map_stored_nil.
        rewrite E. destruct Hi as (_ & _ & Hs & _). unfold stage_inv in Hs.
        cbn [fst snd] in Hs. rewrite Es in Hs. destruct Hs as (_ & Hs & _).
        apply Hs. rewrite length_app in El. cbn in El. unfold MAIN_TEST_LENGTH. lia. }
      unfold blocker_rows in *. rewrite Gb.
      destruct Gbd as [-> | (id & Ei & ->)]; [now left|].
      rewrite Ht in Ei. injection Ei as <-.
      right. rewrite filter_app, Hnone, blocker_rows_insert. cbn [app].
      apply stored_blocker_row.
    + rewrite Gb. unfold blocker_rows in *.
      destruct G as [(_ & _ & ->)|(id & data & _ & _ & _ & _ & [-> | ->])]; auto.
      rewrite blocker_rows_confirm.
      destruct H as [E|E]; [left|now right].
      apply map_stored_nil. rewrite blocker_rows_confirm, E. reflexivity.
Qed.


Lemma roadmap_rows_step c e :
  Inv c -> store_refs (snd c) -> roadmap_rows_inv (fst c) (snd c) ->
  roadmap_rows_inv (fst (step c e)) (snd (step c e)).
Proof.
  intros Hi Hrefs H.
  apply (step_cases (fun c => roadmap_rows_inv (fst c) (snd c))); auto.
  - intros Es. destruct c as [s d]. cbn [fst snd] in *. intros t Ht.
    assert (Ht' : testId s = Some t).
    { revert Ht. unfold handleAgeSubmit.
      destruct (age s) as [a|]; [destruct (_ || _)|]; auto. }
    destruct (H t Ht') as [[E|(Hcl & _)] Hst].
    + assert (Hd : store (handleAgeSubmit s (begin (s, d))) = d).
      { unfold handleAgeSubmit. destruct (age s) as [a|]; [destruct (_ || _)|]; auto. }
      rewrite Hd. auto.
    + unfold stage_closed in Hcl. now rewrite Es in Hcl.
  - intros w Es. destruct c as [s d]. cbn [fst snd] in *.
    destruct Hi as ((_ & Hpos) & _). cbn [fst snd] in Hpos.
    destruct (handleStudentInfoSubmit_effect s d w)
      as (_ & _ & _ & _ & Gro & G).
    intros t Ht. unfold roadmap_rows. rewrite Gro.
    assert (Hold : forall t, testId s = Some t ->
              roadmap_rows t d = [] /\
              forall row, nth_error (diagnostic_tests d) t = Some row ->
                          status row <> completed).
    { intros t0 Ht0. destruct (H t0 Ht0) as [[E|(Hcl & _)] Hst].
      - split; [exact E|]. intros row Hrow Hc. now apply (Hst row Hrow Hc).
      - unfold stage_closed in Hcl. now rewrite Es in Hcl. }
    destruct G as [(_ & Gte & _ & Gt)|(a & user & _ & _ & _ & _ & _ & [(Gte & Gt)|(Gt & Gte)])];
      rewrite Gte.
    + rewrite Gt in Ht. destruct (Hold t Ht) as [E Hst]. split; [now left|].
      intros row Hrow Hc. now destruct (Hst row Hrow).
    + rewrite Gt in Ht. destruct (Hold t Ht) as [E Hst]. split; [now left|].
      intros row Hrow Hc. now destruct (Hst row Hrow).
    + rewrite Gt in Ht. injection Ht as <-.
      assert (E : roadmap_rows (List.length (diagnostic_tests d)) d = [])
        by (now apply roadmap_rows_fresh).
      split; [now left|]. intros row Hrow Hc.
      rewrite nth_error_app2, Nat.sub_diag in Hrow by lia. cbn in Hrow.
      injection Hrow as <-. discriminate.
  - intros w y Hin Hy. destruct c as [s d]. cbn [fst snd] in *.
    destruct (answer_effect s d w y Hy) as [(_ & -> & ->)|(q & Hb & Hq & Hc)]; [exact H|].
    cbv zeta in Hc. destruct Hc as ((_ & _ & _ & Gt & Gr & _) & Hc).
    set (r := response_to (currentQuestion s) q (userAnswer s)) in *. clearbody r.
    assert (Hlen : List.length (responses s ++ [r]) = S (List.length (responses s)))
      by (rewrite length_app; cbn; lia).
    rewrite Hlen in Hc.
    intros t Ht. rewrite Gt in Ht. destruct (H t Ht) as [Hrows Hst].
    assert (Hpos : forall row, nth_error (diagnostic_tests d) t = Some row -> test_id row = t).
    { destruct Hi as ((_ & Hpos) & _). cbn [fst snd] in Hpos. intros row. apply Hpos. }
    destruct Hc as [(Em & Ec & Gs & _ & _ & Gm & _ & ->)|[(Es & El & _ & _ & Gm & Gst & Gte & Gro & _)|(Hlast & _ & _ & _ & Gst & G)]].
    + split; [|exact Hst].
      destruct Hrows as [E|(Hcl & data & E & Em')]; [now left|right]. split.
      * unfold stage_closed in *. rewrite Gs, Gr, Hlen.
        destruct (stage s); auto; lia.
      * exists data. now rewrite Gm.
    + unfold roadmap_rows in *. rewrite Gro, Gte. split; [|exact Hst].
      destruct Hrows as [E|(Hcl & _)]; [now left|].
      unfold stage_closed, MAIN_TEST_LENGTH in Hcl. rewrite Es in Hcl. lia.
    + (* the completion run: there was no roadmap row before *)
      assert (Hnone : roadmap_rows t d = []).
      { destruct Hrows as [E|(Hcl & _)]; [exact E|].
        unfold stage_closed, MAIN_TEST_LENGTH, CONFIRMATORY_LENGTH in Hcl.
        destruct Hlast as [(Es & El & _)|(Es & El & _)]; rewrite Es in Hcl; cbn in Hcl; lia. }
      assert (Hclosed : stage_closed (ui y)).
      { unfold stage_closed, MAIN_TEST_LENGTH, CONFIRMATORY_LENGTH. rewrite Gr, Hlen.
        destruct Gst as [(-> & _)|(-> & _)]; [|exact I].
        destruct Hlast as [(Es & El & _)|(Es & El & _)]; rewrite Es; cbn; lia. }
      unfold roadmap_rows in *.
      destruct G as [(Gro & Gte & _)|(id & data & Ei & Gm & Gro & Gte & _)].
      * rewrite Gro, Gte. split; [now left|exact Hst].
      * rewrite Ht in Ei. injection Ei as <-.
        rewrite Gro, filter_app, Hnone. cbn. rewrite Nat.eqb_refl. split.
        -- right. split; [exact Hclosed|]. exists data. auto.
        -- intros; discriminate.
Qed.

Lemma response_rows_step c e :
  Inv c -> store_refs (snd c) -> response_rows_inv (fst c) (snd c) ->
  response_rows_inv (fst (step c e)) (snd (step c e)).
Proof.
  intros Hi Hrefs H.
  apply (step_cases (fun c => response_rows_inv (fst c) (snd c))); auto.
  - intros Es. destruct c as [s d]. cbn [fst snd] in *.
    destruct (Inv_before_test s d Hi (or_introl Es)) as [Hr _].
    assert (Hy : forall y, y = handleAgeSubmit s (begin (s, d)) ->
               testId (ui y) = testId s /\ store y = d /\ responses (ui y) = responses s).
    { intros y ->. unfold handleAgeSubmit.
      destruct (age s) as [a|]; [destruct (_ || _)|]; auto. }
    destruct (Hy _ eq_refl) as (Gt & Gd & Gr). intros t Ht. rewrite Gt in Ht.
    destruct (H t Ht) as (m & k & Hrows & Hm & Hk). rewrite Gd, Gr.
    exists m, k. split; [exact Hrows|]. rewrite Hr in *.
    unfold MAIN_TEST_LENGTH, CONFIRMATORY_LENGTH in *. cbn in *.
    split; [destruct Hm as [Hm|[Hm _]]; [now left|lia]|].
    destruct Hk as [Hk|[Hk _]]; [now left|lia].
  - intros w Es. destruct c as [s d]. cbn [fst snd] in *.
    destruct (Inv_before_test s d Hi (or_intror Es)) as [Hr _].
    destruct (handleStudentInfoSubmit_effect s d w)
      as ((_ & _ & _ & Gr & _) & _ & Gre & _ & _ & G).
    intros t Ht. exists [], []. rewrite Gr, Hr. cbn [app map].
    split; [|auto]. unfold response_rows. rewrite Gre.
    assert (Hold : forall t, testId s = Some t -> response_rows t d = []).
    { intros t0 Ht0. destruct (H t0 Ht0) as (m & k & Hrows & Hm & Hk).
      rewrite Hr in *. unfold MAIN_TEST_LENGTH, CONFIRMATORY_LENGTH in *. cbn in *.
      destruct Hm as [-> |[Hm _]]; [|lia]. destruct Hk as [-> |[Hk _]]; [|lia]. exact Hrows. }
    destruct G as [(_ & _ & _ & Gt)|(a & user & _ & _ & _ & _ & _ & [(_ & Gt)|(Gt & _)])].
    + rewrite Gt in Ht. now apply Hold.
    + rewrite Gt in Ht. now apply Hold.
    + rewrite Gt in Ht. injection Ht as <-. now apply response_rows_fresh.
  - intros w y Hin Hy. destruct c as [s d]. cbn [fst snd] in *.
    destruct (answer_effect s d w y Hy) as [(_ & -> & ->)|(q & Hb & Hq & Hc)]; [exact H|].
    cbv zeta in Hc. destruct Hc as ((_ & _ & _ & Gt & Gr & _) & Hc).
    set (r := response_to (currentQuestion s) q (userAnswer s)) in *. clearbody r.
    assert (Hlen : List.length (responses s ++ [r]) = S (List.length (responses s)))
      by (rewrite length_app; cbn; lia).
    rewrite Hlen in Hc.
    intros t Ht. rewrite Gt in Ht. destruct (H t Ht) as (m & k & Hrows & Hm & Hk).
    rewrite Gr, Hlen.
    unfold MAIN_TEST_LENGTH, CONFIRMATORY_LENGTH in *. cbn [Nat.add] in *.
    (* what a save at the end of a stage adds to the rows of the test *)
    assert (Hsave : forall l d1, responses_saved s d d1 l ->
              response_rows t d1 = response_rows t d \/
              response_rows t d1 = response_rows t d ++ map (response_row t) l).
    { intros l d1 [E|(id & Ei & E)]; unfold response_rows; rewrite E; [now left|right].
      rewrite Ht in Ei. injection Ei as <-. now rewrite filter_app, response_rows_insert. }
    assert (Hm' : m = [] \/ (10 <= S (List.length (responses s)) /\
                            m = firstn 10 (responses s ++ [r]))).
    { destruct Hm as [Hm|[Hl Hm]]; [now left|right]. split; [lia|].
      now rewrite firstn_snoc_full. }
    destruct Hc as [(Em & Ec & Gs & _ & _ & _ & _ & ->)|[(Es & El & _ & _ & _ & _ & _ & _ & (d1 & Hs1 & Gre) & _)|(Hlast & _ & _ & _ & Gst & _)]].
    + exists m, k. split; [exact Hrows|]. split; [exact Hm'|].
      destruct Hk as [Hk|(Hl & Hs & Hk)]; [now left|right].
      rewrite Gs. split; [lia|]. split; [exact Hs|]. rewrite firstn_snoc_full by lia. exact Hk.
    + assert (m = []) as -> by (destruct Hm as [Hm|[Hl _]]; [exact Hm|lia]).
      assert (k = []) as -> by (destruct Hk as [Hk|[Hl _]]; [exact Hk|lia]).
      assert (E : response_rows t (store y) = response_rows t d1)
        by (unfold response_rows; now rewrite Gre).
      rewrite E. destruct (Hsave _ _ Hs1) as [-> | ->]; rewrite Hrows; cbn [app map].
      * exists [], []. auto.
      * exists (firstn 10 (responses s ++ [r])), []. rewrite app_nil_r.
        split; [reflexivity|]. split; [right; split; [lia|reflexivity]|now left].
    + destruct Hlast as [(Es & El & _ & d1 & Hs1 & Gre)|(Es & El & d1 & Hs1 & Gre)].
      * assert (m = []) as -> by (destruct Hm as [Hm|[Hl _]]; [exact Hm|lia]).
        assert (k = []) as -> by (destruct Hk as [Hk|[Hl _]]; [exact Hk|lia]).
        assert (E : response_rows t (store y) = response_rows t d1)
          by (unfold response_rows; now rewrite Gre).
        rewrite E. destruct (Hsave _ _ Hs1) as [-> | ->]; rewrite Hrows; cbn [app map].
        -- exists [], []. auto.
        -- exists (firstn 10 (responses s ++ [r])), []. rewrite app_nil_r.
           split; [reflexivity|]. split; [right; split; [lia|reflexivity]|now left].
      * assert (k = []) as -> by (destruct Hk as [Hk|[Hl _]]; [exact Hk|lia]).
        assert (E : response_rows t (store y) = response_rows t d1)
          by (unfold response_rows; now rewrite Gre).
        rewrite E. destruct (Hsave _ _ Hs1) as [-> | ->]; rewrite Hrows.
        -- exists m, []. split; [reflexivity|]. split; [exact Hm'|now left].
        -- exists m, (skipn 10 (responses s ++ [r])). rewrite app_nil_r, <- map_app.
           split; [reflexivity|]. split; [exact Hm'|]. right. conjs; [lia| |].
           ++ destruct Gst as [(-> & _)|(-> & _)]; [rewrite Es|]; discriminate.
           ++ now rewrite firstn_all2 by lia.
Qed.

(** The three tables together. *)
Lemma rows_run d0 events :
  store_ok d0 -> store_refs d0 ->
  let c := run events (initialState, d0) in
  blocker_rows_inv (fst c) (snd c) /\ roadmap_rows_inv (fst c) (snd c) /\
  response_rows_inv (fst c) (snd c).
Proof.
  intros Hok Hrefs. cbv zeta.
  induction events as [|e events IH] using rev_ind.
  - cbn. conjs; intros t Ht; discriminate.
  - rewrite run_snoc. destruct IH as (Hb & Hr & Hs).
    assert (Hi : Inv (run events (initialState, d0))) by (now apply Inv_run, Inv_initial).
    pose proof (store_refs_run d0 events Hok Hrefs) as Hrf.
    conjs.
    + now apply blocker_rows_step.
    + now apply roadmap_rows_step.
    + now apply response_rows_step.
Qed.

(** X9.  The blocker rows stored for the session's test are, read back,
    exactly the blocker list of the session (same constructs, same counts,
    same order), or there are none because the insert was skipped or
    failed; no construct is stored twice for the test. *)
Theorem stored_blockers_are_the_session_blockers (d0 : Database) (events : list Event) :
  store_ok d0 -> store_refs d0 ->
  let c := run events (initialState, d0) in
  forall t, testId (fst c) = Some t ->
    (blocker_rows t (snd c) = [] \/
     map stored_blocker (blocker_rows t (snd c)) = blockers (fst c)) /\
    NoDup (map row_blocker_name (blocker_rows t (snd c))).
Proof.
  intros Hok Hrefs c t Ht.
  destruct (rows_run d0 events Hok Hrefs) as (Hb & _). fold c in Hb.
  specialize (Hb t Ht). split; [exact Hb|].
  destruct Hb as [-> | Hb]; [constructor|].
  replace (map row_blocker_name (blocker_rows t (snd c)))
    with (map blocker_name (map stored_blocker (blocker_rows t (snd c))))
    by (rewrite map_map; reflexivity).
  rewrite Hb. pose proof (blockers_of_main_test_run d0 events Hok) as Hm. fold c in Hm.
  rewrite Hm. destruct (_ <=? _); [apply detectedBlockers_NoDup|constructor].
Qed.

Lemma stored_blockers_are_the_session_blockers_witness :
  (blocker_rows 0 (snd (run memory_session (initialState, emptyStore))) = [] \/
   map stored_blocker (blocker_rows 0 (snd (run memory_session (initialState, emptyStore))))
   = blockers (fst (run memory_session (initialState, emptyStore)))) /\
  NoDup (map row_blocker_name
           (blocker_rows 0 (snd (run memory_session (initialState, emptyStore))))).
Proof.
  apply (stored_blockers_are_the_session_blockers emptyStore memory_session
           store_ok_empty store_refs_empty 0).
  vm_compute. reflexivity.
Defined.

(** X10.  A session stores at most one roadmap for its test, and it is the
    roadmap the page holds; a test row is never marked completed without
    its roadmap row. *)
Theorem one_roadmap_per_test (d0 : Database) (events : list Event) :
  store_ok d0 -> store_refs d0 ->
  let c := run events (initialState, d0) in
  forall t, testId (fst c) = Some t ->
    (roadmap_rows t (snd c) = [] \/
     exists data, roadmap_rows t (snd c) = [mkRoadmapRow t data] /\
                  roadmap (fst c) = Some data) /\
    (forall row, nth_error (diagnostic_tests (snd c)) t = Some row ->
                 status row = completed -> roadmap_rows t (snd c) <> []).
Proof.
  intros Hok Hrefs c t Ht.
  destruct (rows_run d0 events Hok Hrefs) as (_ & Hr & _). fold c in Hr.
  destruct (Hr t Ht) as [[E|(_ & data & E & Em)] Hst]; split; eauto.
Qed.

Lemma one_roadmap_per_test_witness :
  let c := run (memory_session ++ [ClickAnswerSubmit memory_world])
               (initialState, emptyStore) in
  (roadmap_rows 0 (snd c) = [] \/
   exists data, roadmap_rows 0 (snd c) = [mkRoadmapRow 0 data] /\
                roadmap (fst c) = Some data) /\
  (forall row, nth_error (diagnostic_tests (snd c)) 0 = Some row ->
               status row = completed -> roadmap_rows 0 (snd c) <> []).
Proof.
  apply (one_roadmap_per_test emptyStore (memory_session ++ [ClickAnswerSubmit memory_world])
           store_ok_empty store_refs_empty 0).
  vm_compute. reflexivity.
Defined.

Lemma numbered_from (rs : list Response) : forall k n,
  (forall i r, i < n -> nth_error rs i = Some r -> questionNumber r = k + i + 1) ->
  n <= List.length rs ->
  map questionNumber (firstn n rs) = seq (k + 1) n.
Proof.
  induction rs as [|x rs IH]; intros k n H Hn.
  - cbn in Hn. assert (n = 0) as -> by lia. reflexivity.
  - destruct n as [|n]; [reflexivity|]. cbn [firstn map seq]. f_equal.
    + rewrite (H 0 x); [lia|lia|reflexivity].
    + replace (S (k + 1)) with (S k + 1) by lia. apply IH; [|cbn in Hn; lia].
      intros i r Hi Hr. rewrite (H (S i) r); [lia|lia|exact Hr].
Qed.



(** ** Blank input *)

Lemma trimEnd_nonblank c s : isWhiteSpace c = false -> trimEnd (String c s) <> "".
Proof. intro H. cbn. rewrite H. now destruct (trimEnd s). Qed.

Lemma isBlank_whiteSpaceOnly s : isBlank s = whiteSpaceOnly s.
Proof.
  unfold isBlank, trim. induction s as [|c s IH]; [reflexivity|].
  cbn [trimStart whiteSpaceOnly]. destruct (isWhiteSpace c) eqn:E; [exact IH|].
  cbn [andb]. apply String.eqb_neq. now apply trimEnd_nonblank.
Qed.

(** X12.  A name or an answer made of white space only (or empty) is
    rejected before anything happens: the submission leaves the page state
    and the store as they were, writes no row, makes no request, and only
    shows one destructive notification. *)
Theorem blank_input_is_rejected (c : Config) (w : World) (e : Event) :
  (e = ClickAnswerSubmit w /\ in_test (fst c) = true /\
   whiteSpaceOnly (userAnswer (fst c)) = true) \/
  (e = ClickStudentInfoSubmit w /\ stage (fst c) = stage_student_info /\
   whiteSpaceOnly (studentName (fst c)) = true) ->
  step c e = c /\
  exists y t, dispatch e c = Returned y /\ ui y = fst c /\ store y = snd c /\
              toasts y = [t] /\ destructive t = true /\
              requests y = [] /\ console y = [] /\ navigated y = None.
Proof.
  destruct c as [s d]. cbn [fst snd].
  intros [(-> & Hin & Hb)|(-> & Es & Hb)]; rewrite <- isBlank_whiteSpaceOnly in Hb;
    unfold step, dispatch; cbn [fst snd].
  - rewrite Hin. unfold handleAnswerSubmit. rewrite Hb. cbn. split; [reflexivity|].
    eexists. eexists. conjs; reflexivity.
  - rewrite Es. cbn [Stage_eqb]. unfold handleStudentInfoSubmit. rewrite Hb. cbn.
    split; [reflexivity|]. eexists. eexists. conjs; reflexivity.
Qed.

Lemma blank_input_is_rejected_witness :
  step (run (enrol memory_world ++ [ChangeAnswer "   "]) (initialState, emptyStore))
       (ClickAnswerSubmit memory_world)
  = run (enrol memory_world ++ [ChangeAnswer "   "]) (initialState, emptyStore) /\
  exists y t,
    dispatch (ClickAnswerSubmit memory_world)
             (run (enrol memory_world ++ [ChangeAnswer "   "]) (initialState, emptyStore))
    = Returned y /\
    ui y = fst (run (enrol memory_world ++ [ChangeAnswer "   "]) (initialState, emptyStore)) /\
    store y = snd (run (enrol memory_world ++ [ChangeAnswer "   "]) (initialState, emptyStore)) /\
    toasts y = [t] /\ destructive t = true /\
    requests y = [] /\ console y = [] /\ navigated y = None.
Proof.
  apply (blank_input_is_rejected
           (run (enrol memory_world ++ [ChangeAnswer "   "]) (initialState, emptyStore))
           memory_world (ClickAnswerSubmit memory_world)).
  left. vm_compute. auto.
Defined.

(** ** The progress bar and the question label *)

(** X13.  While the current stage still lacks answers, the label reads
    question [n] of [m] with [1 <= n <= m], the progress bar shows a
    percentage from 0 up to but not including 100, and the label is never
    ahead of the bar: the bar shows at least the share [(n - 1) / m] of
    the stage. *)
Theorem label_and_progress_stay_in_range (d0 : Database) (events : list Event) :
  store_ok d0 ->
  let s := fst (run events (initialState, d0)) in
  in_test s = true -> List.length (responses s) < stage_end s ->
  (1 <= shownQuestionNumber s <= Z.of_nat (shownStageLength s))%Z /\
  (inject_Z (shownQuestionNumber s - 1) / inject_Z (Z.of_nat (shownStageLength s)) * 100
   <= progress s)%Q /\
  (0 <= progress s)%Q /\ (progress s < 100)%Q.
Proof.
  intros Hok s Hin Hl.
  assert (Hi : Inv (s, snd (run events (initialState, d0)))).
  { unfold s. rewrite <- surjective_pairing. now apply Inv_run, Inv_initial. }
  pose proof (Inv_cursor _ _ Hi Hin Hl) as Hc.
  unfold shownQuestionNumber, shownStageLength, progress, stage_end in *.
  unfold MAIN_TEST_LENGTH, CONFIRMATORY_LENGTH in *. cbn [Nat.add] in *.
  destruct (in_test_stage s Hin) as [Es|Es].
  - rewrite Es in *. cbn [Stage_eqb]. rewrite Hc.
    replace (Z.of_nat (List.length (responses s)) + 1 - 1)%Z
      with (Z.of_nat (List.length (responses s))) by lia.
    conjs; try lia; try apply Qle_refl.
    + unfold Qle, Qdiv, Qmult, Qinv. cbn. lia.
    + unfold Qlt, Qdiv, Qmult, Qinv. cbn. lia.
  - pose proof (Inv_confirmatory _ _ Hi Es) as Hge.
    rewrite Es in *. cbn [Stage_eqb]. rewrite Hc.
    replace (Z.of_nat (List.length (responses s)) - Z.of_nat 10 + 1 - 1)%Z
      with (Z.of_nat (List.length (responses s)) - Z.of_nat 10)%Z by lia.
    conjs; try lia; try apply Qle_refl.
    + unfold Qle, Qdiv, Qmult, Qinv. cbn. lia.
    + unfold Qlt, Qdiv, Qmult, Qinv. cbn. lia.
Qed.

Lemma label_and_progress_stay_in_range_witness :
  let s := fst (run memory_session (initialState, emptyStore)) in
  (1 <= shownQuestionNumber s <= Z.of_nat (shownStageLength s))%Z /\
  (inject_Z (shownQuestionNumber s - 1) / inject_Z (Z.of_nat (shownStageLength s)) * 100
   <= progress s)%Q /\
  (0 <= progress s)%Q /\ (progress s < 100)%Q.
Proof.
  apply (label_and_progress_stay_in_range emptyStore memory_session store_ok_empty).
  - vm_compute. reflexivity.
  - vm_compute. lia.
Defined.

(** ** How a session ends *)

Lemma finished_step c e :
  Inv c -> (stage (fst c) = stage_roadmap -> finished (fst c)) ->
  stage (fst (step c e)) = stage_roadmap -> finished (fst (step c e)).
Proof.
  intros Hi H.
  apply (step_cases (fun c => stage (fst c) = stage_roadmap -> finished (fst c))); auto.
  - intros Es. unfold handleAgeSubmit.
    destruct (age (fst c)) as [a|]; [destruct (_ || _)|]; cbn; rewrite ?Es; discriminate.
  - intros w Es. destruct c as [s d]. cbn [fst snd] in *.
    destruct (handleStudentInfoSubmit_effect s d w) as (_ & [(G & _)|(G & _)] & _);
      rewrite G, ?Es; discriminate.
  - intros w y Hin Hy Hr. destruct c as [s d]. cbn [fst snd] in *.
    assert (Hs : stage s <> stage_roadmap)
      by (destruct (in_test_stage s Hin) as [-> | ->]; discriminate).
    destruct (answer_effect s d w y Hy) as [(_ & E & _)|(q & Hb & Hq & Hc)];
      [rewrite E in Hr; contradiction|].
    cbv zeta in Hc. destruct Hc as ((_ & _ & _ & _ & Gr & _) & Hc).
    set (r := response_to (currentQuestion s) q (userAnswer s)) in *. clearbody r.
    destruct Hc as [(_ & _ & Gs & _)|[(Es & _ & _ & _ & _ & Gst & _)|(Hlast & Gb & _ & _ & Gst & _)]].
    + rewrite Gs in Hr. contradiction.
    + destruct Gst as [(Gs & _)|(Gs & _)]; rewrite Gs, ?Es in Hr; discriminate.
    + destruct Gst as [(Gs & _)|(_ & Gm)]; [rewrite Gs in Hr; contradiction|].
      unfold finished. rewrite Gr, Gb. split; [exact Gm|].
      destruct Hi as (_ & _ & Hst & _). unfold stage_inv in Hst. cbn [fst snd] in Hst.
      unfold MAIN_TEST_LENGTH, CONFIRMATORY_LENGTH in *.
      destruct Hlast as [(Es & El & _)|(Es & El & _)]; rewrite Es in Hst.
      * left. split; [exact El|]. destruct Hst as (_ & Hst & _).
        apply Hst. rewrite length_app in El. cbn in El. lia.
      * right. split; [exact El|]. apply Hst.
Qed.

Lemma finished_run d0 events :
  store_ok d0 ->
  stage (fst (run events (initialState, d0))) = stage_roadmap ->
  finished (fst (run events (initialState, d0))).
Proof.
  intro Hok.
  apply (run_invariant (fun c => stage (fst c) = stage_roadmap -> finished (fst c))).
  - intros c e. apply finished_step.
  - now apply Inv_initial.
  - discriminate.
Qed.

(** X14.  The roadmap is never shown early: a session whose roadmap is
    shown holds the roadmap and at least the ten responses of the main
    test, and at least fifteen responses if it has a blocker; a session in
    the confirmatory test holds at least ten responses and at least one
    blocker.  The confirmatory test is never run without a blocker, and a
    session with a blocker never ends without it. *)
Theorem roadmap_is_shown_after_the_tests (d0 : Database) (events : list Event) :
  store_ok d0 ->
  let s := fst (run events (initialState, d0)) in
  (stage s = stage_confirmatory ->
   MAIN_TEST_LENGTH <= List.length (responses s) /\ blockers s <> []) /\
  (stage s = stage_roadmap ->
   (exists data, roadmap s = Some data) /\
   MAIN_TEST_LENGTH <= List.length (responses s) /\
   (blockers s <> [] ->
    MAIN_TEST_LENGTH + CONFIRMATORY_LENGTH <= List.length (responses s))).
Proof.
  intros Hok s. split.
  - intro Es.
    assert (Hi : Inv (s, snd (run events (initialState, d0)))).
    { unfold s. rewrite <- surjective_pairing. now apply Inv_run, Inv_initial. }
    destruct Hi as (_ & _ & Hst & _). unfold stage_inv in Hst. cbn [fst snd] in Hst.
    rewrite Es in Hst. split; apply Hst.
  - intro Es. destruct (finished_run d0 events Hok Es) as (Hm & Hf). fold s in Hm, Hf.
    unfold MAIN_TEST_LENGTH, CONFIRMATORY_LENGTH in *.
    split; [exact Hm|]. destruct Hf as [(Hl & Hb)|(Hl & Hb)]; split; try lia.
    intro Hne. contradiction.
Qed.

Lemma roadmap_is_shown_after_the_tests_witness :
  let s := fst (run (memory_session ++ [ClickAnswerSubmit memory_world])
                    (initialState, emptyStore)) in
  (stage s = stage_confirmatory ->
   MAIN_TEST_LENGTH <= List.length (responses s) /\ blockers s <> []) /\
  (stage s = stage_roadmap ->
   (exists data, roadmap s = Some data) /\
   MAIN_TEST_LENGTH <= List.length (responses s) /\
   (blockers s <> [] ->
    MAIN_TEST_LENGTH + CONFIRMATORY_LENGTH <= List.length (responses s))).
Proof.
  exact (roadmap_is_shown_after_the_tests emptyStore
           (memory_session ++ [ClickAnswerSubmit memory_world]) store_ok_empty).
Defined.

(** ** Completion, table by table *)




(** ** Submitting twice *)

Lemma generateRoadmap_userAnswer s w rs y :
  userAnswer (ui (generateRoadmap s w rs y)) = userAnswer (ui y).
Proof.
  unfold generateRoadmap, persist_completion.
  destruct (roadmap_response w) as [| |msg|data]; try reflexivity.
  destruct (testId s) as [id|]; [|reflexivity].
  destruct (insert_roadmap w); [|reflexivity].
  destruct (update_test w); [|reflexivity].
  destruct (0 <? List.length (blockers s)); [destruct (update_blockers w)|]; reflexivity.
Qed.

Lemma detectBlockers_userAnswer s w rs y :
  userAnswer (ui (detectBlockers s w rs y)) = userAnswer (ui y).
Proof.
  destruct (detectBlockers_cases s w rs y) as [[_ ->]|(p & rest & Ed)];
    [apply generateRoadmap_userAnswer|].
  unfold detectBlockers. rewrite Ed.
  destruct (testId s) as [id|]; [destruct (insert_blockers w)|];
    (destruct (confirmatory_batch w) as [| |msg|[qs|q]]; reflexivity).
Qed.

Lemma answer_clears_input s d w y :
  handleAnswerSubmit s w (begin (s, d)) = Returned y ->
  isBlank (userAnswer s) = false -> userAnswer (ui y) = "".
Proof.
  intros Hy Hb.
  destruct (handleAnswerSubmit_effect s d w y Hy) as [(E & _)|(_ & q & _ & Hc)]; [congruence|].
  cbv zeta in Hc. destruct Hc as [(_ & _ & ->)|[(_ & _ & ->)|(_ & _ & ->)]].
  - rewrite detectBlockers_userAnswer.
    match goal with |- context [saveResponses ?s ?w ?rs ?y] =>
      destruct (saveResponses_effect s w rs y) as (F & _) end. now rewrite F.
  - rewrite generateRoadmap_userAnswer.
    match goal with |- context [saveResponses ?s ?w ?rs ?y] =>
      destruct (saveResponses_effect s w rs y) as (F & _) end. now rewrite F.
  - reflexivity.
Qed.

Lemma step_answer s d w :
  step (s, d) (ClickAnswerSubmit w)
  = if in_test s
    then match handleAnswerSubmit s w (begin (s, d)) with
         | Returned y => (ui y, store y)
         | TypeError _ => (s, d)
         end
    else (s, d).
Proof. unfold step, dispatch. cbn [fst snd]. now destruct (in_test s). Qed.

(** X15.  Submitting an answer twice in a row records it once: an
    accepted answer empties the input, so the second submission is
    rejected as blank, whatever the outside world answers and whatever
    stage the first one led to. *)
Theorem double_submit_records_once (c : Config) (w w' : World) :
  step (step c (ClickAnswerSubmit w)) (ClickAnswerSubmit w') = step c (ClickAnswerSubmit w).
Proof.
  destruct c as [s d]. rewrite (step_answer s d w).
  destruct (in_test s) eqn:Hin; [|now rewrite step_answer, Hin].
  destruct (handleAnswerSubmit s w (begin (s, d))) as [y|msg] eqn:Hy.
  - rewrite step_answer. destruct (in_test (ui y)); [|reflexivity].
    destruct (isBlank (userAnswer s)) eqn:Hb.
    + unfold handleAnswerSubmit in Hy. rewrite Hb in Hy. injection Hy as <-.
      cbn [ui store toast begin fst snd]. unfold handleAnswerSubmit. now rewrite Hb.
    + pose proof (answer_clears_input s d w y Hy Hb) as Hu.
      unfold handleAnswerSubmit. rewrite Hu. reflexivity.
  - rewrite step_answer, Hin.
    assert (Hb : isBlank (userAnswer s) = false).
    { unfold handleAnswerSubmit in Hy. now destruct (isBlank (userAnswer s)). }
    unfold handleAnswerSubmit in *. rewrite Hb in *.
    destruct (nth_error (questions s) (currentQuestion s)); [|reflexivity].
    exfalso. revert Hy. cbv zeta.
    destruct (_ && _); [discriminate|]. destruct (_ && _); discriminate.
Qed.

(** ** Submissions that cannot fail *)

Lemma handleAnswerSubmit_returns s w y0 q :
  nth_error (questions s) (currentQuestion s) = Some q ->
  exists y, handleAnswerSubmit s w y0 = Returned y.
Proof.
  intro Hq. unfold handleAnswerSubmit. rewrite Hq.
  destruct (isBlank (userAnswer s)); [eexists; reflexivity|]. cbv zeta.
  destruct (_ && _); [eexists; reflexivity|].
  destruct (_ && _); eexists; reflexivity.
Qed.

(** X16.  While the current stage still lacks answers and the queue holds
    the questions of the stage (ten in the main test, fifteen in the
    confirmatory test), the question under the cursor exists and a
    submission returns: it never throws, whatever the answer and whatever
    the outside world does. *)
Theorem submission_returns_while_stage_is_open (d0 : Database) (events : list Event)
  (w : World) :
  store_ok d0 ->
  let c := run events (initialState, d0) in
  in_test (fst c) = true ->
  List.length (responses (fst c)) < stage_end (fst c) ->
  stage_end (fst c) <= List.length (questions (fst c)) ->
  (exists q, nth_error (questions (fst c)) (currentQuestion (fst c)) = Some q) /\
  exists y, dispatch (ClickAnswerSubmit w) c = Returned y.
Proof.
  intros Hok c Hin Hl Hq.
  assert (Hi : Inv (fst c, snd c)).
  { rewrite <- surjective_pairing. now apply Inv_run, Inv_initial. }
  pose proof (Inv_cursor _ _ Hi Hin Hl) as Hc.
  destruct (nth_error (questions (fst c)) (currentQuestion (fst c))) as [q|] eqn:E.
  - split; [eauto|]. unfold dispatch. rewrite Hin.
    now apply (handleAnswerSubmit_returns _ w _ q).
  - apply nth_error_None in E. lia.
Qed.

Lemma submission_returns_while_stage_is_open_witness :
  (exists q, nth_error (questions (fst (run memory_session (initialState, emptyStore))))
                       (currentQuestion (fst (run memory_session (initialState, emptyStore))))
             = Some q) /\
  exists y, dispatch (ClickAnswerSubmit failing_store)
                     (run memory_session (initialState, emptyStore)) = Returned y.
Proof.
  apply (submission_returns_while_stage_is_open emptyStore memory_session failing_store
           store_ok_empty).
  - vm_compute. reflexivity.
  - vm_compute. lia.
  - vm_compute. lia.
Defined.

(** ** Histories *)

Lemma responses_grow c e :
  exists l, responses (fst (step c e)) = responses (fst c) ++ l /\ List.length l <= 1.
Proof.
  apply (step_cases (fun c' => exists l, responses (fst c') = responses (fst c) ++ l
                                         /\ List.length l <= 1)).
  - exists []. split; [now rewrite app_nil_r|cbn; lia].
  - intros a _. exists []. split; [now rewrite app_nil_r|cbn; lia].
  - intros n _. exists []. split; [now rewrite app_nil_r|cbn; lia].
  - intros a _. exists []. split; [now rewrite app_nil_r|cbn; lia].
  - intros _. exists []. rewrite app_nil_r. split; [|cbn; lia]. unfold handleAgeSubmit.
    destruct (age (fst c)) as [a|]; [destruct (_ || _)|]; auto.
  - intros w _. destruct c as [s d]. cbn [fst snd] in *.
    destruct (handleStudentInfoSubmit_effect s d w) as ((_ & _ & _ & Gr & _) & _).
    exists []. split; [now rewrite app_nil_r|cbn; lia].
  - intros w y _ Hy. destruct c as [s d]. cbn [fst snd] in *.
    destruct (answer_effect s d w y Hy) as [(_ & -> & _)|(q & _ & _ & Hc)].
    + exists []. split; [now rewrite app_nil_r|cbn; lia].
    + cbv zeta in Hc. destruct Hc as ((_ & _ & _ & _ & Gr & _) & _).
      eexists. split; [exact Gr|]. cbn. lia.
Qed.

Lemma questions_grow c e :
  started (fst c) = true ->
  exists extra, questions (fst (step c e)) = questions (fst c) ++ extra.
Proof.
  intro Hst.
  assert (Hs : stage (fst c) <> stage_age /\ stage (fst c) <> stage_student_info).
  { unfold started in Hst. destruct (stage (fst c)); split; discriminate. }
  destruct Hs as [Hs1 Hs2].
  apply (step_cases (fun c' => exists extra, questions (fst c') = questions (fst c) ++ extra)).
  - exists []. now rewrite app_nil_r.
  - intros; contradiction.
  - intros; contradiction.
  - intros a _. exists []. now rewrite app_nil_r.
  - intros; contradiction.
  - intros; contradiction.
  - intros w y _ Hy. destruct c as [s d]. cbn [fst snd] in *.
    destruct (answer_effect s d w y Hy) as [(_ & -> & _)|(q & _ & _ & Hc)].
    { exists []. now rewrite app_nil_r. }
    cbv zeta in Hc. destruct Hc as (_ & Hc).
    destruct Hc as [(_ & _ & _ & Gq & _)|[(_ & _ & _ & _ & _ & Gst & _)|(_ & _ & Gq & _)]].
    + exists []. now rewrite app_nil_r.
    + destruct Gst as [(_ & _ & Gq)|(_ & _ & Gq)]; [|exact Gq].
      exists []. now rewrite app_nil_r.
    + exists []. now rewrite app_nil_r.
Qed.


(** ** Detection and severity as functions of the responses *)

Lemma list_sum_cons a l : list_sum (a :: l) = a + list_sum l.
Proof. reflexivity. Qed.

Lemma indicator_absent c names :
  ~ In c names -> list_sum (map (fun n => if String.eqb c n then 1 else 0) names) = 0.
Proof.
  induction names as [|n names IH]; [reflexivity|]. intro H. cbn [map].
  rewrite list_sum_cons. destruct (String.eqb c n) eqn:E.
  - apply String.eqb_eq in E. exfalso. apply H. now left.
  - apply IH. intro Hin. apply H. now right.
Qed.

Lemma indicator_NoDup c names :
  NoDup names -> list_sum (map (fun n => if String.eqb c n then 1 else 0) names) <= 1.
Proof.
  induction 1 as [|n names Hn Hnd IH]; [cbn; lia|]. cbn [map].
  rewrite list_sum_cons. destruct (String.eqb c n) eqn:E; [|exact IH].
  apply String.eqb_eq in E. subst n. rewrite (indicator_absent c names Hn). lia.
Qed.

Lemma list_sum_map_add {A} (f g : A -> nat) l :
  list_sum (map (fun x => f x + g x) l) = list_sum (map f l) + list_sum (map g l).
Proof.
  induction l as [|x l IH]; [reflexivity|]. cbn [map]. rewrite !list_sum_cons, IH. lia.
Qed.

Lemma list_sum_map_zero {A} (l : list A) : list_sum (map (fun _ => 0) l) = 0.
Proof. induction l as [|x l IH]; [reflexivity|]. cbn [map]. now rewrite list_sum_cons. Qed.

Lemma errorsIn_sum names rs :
  NoDup names -> list_sum (map (fun n => errorsIn n rs) names) <= incorrectCount rs.
Proof.
  intro Hnd. induction rs as [|r rs IH].
  - unfold errorsIn, incorrectCount. cbn. now rewrite list_sum_map_zero.
  - assert (E : forall n, errorsIn n (r :: rs)
                          = (if negb (isCorrect r) && String.eqb (construct r) n then 1 else 0)
                            + errorsIn n rs).
    { intro n. unfold errorsIn. cbn [filter].
      destruct (negb (isCorrect r) && String.eqb (construct r) n); reflexivity. }
    rewrite (map_ext _ _ E), list_sum_map_add.
    unfold incorrectCount in *. cbn [filter].
    destruct (isCorrect r); cbn [negb andb List.length].
    + rewrite list_sum_map_zero. lia.
    + pose proof (indicator_NoDup (construct r) names Hnd). lia.
Qed.

(** X18.  Every detected blocker counts at least two errors, the counts
    of the detected blockers add up to at most the number of incorrect
    responses, and so there are at most half as many blockers as incorrect
    responses: none when every answer is correct, at most five after the
    ten answers of the main test. *)
Theorem blockers_need_two_errors_each (rs : list Response) :
  (forall b, In b (detectedBlockers rs) -> 2 <= error_count b) /\
  list_sum (map error_count (detectedBlockers rs)) <= incorrectCount rs /\
  2 * List.length (detectedBlockers rs) <= incorrectCount rs.
Proof.
  assert (H2 : forall b, In b (detectedBlockers rs) ->
                 error_count b = errorsIn (blocker_name b) rs /\ 2 <= error_count b).
  { intros b Hb. apply detectedBlockers_spec in Hb. destruct Hb as (_ & H2 & ->). auto. }
  assert (Hsum : list_sum (map error_count (detectedBlockers rs)) <= incorrectCount rs).
  { rewrite (map_ext_in error_count (fun b => errorsIn (blocker_name b) rs))
      by (intros b Hb; apply (H2 b Hb)).
    rewrite <- (map_map blocker_name (fun n => errorsIn n rs)).
    apply errorsIn_sum, detectedBlockers_NoDup. }
  conjs; [intros b Hb; apply (H2 b Hb)|exact Hsum|].
  apply Nat.le_trans with (2 := Hsum).
  assert (G : forall l : list Blocker, (forall b, In b l -> 2 <= error_count b) ->
                2 * List.length l <= list_sum (map error_count l)).
  { induction l as [|b l IH]; [cbn; lia|]. intro H. cbn [List.length map].
    rewrite list_sum_cons.
    pose proof (H b (or_introl eq_refl)).
    assert (2 * List.length l <= list_sum (map error_count l))
      by (apply IH; intros b' Hb'; apply H; now right).
    lia. }
  apply G. intros b Hb. apply (H2 b Hb).
Qed.

Lemma errorRate_le rs1 rs2 q1 q2 :
  errorRate rs1 = Some q1 -> errorRate rs2 = Some q2 ->
  incorrectCount rs1 * List.length rs2 <= incorrectCount rs2 * List.length rs1 ->
  (q1 <= q2)%Q.
Proof.
  unfold errorRate. destruct (List.length rs1) as [|n1] eqn:E1; [discriminate|].
  destruct (List.length rs2) as [|n2] eqn:E2; [discriminate|].
  intros [= <-] [= <-] H. unfold Qle. lazy beta iota delta [Qnum Qden].
  assert (P : forall n, Z.pos match n with
                              | 0 => 1
                              | S _ => Pos.succ (Pos.of_nat n)
                              end = Z.of_nat (S n))
    by (intro n; change (Z.pos (Pos.of_nat (S n)) = Z.of_nat (S n)); lia).
  rewrite !P. apply Nat2Z.inj_le in H. rewrite !Nat2Z.inj_mul in H. exact H.
Qed.

Lemma exceeds_monotone rs1 rs2 bound :
  rs2 <> [] ->
  incorrectCount rs1 * List.length rs2 <= incorrectCount rs2 * List.length rs1 ->
  exceeds (errorRate rs1) bound = true -> exceeds (errorRate rs2) bound = true.
Proof.
  intros Hne Hle H1.
  destruct (errorRate rs1) as [q1|] eqn:E1; [|discriminate].
  destruct (errorRate_nonempty rs2 Hne) as (q2 & E2 & _). rewrite E2.
  apply exceeds_spec. apply exceeds_spec in H1.
  eapply Qlt_le_trans; [exact H1|]. eapply errorRate_le; eauto.
Qed.

(** X19.  The severity never goes down when blockers or errors are added:
    with no fewer blockers and an error rate that is no lower (the second
    history being non-empty), the computed severity is the same or higher. *)
Theorem severity_is_monotone (bs1 bs2 : list Blocker) (rs1 rs2 : list Response) :
  List.length bs1 <= List.length bs2 ->
  rs2 <> [] ->
  incorrectCount rs1 * List.length rs2 <= incorrectCount rs2 * List.length rs1 ->
  severity_rank (overallSeverity bs1 rs1) <= severity_rank (overallSeverity bs2 rs2).
Proof.
  intros Hb Hne Hle. unfold overallSeverity.
  pose proof (exceeds_monotone rs1 rs2 (6 # 10) Hne Hle) as M6.
  pose proof (exceeds_monotone rs1 rs2 (4 # 10) Hne Hle) as M4.
  pose proof (exceeds_monotone rs1 rs2 (2 # 10) Hne Hle) as M2.
  destruct (exceeds (errorRate rs1) (6 # 10)), (exceeds (errorRate rs1) (4 # 10)),
    (exceeds (errorRate rs1) (2 # 10));
    try rewrite (M6 eq_refl); try rewrite (M4 eq_refl); try rewrite (M2 eq_refl);
    rewrite ?orb_true_r, ?orb_false_r;
    repeat match goal with
           | |- context [?n <=? ?m] =>
               let E := fresh in destruct (n <=? m) eqn:E;
               [apply Nat.leb_le in E|apply Nat.leb_gt in E]
           | |- context [exceeds ?r ?b] => destruct (exceeds r b)
           end; cbn; lia.
Qed.

Lemma severity_is_monotone_witness :
  severity_rank (overallSeverity [] (repeat (correct_on "Counting") 10))
  <= severity_rank (overallSeverity [mkBlocker "Working Memory" 6] working_memory_history).
Proof.
  apply (severity_is_monotone [] [mkBlocker "Working Memory" 6]
           (repeat (correct_on "Counting") 10) working_memory_history).
  - cbn. lia.
  - discriminate.
  - vm_compute. lia.
Defined.

(** ** Detection does not depend on the order of the responses *)

Lemma filter_length_perm {A} (f : A -> bool) l l' :
  Permutation l l' -> List.length (filter f l) = List.length (filter f l').
Proof.
  induction 1 as [|x l l' _ IH|x y l|l l' l'' _ IH1 _ IH2]; cbn.
  - reflexivity.
  - destruct (f x); cbn; now rewrite IH.
  - destruct (f x), (f y); reflexivity.
  - now rewrite IH1.
Qed.

(** X20.  Which constructs are detected, and with which counts, depends
    only on how many incorrect responses each construct has: reordering
    the responses, or adding correct ones, changes at most the order of
    the blocker list. *)
Theorem detection_ignores_order_and_correct_answers (rs rs' : list Response) :
  Permutation (filter (fun r => negb (isCorrect r)) rs)
              (filter (fun r => negb (isCorrect r)) rs') ->
  forall b, In b (detectedBlockers rs) <-> In b (detectedBlockers rs').
Proof.
  intros Hp b. rewrite !detectedBlockers_spec.
  assert (E : forall c, errorsIn c rs = errorsIn c rs').
  { intro c. rewrite !errorsIn_occurrences. unfold occurrences.
    now apply filter_length_perm. }
  now rewrite E.
Qed.

Lemma detection_ignores_order_and_correct_answers_witness :
  In (mkBlocker "Working Memory" 6) (detectedBlockers working_memory_history) <->
  In (mkBlocker "Working Memory" 6)
     (detectedBlockers (correct_on "Counting" :: rev working_memory_history)).
Proof.
  apply (detection_ignores_order_and_correct_answers working_memory_history
           (correct_on "Counting" :: rev working_memory_history)).
  vm_compute. apply Permutation_refl.
Defined.

(** ** The dashboard *)

Lemma by_id_put {A} (acc : ById A) k v k' :
  by_id (put acc k v) k' = if k =? k' then Some v else by_id acc k'.
Proof.
  induction acc as [|[k0 w] acc IH]; cbn.
  - reflexivity.
  - destruct (k0 =? k) eqn:E; cbn.
    + apply Nat.eqb_eq in E. subst k0. now destruct (k =? k').
    + destruct (k0 =? k') eqn:E'; [|exact IH].
      apply Nat.eqb_eq in E'. subst k0. now rewrite Nat.eqb_sym, E.
Qed.

Lemma by_id_push_ensure {A} (acc : ById (list A)) k x k' :
  or_empty (by_id (push (ensure acc k) k x) k')
  = if k =? k' then or_empty (by_id acc k) ++ [x] else or_empty (by_id acc k').
Proof.
  unfold push, ensure. destruct (by_id acc k) as [l|] eqn:E.
  - rewrite E, by_id_put. destruct (k =? k'); reflexivity.
  - rewrite by_id_put, Nat.eqb_refl, !by_id_put. destruct (k =? k'); reflexivity.
Qed.

(** Grouping with [reduce] collects, under each key, the elements with
    that key, in the order of the array. *)
Lemma by_id_grouped {A B} (key : A -> nat) (f : A -> B) l k :
  or_empty (by_id (fold_left (fun acc x => push (ensure acc (key x)) (key x) (f x)) l []) k)
  = map f (filter (fun x => key x =? k) l).
Proof.
  induction l as [|x l IH] using rev_ind; [reflexivity|].
  rewrite fold_left_app, filter_app, map_app. cbn [fold_left filter].
  rewrite by_id_push_ensure. destruct (key x =? k) eqn:E.
  - apply Nat.eqb_eq in E. subst k. now rewrite IH.
  - rewrite IH. cbn. now rewrite app_nil_r.
Qed.

Lemma by_id_roadmapsByTest roadmaps k :
  by_id (roadmapsByTest roadmaps) k = roadmap_of k roadmaps.
Proof.
  unfold roadmapsByTest, roadmap_of.
  induction roadmaps as [|r l IH] using rev_ind; [reflexivity|].
  rewrite fold_left_app, rev_app_distr. cbn [fold_left rev app find].
  rewrite by_id_put. destruct (roadmap_test_id r =? k); [reflexivity|exact IH].
Qed.

Lemma by_id_blockersByTest blockers k :
  or_empty (by_id (blockersByTest blockers) k) = blockers_of k blockers.
Proof.
  unfold blockersByTest, blockers_of.
  rewrite (by_id_grouped blocker_test_id (fun b => b)). apply map_id.
Qed.

Lemma by_id_testsByStudent tests blockers roadmaps k :
  or_empty (by_id (testsByStudent tests (blockersByTest blockers) (roadmapsByTest roadmaps)) k)
  = map (card_test blockers roadmaps) (tests_of k tests).
Proof.
  unfold testsByStudent, tests_of.
  rewrite (by_id_grouped test_student_id
             (fun test => mkDiagnosticTest test
                            (or_empty (by_id (blockersByTest blockers) (test_id test)))
                            (by_id (roadmapsByTest roadmaps) (test_id test)))).
  apply map_ext. intro t. unfold card_test.
  now rewrite by_id_blockersByTest, by_id_roadmapsByTest.
Qed.

(** X21.  When the four queries succeed, the dashboard shows one card per
    student fetched, in the order fetched; the card lists exactly the
    fetched tests of that student, in the order fetched (the query asks
    for the newest first, and the card takes the first as the latest
    test), each with exactly the fetched blockers of that test and with
    the roadmap fetched last for it; the spinner is off and nothing is
    notified. *)
Theorem dashboard_groups_rows_by_owner (q : Queries) (b : Board)
  (students : list StudentRow) (tests : option (list TestRow))
  (blockers : option (list BlockerRow)) (roadmaps : option (list RoadmapRow)) :
  students_query q = QueryData (Some students) ->
  tests_query q = QueryData tests ->
  blockers_query q = QueryData blockers ->
  roadmaps_query q = QueryData roadmaps ->
  studentsWithTests (loadStudents q b)
  = map (card (or_empty tests) (or_empty blockers) (or_empty roadmaps)) students /\
  board_loading (loadStudents q b) = false /\
  board_toasts (loadStudents q b) = board_toasts b.
Proof.
  intros Hs Ht Hb Hr. unfold loadStudents. rewrite Hs.
  destruct students as [|s students]; [auto|].
  rewrite Ht, Hb, Hr. cbv zeta. cbn [studentsWithTests board_loading board_toasts].
  split; [|auto]. unfold studentsWithTestsData. apply map_ext. intro st.
  unfold card. now rewrite by_id_testsByStudent.
Qed.

Lemma dashboard_groups_rows_by_owner_witness :
  let students := [mkStudentRow 1 "Bo" 9%Z 0; mkStudentRow 0 "Ada" 8%Z 0] in
  let tests := [mkTestRow 2 0 8%Z in_progress none; mkTestRow 1 1 9%Z completed mild;
                mkTestRow 0 0 8%Z completed severe] in
  let blockers := [mkBlockerRow 0 "Working Memory" 4 true; mkBlockerRow 1 "Counting" 2 true;
                   mkBlockerRow 0 "Number Sense" 3 true] in
  let roadmaps := [mkRoadmapRow 0 "five steps"; mkRoadmapRow 1 "three steps"] in
  let q := mkQueries (QueryData (Some students)) (QueryData (Some tests))
                     (QueryData (Some blockers)) (QueryData (Some roadmaps)) in
  studentsWithTests (loadStudents q (mkBoard [] true []))
  = map (card (or_empty (Some tests)) (or_empty (Some blockers)) (or_empty (Some roadmaps)))
        students /\
  board_loading (loadStudents q (mkBoard [] true [])) = false /\
  board_toasts (loadStudents q (mkBoard [] true [])) = board_toasts (mkBoard [] true []).
Proof.
  cbv zeta.
  apply (dashboard_groups_rows_by_owner _ (mkBoard [] true []) _ (Some _) (Some _) (Some _));
    reflexivity.
Defined.

(** ** The roadmap endpoint *)

Lemma upto_last_brace_none s : without "}" s = true -> upto_last_brace s = None.
Proof.
  induction s as [|c s IH]; [reflexivity|]. cbn. intro H.
  apply andb_true_iff in H. destruct H as [Hc Hs]. rewrite (IH Hs).
  apply negb_true_iff in Hc. now rewrite Hc.
Qed.

Lemma upto_last_brace_app body post :
  without "}" post = true ->
  upto_last_brace (body ++ "}" ++ post) = Some (body ++ "}")%string.
Proof.
  intro H. induction body as [|c body IH].
  - cbn. now rewrite (upto_last_brace_none post H).
  - change (upto_last_brace (String c (body ++ "}" ++ post))
            = Some (String c (body ++ "}"))).
    cbn [upto_last_brace]. now rewrite IH.
Qed.

Lemma upto_last_brace_some s : forall t,
  upto_last_brace s = Some t ->
  exists body post, s = (body ++ "}" ++ post)%string /\ t = (body ++ "}")%string /\
                    without "}" post = true.
Proof.
  induction s as [|c s IH]; [discriminate|]. intros t. cbn.
  destruct (upto_last_brace s) as [t'|] eqn:E.
  - intros [= <-]. destruct (IH t' eq_refl) as (body & post & -> & -> & Hp).
    exists (String c body), post. auto.
  - destruct (Ascii.eqb c "}") eqn:Ec; [|discriminate]. intros [= <-].
    apply Ascii.eqb_eq in Ec. subst c. exists "", s. cbn. conjs; auto.
    clear IH. induction s as [|c s IH]; [reflexivity|]. cbn in *.
    destruct (upto_last_brace s); [discriminate|].
    destruct (Ascii.eqb c "}"); [discriminate|]. cbn. now apply IH.
Qed.

Lemma jsonMatch_none s : without "}" s = true -> jsonMatch s = None.
Proof.
  induction s as [|c s IH]; [reflexivity|]. cbn. intro H.
  apply andb_true_iff in H. destruct H as [_ Hs].
  rewrite (upto_last_brace_none s Hs), (IH Hs). now destruct (Ascii.eqb c "{").
Qed.

Lemma jsonMatch_wrapped pre body post :
  without "{" pre = true -> without "}" post = true ->
  jsonMatch (pre ++ "{" ++ body ++ "}" ++ post) = Some ("{" ++ body ++ "}")%string.
Proof.
  intros Hpre Hpost. induction pre as [|c pre IH].
  - change (jsonMatch (String "{" (body ++ "}" ++ post)) = Some (String "{" (body ++ "}"))).
    cbn [jsonMatch]. rewrite Ascii.eqb_refl. now rewrite upto_last_brace_app.
  - cbn in Hpre. apply andb_true_iff in Hpre. destruct Hpre as [Hc Hpre].
    apply negb_true_iff in Hc.
    change (jsonMatch (String c (pre ++ "{" ++ body ++ "}" ++ post))
            = Some ("{" ++ body ++ "}")%string).
    cbn [jsonMatch]. rewrite Hc. now apply IH.
Qed.

Lemma jsonMatch_some content : forall m,
  jsonMatch content = Some m ->
  exists pre body post,
    content = (pre ++ "{" ++ body ++ "}" ++ post)%string /\
    without "{" pre = true /\ without "}" post = true /\
    m = ("{" ++ body ++ "}")%string.
Proof.
  induction content as [|c rest IH]; [discriminate|]. intros m. cbn.
  destruct (Ascii.eqb c "{") eqn:Ec.
  - apply Ascii.eqb_eq in Ec. subst c.
    destruct (upto_last_brace rest) as [t|] eqn:E.
    + intros [= <-]. destruct (upto_last_brace_some rest t E) as (body & post & -> & -> & Hp).
      exists "", body, post. auto.
    + intro H. exfalso.
      assert (Hn : without "}" rest = true).
      { clear -E. induction rest as [|c s IH]; [reflexivity|]. cbn in *.
        destruct (upto_last_brace s); [discriminate|].
        destruct (Ascii.eqb c "}"); [discriminate|]. cbn. now apply IH. }
      rewrite (jsonMatch_none rest Hn) in H. discriminate.
  - intro H. destruct (IH m H) as (pre & body & post & -> & Hpre & Hpost & ->).
    exists (String c pre), body, post. cbn. rewrite Ec. auto.
Qed.

(** X22.  The endpoint takes from the model's reply the text from the
    first opening brace to the last closing brace: a JSON object wrapped in
    prose or in a code fence that contains no brace of its own is recovered
    exactly, whatever the object holds; conversely whatever is extracted
    has this shape, so a reply in which no closing brace follows an
    opening one yields no match. *)
Theorem jsonMatch_takes_first_to_last_brace (content m : string) :
  jsonMatch content = Some m <->
  exists pre body post,
    content = (pre ++ "{" ++ body ++ "}" ++ post)%string /\
    without "{" pre = true /\ without "}" post = true /\
    m = ("{" ++ body ++ "}")%string.
Proof.
  split; [apply jsonMatch_some|].
  intros (pre & body & post & -> & Hpre & Hpost & ->). now apply jsonMatch_wrapped.
Qed.
